(** * modern-fullstack-cli: the rename routine of [src/index.js]

    A shallow embedding of [renameProject], its helper [getFiles] and the
    [rename] command action, over a model of the file system that the program
    reads and writes through [fs-extra], followed by the theorems about them. *)

From Stdlib Require Import String Ascii List Bool Arith Lia.
Import ListNotations.
Local Open Scope list_scope.
Local Open Scope string_scope.
Set Warnings "-register-all".

(** ** JavaScript strings

    A string is a [string] of the Standard Library; the tokens searched for
    are ASCII, and the functions below are the [String.prototype] methods that
    [src/index.js] calls. *)

Module JsString.

(** [s.startsWith(p)] *)
Fixpoint startsWith (s p : string) {struct p} : bool :=
  match p with
  | EmptyString => true
  | String b p' =>
      match s with
      | EmptyString => false
      | String a s' => Ascii.eqb a b && startsWith s' p'
      end
  end.

(** [s.endsWith(p)], used for the [$]-anchored extension test. *)
Fixpoint endsWith (s p : string) : bool :=
  String.eqb s p ||
  match s with
  | EmptyString => false
  | String _ s' => endsWith s' p
  end.

(** [s.includes(p)] *)
Fixpoint includes (s p : string) : bool :=
  startsWith s p ||
  match s with
  | EmptyString => false
  | String _ s' => includes s' p
  end.

(** [s.substring(n)] / [s.slice(n)] for [0 <= n]. *)
Fixpoint drop (n : nat) (s : string) : string :=
  match n, s with
  | S k, String _ s' => drop k s'
  | _, _ => s
  end.

Definition cons_head (a : ascii) (l : list string) : list string :=
  match l with
  | [] => [String a EmptyString]
  | h :: t => String a h :: t
  end.

(** [s.split(sep)] for a non-empty separator: the pieces between the
    leftmost, non-overlapping occurrences of [sep].  [skip] counts the
    characters of a matched separator still to be passed over. *)
Fixpoint split_from (sep : string) (skip : nat) (s : string) : list string :=
  match s with
  | EmptyString => [EmptyString]
  | String a s' =>
      match skip with
      | S k => split_from sep k s'
      | O =>
          if startsWith s sep
          then EmptyString :: split_from sep (String.length sep - 1) s'
          else cons_head a (split_from sep 0 s')
      end
  end.

(** [s.split("")] gives the characters of [s]. *)
Definition split (s sep : string) : list string :=
  match sep with
  | EmptyString => map (fun a => String a EmptyString) (list_ascii_of_string s)
  | _ => split_from sep 0 s
  end.

(** [l.join(sep)] *)
Definition join (l : list string) (sep : string) : string := String.concat sep l.

(** [s.replace(pat, repl)] with a string pattern: the first occurrence only.
    The replacement is taken literally, which is what JavaScript does when
    [repl] has no [$]; every replacement in [renameProject] is built from
    the new name, which the callers validate against [^[a-z0-9-_]+$]. *)
Fixpoint replace (s pat repl : string) : string :=
  if startsWith s pat then repl ++ drop (String.length pat) s
  else
    match s with
    | EmptyString => EmptyString
    | String a s' => String a (replace s' pat repl)
    end.

(** [s.replace(/pat/g, repl)] for a pattern without metacharacters: every
    leftmost non-overlapping occurrence. *)
Fixpoint replaceAll_from (pat repl : string) (skip : nat) (s : string) : string :=
  match s with
  | EmptyString => EmptyString
  | String a s' =>
      match skip with
      | S k => replaceAll_from pat repl k s'
      | O =>
          if startsWith s pat
          then repl ++ replaceAll_from pat repl (String.length pat - 1) s'
          else String a (replaceAll_from pat repl 0 s')
      end
  end.

Definition replaceAll (s pat repl : string) : string :=
  replaceAll_from pat repl 0 s.

(** [c.toUpperCase()] on one ASCII character: the letters [a] to [z] go to
    [A] to [Z], every other byte is kept.  This is the case mapping of
    JavaScript on the characters that the pattern of [validName] admits. *)
Definition toUpperCase (a : ascii) : ascii :=
  let n := nat_of_ascii a in
  if ((97 <=? n)%nat && (n <=? 122)%nat)%bool then ascii_of_nat (n - 32) else a.

(** [w.charAt(0).toUpperCase() + w.slice(1)], for a word of ASCII characters,
    where the first byte is the first character. *)
Definition capitalize (w : string) : string :=
  match w with
  | EmptyString => EmptyString
  | String a w' => String (toUpperCase a) w'
  end.

End JsString.
Import JsString.

(** ** JSON values and JavaScript objects

    [fs.readJson] yields the value [JSON.parse] builds.  An object is the list
    of its own properties in the order JavaScript enumerates them; a number is
    held as the text JavaScript prints for it. *)

Inductive json : Type :=
| JNull
| JBool (b : bool)
| JNumber (n : string)
| JString (s : string)
| JArray (l : list json)
| JObject (kvs : list (string * json)).

Module Obj.

(** [o[k]]: the value of the own property [k], if there is one. *)
Fixpoint get (k : string) (kvs : list (string * json)) : option json :=
  match kvs with
  | [] => None
  | (k', v) :: r => if String.eqb k k' then Some v else get k r
  end.

(** [o[k] = v]: an existing property keeps its place, a new one goes last
    (the keys written by [renameProject] are [name] and keys that begin with
    [@], never array indices, which JavaScript would order first). *)
Fixpoint set (k : string) (v : json) (kvs : list (string * json))
  : list (string * json) :=
  match kvs with
  | [] => [(k, v)]
  | (k', v') :: r =>
      if String.eqb k k' then (k', v) :: r else (k', v') :: set k v r
  end.

(** [delete o[k]] *)
Definition delete (k : string) (kvs : list (string * json))
  : list (string * json) :=
  filter (fun kv => negb (String.eqb k (fst kv))) kvs.

(** [Object.keys(o)] *)
Definition keys (kvs : list (string * json)) : list string := map fst kvs.

End Obj.

(** The property [k] of a parsed value; [None] is JavaScript's [undefined]
    (arrays and primitives have no own property of the names used here). *)
Definition prop (k : string) (j : json) : option json :=
  match j with
  | JObject kvs => Obj.get k kvs
  | _ => None
  end.

(** Truthiness of a property value, as the [if (data.dependencies)] tests
    see it. *)
Definition truthy (v : option json) : bool :=
  match v with
  | None => false
  | Some JNull => false
  | Some (JBool b) => b
  | Some (JNumber n) => negb (String.eqb n "0" || String.eqb n "-0")
  | Some (JString s) => negb (String.eqb s "")
  | Some (JArray _) => true
  | Some (JObject _) => true
  end.

(** *** [JSON.stringify(data, null, 2)], the text [fs.writeJson] writes
    with [{ spaces: 2 }]. *)

Module Stringify.

Definition dquote : ascii := ascii_of_nat 34.
Definition backslash : ascii := ascii_of_nat 92.

Definition hex_digit (n : nat) : ascii :=
  ascii_of_nat (if (n <? 10)%nat then 48 + n else 87 + n).

Definition escape_char (a : ascii) : string :=
  let n := nat_of_ascii a in
  if (n =? 34)%nat then String backslash (String dquote "") else
  if (n =? 92)%nat then String backslash (String backslash "") else
  if (n =? 8)%nat then String backslash "b" else
  if (n =? 9)%nat then String backslash "t" else
  if (n =? 10)%nat then String backslash "n" else
  if (n =? 12)%nat then String backslash "f" else
  if (n =? 13)%nat then String backslash "r" else
  if (n <? 32)%nat
  then String backslash "u00" ++ String (hex_digit (n / 16)) (String (hex_digit (n mod 16)) "")
  else String a "".

Fixpoint escape (s : string) : string :=
  match s with
  | EmptyString => EmptyString
  | String a s' => escape_char a ++ escape s'
  end.

Definition quote (s : string) : string :=
  String dquote (escape s ++ String dquote "").

Definition newline : string := String (ascii_of_nat 10) "".

Fixpoint value (indent : string) (j : json) : string :=
  let inner := indent ++ "  " in
  match j with
  | JNull => "null"
  | JBool true => "true"
  | JBool false => "false"
  | JNumber n => n
  | JString s => quote s
  | JArray [] => "[]"
  | JArray l =>
      "[" ++ newline ++ inner
      ++ String.concat ("," ++ newline ++ inner) (map (value inner) l)
      ++ newline ++ indent ++ "]"
  | JObject [] => "{}"
  | JObject kvs =>
      "{" ++ newline ++ inner
      ++ String.concat ("," ++ newline ++ inner)
           (map (fun kv => quote (fst kv) ++ ": " ++ value inner (snd kv)) kvs)
      ++ newline ++ indent ++ "}"
  end.

(** [fs.writeJson] ends the file with a line feed. *)
Definition document (j : json) : string := value "" j ++ newline.

End Stringify.

(** ** The file system

    A directory is the list of its entries in the order [fs.readdir] lists
    them (on a real file system the names in one directory are distinct).
    A regular file holds either a JSON document, for which [fs.readJson]
    returns the value, or text that [JSON.parse] rejects when the program asks
    for it.  A path is the list of the components of a resolved absolute
    path, so [path.join(dir, x)] is [dir // x].  Symbolic links are not
    modelled. *)

Inductive content : Type :=
| Text (s : string)
| Json (j : json).

Inductive node : Type :=
| File (c : content)
| Dir (entries : list (string * node)).

Definition path : Type := list string.

Definition sub (dir : path) (x : string) : path := (dir ++ [x])%list.

Notation "dir // x" := (sub dir x) (at level 40, left associativity).

(** The text of a file, as [fs.readFile(file, "utf8")] returns it. *)
Definition text_of (c : content) : string :=
  match c with
  | Text s => s
  | Json j => Stringify.document j
  end.

Module Fs.

Fixpoint assoc (x : string) (es : list (string * node)) : option node :=
  match es with
  | [] => None
  | (y, m) :: r => if String.eqb x y then Some m else assoc x r
  end.

Fixpoint lookup (p : path) (n : node) : option node :=
  match p with
  | [] => Some n
  | x :: p' =>
      match n with
      | File _ => None
      | Dir es =>
          match assoc x es with
          | Some m => lookup p' m
          | None => None
          end
      end
  end.

(** Replace the entry [x] by [f] of it, or add [fresh] when there is none. *)
Fixpoint alter (x : string) (f : node -> option node) (fresh : option node)
  (es : list (string * node)) : option (list (string * node)) :=
  match es with
  | [] => option_map (fun m => [(x, m)]) fresh
  | (y, m) :: r =>
      if String.eqb x y
      then option_map (fun m' => (y, m') :: r) (f m)
      else option_map (cons (y, m)) (alter x f fresh r)
  end.

(** Write a regular file at [p]: the file is replaced, or created in an
    existing directory; [None] when [p] is a directory or its parent is not
    one. *)
Fixpoint put (p : path) (c : content) (n : node) : option node :=
  match p with
  | [] =>
      match n with
      | File _ => Some (File c)
      | Dir _ => None
      end
  | x :: p' =>
      match n with
      | File _ => None
      | Dir es =>
          option_map Dir
            (alter x (put p' c)
               (match p' with [] => Some (File c) | _ => None end) es)
      end
  end.

(** The regular files below a directory node, depth first in listing
    order, as full paths. *)
Fixpoint files_below (dir : path) (n : node) : list path :=
  match n with
  | File _ => []
  | Dir es =>
      flat_map
        (fun e =>
           match snd e with
           | Dir _ => files_below (dir // fst e) (snd e)
           | File _ => [dir // fst e]
           end) es
  end.

(** Take the entry [x] out of a directory listing. *)
Definition remove (x : string) (es : list (string * node))
  : list (string * node) :=
  filter (fun e => negb (String.eqb x (fst e))) es.

(** Apply [f] to the entries of the directory at [p]. *)
Fixpoint update_dir (p : path)
  (f : list (string * node) -> list (string * node)) (n : node) : option node :=
  match n with
  | File _ => None
  | Dir es =>
      match p with
      | [] => Some (Dir (f es))
      | x :: p' => option_map Dir (alter x (update_dir p' f) None es)
      end
  end.

End Fs.

(** ** Effects: the file system, thrown errors and what is printed *)

Inductive error : Type :=
| ENOENT
| ENOTDIR
| EISDIR
| EINVAL
| SyntaxError
| TypeError.

Inductive outcome (A : Type) : Type :=
| Ok (a : A)
| Throw (e : error).

Arguments Ok {A} a.
Arguments Throw {A} e.

(** What a run leaves behind besides the tree: each file write, and each
    line the command reports. *)
Inductive event : Type :=
| Wrote (p : path)
| Moved (from to : path)
| SpinnerStart (msg : string)
| SpinnerSucceed (msg : string)
| SpinnerFail (msg : string)
| ConsoleLog (msg : string)
| ConsoleError (e : error).

Record world : Type := World { tree : node; trace : list event }.

Definition M (A : Type) : Type := world -> outcome A * world.

Definition ret {A} (a : A) : M A := fun w => (Ok a, w).

Definition throw {A} (e : error) : M A := fun w => (Throw e, w).

Definition bind {A B} (m : M A) (k : A -> M B) : M B :=
  fun w =>
    match m w with
    | (Ok a, w') => k a w'
    | (Throw e, w') => (Throw e, w')
    end.

Notation "x <- m ;; k" := (bind m (fun x => k))
  (at level 61, m at next level, right associativity).
Notation "m ;; k" := (bind m (fun _ => k))
  (at level 61, right associativity).

(** [try { m } catch (e) { h e }] *)
Definition try_catch {A} (m : M A) (h : error -> M A) : M A :=
  fun w =>
    match m w with
    | (Ok a, w') => (Ok a, w')
    | (Throw e, w') => h e w'
    end.

Definition emit (e : event) : M unit :=
  fun w => (Ok tt, World (tree w) (trace w ++ [e])%list).

(** [for (const x of l) { body x }] *)
Fixpoint forM_ {A} (l : list A) (body : A -> M unit) : M unit :=
  match l with
  | [] => ret tt
  | x :: r => body x ;; forM_ r body
  end.

(** *** The calls of [fs-extra] that the program makes *)

Definition existsSync (p : path) : M bool :=
  fun w =>
    (Ok (match Fs.lookup p (tree w) with Some _ => true | None => false end), w).

Definition readdir (p : path) : M (list string) :=
  fun w =>
    match Fs.lookup p (tree w) with
    | Some (Dir es) => (Ok (map fst es), w)
    | Some (File _) => (Throw ENOTDIR, w)
    | None => (Throw ENOENT, w)
    end.

(** [(await fs.stat(p)).isDirectory()] *)
Definition isDirectory (p : path) : M bool :=
  fun w =>
    match Fs.lookup p (tree w) with
    | Some (Dir _) => (Ok true, w)
    | Some (File _) => (Ok false, w)
    | None => (Throw ENOENT, w)
    end.

Definition readFile (p : path) : M string :=
  fun w =>
    match Fs.lookup p (tree w) with
    | Some (File c) => (Ok (text_of c), w)
    | Some (Dir _) => (Throw EISDIR, w)
    | None => (Throw ENOENT, w)
    end.

Definition readJson (p : path) : M json :=
  fun w =>
    match Fs.lookup p (tree w) with
    | Some (File (Json j)) => (Ok j, w)
    | Some (File (Text _)) => (Throw SyntaxError, w)
    | Some (Dir _) => (Throw EISDIR, w)
    | None => (Throw ENOENT, w)
    end.

Definition write (p : path) (c : content) : M unit :=
  fun w =>
    match Fs.put p c (tree w) with
    | Some t => (Ok tt, World t (trace w ++ [Wrote p])%list)
    | None =>
        (Throw (match Fs.lookup p (tree w) with
                | Some _ => EISDIR
                | None => ENOENT
                end), w)
    end.

Definition writeFile (p : path) (s : string) : M unit := write p (Text s).

(** [fs.writeJson(p, data, { spaces: 2 })] *)
Definition writeJson (p : path) (data : json) : M unit := write p (Json data).

(** ** [renameProject] and [getFiles] *)

Definition fallbackScope : string := "@repo".
Definition boilerplate : string := "modern-fullstack-boilerplate".
Definition displayName : string := "Modern Fullstack Boilerplate".

(** [data.name] as the receiver of a string method: calling [startsWith] on
    it throws a [TypeError] unless it is a string ([data] is [null], has no
    [name], or holds another kind of value there). *)
Definition name_of (data : json) : M string :=
  match prop "name" data with
  | Some (JString s) => ret s
  | _ => throw TypeError
  end.

(** [data[k] = v] on a parsed value.  The module is strict code, so the
    assignment throws on [null] and on a primitive; on an array it adds a
    property that [JSON.stringify] leaves out. *)
Definition assign (k : string) (v : json) (data : json) : M json :=
  match data with
  | JObject kvs => ret (JObject (Obj.set k v kvs))
  | JArray l => ret (JArray l)
  | _ => throw TypeError
  end.

(** [name.startsWith("@") && name.includes("/")], the test of line 216. *)
Definition scoped (name : string) : bool :=
  startsWith name "@" && includes name "/".

(** The scan of lines 212-222, with [break] as the return. *)
Fixpoint detectScope (packagesDir : path) (packages : list string) : M string :=
  match packages with
  | [] => ret fallbackScope
  | pkg :: rest =>
      let pkgJsonPath := packagesDir // pkg // "package.json" in
      e <- existsSync pkgJsonPath ;;
      if e then
        data <- readJson pkgJsonPath ;;
        name <- name_of data ;;
        if scoped name
        then ret (hd "" (split name "/"))
        else detectScope packagesDir rest
      else detectScope packagesDir rest
  end.

(** Lines 251-253. *)
Definition renameName (oldScopeToken newScopeToken : string)
  (name : string) (data : list (string * json)) : list (string * json) :=
  if startsWith name oldScopeToken
  then Obj.set "name" (JString (replace name oldScopeToken newScopeToken)) data
  else data.

(** One turn of the loops of lines 257-263 and 267-273 on the mapping
    [deps].  [deps[dep]] is read when the turn runs; a key no longer there
    reads as [undefined], which [JSON.stringify] does not write. *)
Definition rekeyDep (oldScopeToken newScopeToken : string)
  (deps : list (string * json)) (dep : string) : list (string * json) :=
  if startsWith dep oldScopeToken then
    let newDep := replace dep oldScopeToken newScopeToken in
    match Obj.get dep deps with
    | Some v => Obj.delete dep (Obj.set newDep v deps)
    | None => Obj.delete dep (Obj.delete newDep deps)
    end
  else deps.

(** The loop over [Object.keys(deps)], the keys taken before the first turn. *)
Definition rekeyDeps (oldScopeToken newScopeToken : string)
  (deps : list (string * json)) : list (string * json) :=
  fold_left (rekeyDep oldScopeToken newScopeToken) (Obj.keys deps) deps.

(** Lines 256-264 for [field = "dependencies"], 266-274 for
    ["devDependencies"].  The mapping is changed in place, so the field keeps
    its position.  A truthy value that is no object (an array, a string, a
    number, [true]) has only index keys or none; no index begins with the
    [@] of the token, so nothing is rekeyed there. *)
Definition updateDeps (field oldScopeToken newScopeToken : string)
  (data : list (string * json)) : list (string * json) :=
  if truthy (Obj.get field data) then
    match Obj.get field data with
    | Some (JObject deps) =>
        Obj.set field (JObject (rekeyDeps oldScopeToken newScopeToken deps)) data
    | _ => data
    end
  else data.

(** Lines 250-274: what is done to the parsed manifest of one package whose
    [name] is the string [name]. *)
Definition updateManifest (oldScopeToken newScopeToken : string)
  (name : string) (data : list (string * json)) : list (string * json) :=
  updateDeps "devDependencies" oldScopeToken newScopeToken
    (updateDeps "dependencies" oldScopeToken newScopeToken
       (renameName oldScopeToken newScopeToken name data)).

(** [/\.(ts|tsx|js|jsx)$/.test(file)]: the pattern is anchored at the end of
    the path, and no alternative has a separator, so it is a test of the last
    component. *)
Definition hasSourceExtension (file : path) : bool :=
  let f := last file "" in
  endsWith f ".ts" || endsWith f ".tsx" || endsWith f ".js" || endsWith f ".jsx".

(** [getFiles(dir)]: [readdir], then for each entry in order either the
    files below it or the entry itself; [Promise.all] keeps the order. *)
Definition getFiles (dir : path) : M (list path) :=
  fun w =>
    match Fs.lookup dir (tree w) with
    | Some (Dir es) => (Ok (Fs.files_below dir (Dir es)), w)
    | Some (File _) => (Throw ENOTDIR, w)
    | None => (Throw ENOENT, w)
    end.

(** Lines 283-298, for one file of [getFiles(srcDir)]. *)
Definition updateSourceFile (oldScopeToken newScopeToken newName : string)
  (file : path) : M unit :=
  if hasSourceExtension file then
    content <- readFile file ;;
    content <-
      (if includes content oldScopeToken then
         let content' := join (split content oldScopeToken) newScopeToken in
         writeFile file content' ;; ret content'
       else ret content) ;;
    if includes content boilerplate then
      writeFile file (replaceAll content boilerplate newName)
    else ret tt
  else ret tt.

(** Lines 278-300: the source files of the package at [pkgPath]. *)
Definition updateSources (pkgPath : path)
  (oldScopeToken newScopeToken newName : string) : M unit :=
  let srcDir := pkgPath // "src" in
  s <- existsSync srcDir ;;
  if s then
    files <- getFiles srcDir ;;
    forM_ files (updateSourceFile oldScopeToken newScopeToken newName)
  else ret tt.

(** Lines 241-301, for one entry [pkg] of [packages/].  When [data.name] is
    a string, [data] is an object. *)
Definition updatePackage (packagesDir : path)
  (oldScopeToken newScopeToken newName : string) (pkg : string) : M unit :=
  let pkgPath := packagesDir // pkg in
  let pkgJsonPath := pkgPath // "package.json" in
  d <- isDirectory pkgPath ;;
  e <- existsSync pkgJsonPath ;;
  if d && e then
    data <- readJson pkgJsonPath ;;
    name <- name_of data ;;
    match data with
    | JObject kvs =>
        writeJson pkgJsonPath
          (JObject (updateManifest oldScopeToken newScopeToken name kvs))
    | _ => throw TypeError
    end ;;
    updateSources pkgPath oldScopeToken newScopeToken newName
  else ret tt.

(** Lines 314-317. *)
Definition titleCase (newName : string) : string :=
  join (map capitalize (split newName "-")) " ".

(** Lines 312-321, for one of the two extra files. *)
Definition updateExtraFile (newName : string) (file : path) : M unit :=
  e <- existsSync file ;;
  if e then
    content <- readFile file ;;
    let content1 := replaceAll content displayName (titleCase newName) in
    let content2 := replaceAll content1 boilerplate newName in
    writeFile file content2
  else ret tt.

(** Lines 206-223: the scope in use, [@repo] unless a package shows one. *)
Definition detectCurrentScope (packagesDir : path) : M string :=
  e <- existsSync packagesDir ;;
  if e then
    packages <- readdir packagesDir ;;
    detectScope packagesDir packages
  else ret fallbackScope.

(** Lines 229-235. *)
Definition updateRootManifest (rootDir : path) (newName : string) : M unit :=
  let rootPkgPath := rootDir // "package.json" in
  e <- existsSync rootPkgPath ;;
  if e then
    data <- readJson rootPkgPath ;;
    data' <- assign "name" (JString newName) data ;;
    writeJson rootPkgPath data'
  else ret tt.

(** Lines 238-303. *)
Definition updatePackages (packagesDir : path)
  (oldScopeToken newScopeToken newName : string) : M unit :=
  e <- existsSync packagesDir ;;
  if e then
    packages <- readdir packagesDir ;;
    forM_ packages
      (updatePackage packagesDir oldScopeToken newScopeToken newName)
  else ret tt.

(** Lines 306-322. *)
Definition updateExtraFiles (rootDir : path) (newName : string) : M unit :=
  forM_ [rootDir // "README.md";
         rootDir // "packages" // "frontend" // "index.html"]
    (updateExtraFile newName).

Definition renameProject (rootDir : path) (newName : string) : M unit :=
  let packagesDir := rootDir // "packages" in
  currentScopeFull <- detectCurrentScope packagesDir ;;
  let oldScopeToken := currentScopeFull ++ "/" in
  let newScopeToken := "@" ++ newName ++ "/" in
  updateRootManifest rootDir newName ;;
  updatePackages packagesDir oldScopeToken newScopeToken newName ;;
  updateExtraFiles rootDir newName.

(** ** The [rename] command (lines 146-198) *)

Inductive status : Type :=
| Exited (code : nat)
| Returned.

(** [/^[a-z0-9-_]+$/.test(newName)] *)
Definition nameChar (a : ascii) : bool :=
  let n := nat_of_ascii a in
  ((97 <=? n)%nat && (n <=? 122)%nat)
  || ((48 <=? n)%nat && (n <=? 57)%nat)
  || (n =? 45)%nat || (n =? 95)%nat.

Definition validName (newName : string) : bool :=
  negb (String.eqb newName "")
  && forallb nameChar (list_ascii_of_string newName).

(** A path argument as typed: absolute or not, and its components. *)
Record pathArg : Type := PathArg { absolute : bool; components : list string }.

Fixpoint normalize (done : list string) (todo : list string) : path :=
  match todo with
  | [] => rev done
  | c :: r =>
      if String.eqb c "" || String.eqb c "." then normalize done r
      else if String.eqb c ".." then normalize (tl done) r
      else normalize (c :: done) r
  end.

(** [path.resolve(cwd, p)] *)
Definition resolve (cwd : path) (p : pathArg) : path :=
  normalize (if absolute p then [] else rev cwd) (components p).

(** [path.dirname(p)] *)
Definition dirname (p : path) : path := removelast p.

Definition path_eqb (p q : path) : bool :=
  if list_eq_dec string_dec p q then true else false.

Definition show (p : path) : string := "/" ++ join p "/".

(** [fs.rename(from, to)], which the command calls only after it found that
    nothing exists at [to]. *)
Definition fsRename (from to : path) : M unit :=
  fun w =>
    match from, Fs.lookup from (tree w), Fs.lookup to (tree w) with
    | _ :: _, Some n, None =>
        match Fs.update_dir (dirname from) (Fs.remove (last from "")) (tree w) with
        | Some t1 =>
            match Fs.update_dir (dirname to)
                    (fun es => (es ++ [(last to "", n)])%list) t1 with
            | Some t2 => (Ok tt, World t2 (trace w ++ [Moved from to])%list)
            | None => (Throw ENOENT, w)
            end
        | None => (Throw ENOENT, w)
        end
    | [], _, _ => (Throw EINVAL, w)
    | _, None, _ => (Throw ENOENT, w)
    | _, _, Some _ => (Throw EINVAL, w)
    end.

Definition renamedMsg : string := "Project renamed successfully.".
Definition failedMsg : string := "Failed to rename project.".

(** Lines 174-193: attempt to rename the folder itself. *)
Definition moveFolder (cwd targetDir : path) (newName : string) : M unit :=
  if negb (path_eqb targetDir cwd) then
    let newTargetDir := dirname targetDir // newName in
    e <- existsSync newTargetDir ;;
    if e then
      emit (ConsoleLog ("Cannot rename folder: Directory " ++ newName
                        ++ " already exists."))
    else
      fsRename targetDir newTargetDir ;;
      emit (ConsoleLog ("Folder renamed to: " ++ newName))
  else
    emit (ConsoleLog "Note: The folder name itself was not changed because you are currently inside it.").

(** The body of the [try] block, lines 169-193. *)
Definition renameAndMove (cwd targetDir : path) (newName : string) : M unit :=
  renameProject targetDir newName ;;
  emit (SpinnerSucceed renamedMsg) ;;
  renameProject targetDir newName ;;
  emit (SpinnerSucceed renamedMsg) ;;
  moveFolder cwd targetDir newName.

Definition renameCommand (cwd : path) (projectPath : pathArg)
  (newName : string) : M status :=
  let targetDir := resolve cwd projectPath in
  e <- existsSync targetDir ;;
  if negb e then
    emit (ConsoleLog ("Directory " ++ show targetDir ++ " does not exist.")) ;;
    ret (Exited 1)
  else if negb (validName newName) then
    emit (ConsoleLog "Invalid name. Use only lowercase letters, numbers, hyphens, and underscores.") ;;
    ret (Exited 1)
  else
    emit (SpinnerStart ("Renaming project at " ++ show targetDir ++ " to "
                        ++ newName ++ "...")) ;;
    try_catch (renameAndMove cwd targetDir newName)
      (fun e => emit (SpinnerFail failedMsg) ;; emit (ConsoleError e)) ;;
    ret Returned.

(** A run from a tree with nothing reported yet. *)
Definition run {A} (m : M A) (t : node) : outcome A * world := m (World t []).

(** * Predicates of the statements *)

(** ** Trees of the same shape *)

(** Two trees of the same shape whose files are related by [R]. *)
Section Sim.

Variable R : content -> content -> Prop.

Section Entries.
Variable P : node -> node -> Prop.

Fixpoint entries_rel (es es' : list (string * node)) : Prop :=
  match es, es' with
  | [], [] => True
  | e :: r, e' :: r' => fst e = fst e' /\ P (snd e) (snd e') /\ entries_rel r r'
  | _, _ => False
  end.
End Entries.

Fixpoint sim (a b : node) : Prop :=
  match a, b with
  | File c, File c' => R c c'
  | Dir es, Dir es' => entries_rel sim es es'
  | _, _ => False
  end.

Definition sim_opt (a b : option node) : Prop :=
  match a, b with
  | Some x, Some y => sim x y
  | None, None => True
  | _, _ => False
  end.

End Sim.

(** ** Invariants of the calls *)

Definition is_file (p : path) (t : node) : Prop :=
  exists c, Fs.lookup p t = Some (File c).

Definition any_content (_ _ : content) : Prop := True.

(** [same_shape a b]: the same directories, entries and files, whatever the
    files hold. *)
Definition same_shape : node -> node -> Prop := sim any_content.

(** A property of the world that no overwriting of an existing file at a
    path of [S] breaks. *)
Definition stable (S : path -> Prop) (I : world -> Prop) : Prop :=
  forall w p c t',
    I w -> S p -> is_file p (tree w) -> Fs.put p c (tree w) = Some t' ->
    I (World t' (trace w ++ [Wrote p])%list).

(** [m] keeps [I], however it ends. *)
Definition preserves {A} (I : world -> Prop) (m : M A) : Prop :=
  forall w r w', I w -> m w = (r, w') -> I w'.

(** The paths [renameProject] writes to. *)
Definition footprint (rootDir : path) (p : path) : Prop :=
  p = rootDir // "package.json"
  \/ (exists pkg, p = rootDir // "packages" // pkg // "package.json")
  \/ (exists pkg r, p = (rootDir // "packages" // pkg // "src" ++ r)%list)
  \/ p = rootDir // "README.md"
  \/ p = rootDir // "packages" // "frontend" // "index.html".

(** ** Packages and their manifests *)

Definition manifestPath (packagesDir : path) (pkg : string) : path :=
  packagesDir // pkg // "package.json".

(** The entry [pkg] lets the scan go on: it has no manifest, or one whose
    name is a string that is not scoped. *)
Definition yields_no_scope (packagesDir : path) (t : node) (pkg : string) : Prop :=
  Fs.lookup (manifestPath packagesDir pkg) t = None
  \/ exists kvs n,
       Fs.lookup (manifestPath packagesDir pkg) t = Some (File (Json (JObject kvs)))
       /\ Obj.get "name" kvs = Some (JString n) /\ scoped n = false.

(** What [fs.readJson] followed by the reading of [data.name] throws on. *)
Inductive unreadable : content -> error -> Prop :=
| unreadable_text s : unreadable (Text s) SyntaxError
| unreadable_name data :
    (forall n, prop "name" data <> Some (JString n)) ->
    unreadable (Json data) TypeError.

(** ** A run that stops at a package *)

(** The run up to the package [pkg]: the scope was found, the root manifest
    was updated, and the entries [pre] listed before [pkg] were updated. *)
Definition reaches (rootDir : path) (newName : string) (w : world)
  (pre : list string) (scope : string) (w1 : world) : Prop :=
  detectCurrentScope (rootDir // "packages") w = (Ok scope, w)
  /\ exists w0,
       updateRootManifest rootDir newName w = (Ok tt, w0)
       /\ forM_ pre (updatePackage (rootDir // "packages") (scope ++ "/")
                       ("@" ++ newName ++ "/") newName) w0 = (Ok tt, w1).

(** What the run has not touched when it stops at [pkg]: the two extra
    files, and every package that is not listed before [pkg]. *)
Definition untouched_after (rootDir : path) (w w1 : world)
  (pre : list string) : Prop :=
  Fs.lookup (rootDir // "README.md") (tree w1)
  = Fs.lookup (rootDir // "README.md") (tree w)
  /\ Fs.lookup (rootDir // "packages" // "frontend" // "index.html") (tree w1)
     = Fs.lookup (rootDir // "packages" // "frontend" // "index.html") (tree w)
  /\ forall other r, ~ In other pre ->
       Fs.lookup (rootDir // "packages" // other ++ r)%list (tree w1)
       = Fs.lookup (rootDir // "packages" // other ++ r)%list (tree w).

(** ** Names *)

(** The package [pkg] has a manifest with the fields [kvs], named [name]. *)
Definition manifest_at (packagesDir : path) (pkg : string) (t : node)
  (kvs : list (string * json)) (name : string) : Prop :=
  Fs.lookup (manifestPath packagesDir pkg) t = Some (File (Json (JObject kvs)))
  /\ Obj.get "name" kvs = Some (JString name).

(** The name of the package [pkg] satisfies [P]. *)
Definition named (packagesDir : path) (pkg : string) (P : string -> Prop)
  (w : world) : Prop :=
  exists kvs name, manifest_at packagesDir pkg (tree w) kvs name /\ P name.

(** Line 251-253 on the name alone. *)
Definition renamed (old new name : string) : string :=
  if startsWith name old then replace name old new else name.

(** The world after one more line was reported. *)
Definition reported (w : world) (e : event) : world :=
  World (tree w) (trace w ++ [e])%list.

(** ** A second run *)

(** Two objects with the same fields but for [dependencies] and
    [devDependencies]. *)
Definition same_but_deps (kvs kvs' : list (string * json)) : Prop :=
  forall k, k <> "dependencies" -> k <> "devDependencies" ->
            Obj.get k kvs = Obj.get k kvs'.

(** Two files with the same content, but for the dependency mappings of a
    JSON object. *)
Definition same_but_deps_content (c c' : content) : Prop :=
  match c, c' with
  | Text s, Text s' => s = s'
  | Json (JObject kvs), Json (JObject kvs') => same_but_deps kvs kvs'
  | Json j, Json j' => j = j'
  | _, _ => False
  end.

(** Two trees of the same shape with such files. *)
Definition same_but_deps_tree : node -> node -> Prop := sim same_but_deps_content.

(** The package [pkg] needs no renaming: it has no manifest, or a manifest
    whose name the renaming leaves as it is, and [src], if there, is a
    directory. *)
Definition settled_package (packagesDir : path) (old new : string) (t : node)
  (pkg : string) : Prop :=
  Fs.lookup (manifestPath packagesDir pkg) t = None
  \/ exists kvs name,
       manifest_at packagesDir pkg t kvs name
       /\ renamed old new name = name
       /\ (Fs.lookup (packagesDir // pkg // "src") t = None
           \/ exists es, Fs.lookup (packagesDir // pkg // "src") t = Some (Dir es)).

(** The root manifest, if there, already has the new name (or is an array,
    on which the assignment of [name] is lost). *)
Definition settled_root (rootDir : path) (newName : string) (t : node) : Prop :=
  match Fs.lookup (rootDir // "package.json") t with
  | None => True
  | Some (File (Json (JObject kvs))) => Obj.get "name" kvs = Some (JString newName)
  | Some (File (Json (JArray _))) => True
  | _ => False
  end.

(** The file [f] is text without the boilerplate identifier, and without
    the old scope token unless that is the new one. *)
Definition clean_source (old new : string) (t : node) (f : path) : Prop :=
  exists s,
    Fs.lookup f t = Some (File (Text s))
    /\ (old <> new -> includes s old = false)
    /\ includes s boilerplate = false.

(** Every source file that the update of a package rewrites is clean. *)
Definition clean_sources (packagesDir : path) (old new : string) (t : node) : Prop :=
  forall pkg es f,
    Fs.lookup (manifestPath packagesDir pkg) t <> None ->
    Fs.lookup (packagesDir // pkg // "src") t = Some (Dir es) ->
    In f (Fs.files_below (packagesDir // pkg // "src") (Dir es)) ->
    hasSourceExtension f = true ->
    clean_source old new t f.

(** The documentation file [f], if there, is text without the display name
    and without the boilerplate identifier. *)
Definition clean_doc (t : node) (f : path) : Prop :=
  match Fs.lookup f t with
  | None => True
  | Some (File (Text s)) =>
      includes s displayName = false /\ includes s boilerplate = false
  | _ => False
  end.

(** [src] of the package [pkg] can be listed, if it is there. *)
Definition src_listable (packagesDir : path) (pkg : string) (t : node) : Prop :=
  Fs.lookup (packagesDir // pkg // "src") t = None
  \/ exists es, Fs.lookup (packagesDir // pkg // "src") t = Some (Dir es).

(** The package [pkg] can be read: it has no manifest, or a manifest with a
    name, and then a [src] that can be listed. *)
Definition readable_package (packagesDir : path) (pkg : string) (w : world) : Prop :=
  Fs.lookup (manifestPath packagesDir pkg) (tree w) = None
  \/ (named packagesDir pkg (fun _ => True) w
      /\ src_listable packagesDir pkg (tree w)).

(** ** Sample projects *)

Module Sample.

Definition manifest (name : string) (deps : list (string * string)) : node :=
  File (Json (JObject
    [("name", JString name);
     ("version", JString "1.0.0");
     ("dependencies", JObject (map (fun kv => (fst kv, JString (snd kv))) deps))])).

(** [/app], a workspace whose packages are scoped [@old]. *)
Definition workspace : node :=
  Dir [("app", Dir
    [("package.json", File (Json (JObject [("name", JString "starter")])));
     ("README.md", File (Text "# Modern Fullstack Boilerplate"));
     ("packages", Dir
       [("ui", Dir
          [("package.json", manifest "@old/ui" [("react", "18.0.0")]);
           ("src", Dir [("index.ts", File (Text "export * from '@old/ui/button'"))])]);
        ("api", Dir
          [("package.json",
            manifest "@old/api" [("@old/ui", "workspace:*"); ("zod", "3.0.0")])])])])].

(** The same workspace with a package between the two whose manifest is
    [broken]. *)
Definition workspace_with (broken : content) : node :=
  Dir [("app", Dir
    [("package.json", File (Json (JObject [("name", JString "starter")])));
     ("README.md", File (Text "# Modern Fullstack Boilerplate"));
     ("packages", Dir
       [("ui", Dir [("package.json", manifest "@old/ui" [("react", "18.0.0")])]);
        ("docs", Dir [("package.json", File broken)]);
        ("api", Dir [("package.json", manifest "@old/api" [("zod", "3.0.0")])])])])].

(** A workspace whose packages have no scope. *)
Definition unscoped_workspace : node :=
  Dir [("app", Dir
    [("package.json", File (Json (JObject [("name", JString "starter")])));
     ("packages", Dir
       [("ui", Dir [("package.json", manifest "ui" [("react", "18.0.0")])]);
        ("api", Dir
          [("package.json", manifest "api" [("@repo/ui", "workspace:*")])])])])].

End Sample.

Definition nameless : content := Json (JObject [("version", JString "0.0.1")]).

(** ** Trees as a file system holds them *)

(** No directory of the tree lists a name twice. *)
Fixpoint distinct_names (n : node) : Prop :=
  match n with
  | File _ => True
  | Dir es =>
      NoDup (map fst es)
      /\ (fix all (l : list (string * node)) : Prop :=
            match l with
            | [] => True
            | e :: r => distinct_names (snd e) /\ all r
            end) es
  end.

(** ** The files a run may write *)

(** The paths a run of [renameProject] may write to, [t] being the tree it
    starts from: the root manifest, the manifest of an entry of [packages/]
    that has one, the files below [src] of such an entry whose names have one
    of the four extensions, and the two documentation files. *)
Definition rewritable (rootDir : path) (t : node) (p : path) : Prop :=
  p = rootDir // "package.json"
  \/ (exists pkg,
        Fs.lookup (manifestPath (rootDir // "packages") pkg) t <> None
        /\ (p = manifestPath (rootDir // "packages") pkg
            \/ (hasSourceExtension p = true
                /\ exists r, p = (rootDir // "packages" // pkg // "src" ++ r)%list)))
  \/ p = rootDir // "README.md"
  \/ p = rootDir // "packages" // "frontend" // "index.html".

(** A workspace with a style sheet beside the sources of [ui], and an entry
    [docs] that has sources but no manifest. *)
Definition styled_workspace : node :=
  Dir [("app", Dir
    [("package.json", File (Json (JObject [("name", JString "starter");
                                           ("private", JBool true)])));
     ("README.md", File (Text "# Modern Fullstack Boilerplate"));
     ("packages", Dir
       [("ui", Dir
          [("package.json", Sample.manifest "@old/ui" [("react", "18.0.0")]);
           ("src", Dir
              [("index.ts", File (Text "export * from '@old/ui/button'"));
               ("theme.css", File (Text "@import '@old/ui/base.css';"))])]);
        ("docs", Dir
          [("src", Dir [("index.ts", File (Text "import '@old/ui'"))])])])])].

(** A project [app] beside a directory that has the name [shop]. *)
Definition two_projects : node :=
  Dir [("app", Dir
         [("package.json", File (Json (JObject [("name", JString "starter")])));
          ("README.md", File (Text "# modern-fullstack-boilerplate"))]);
       ("shop", Dir [])].

(** ** Projects on which a run succeeds *)

(** What the update of the root manifest throws on, [n] being what stands
    at its path: [fs.readJson] fails on a directory and on text that is no
    JSON, and the assignment of [name] on [null] and on a primitive. *)
Definition root_error (n : node) : option error :=
  match n with
  | Dir _ => Some EISDIR
  | File (Text _) => Some SyntaxError
  | File (Json (JObject _)) => None
  | File (Json (JArray _)) => None
  | File (Json _) => Some TypeError
  end.

Definition usable_root (rootDir : path) (t : node) : Prop :=
  match Fs.lookup (rootDir // "package.json") t with
  | None => True
  | Some n => root_error n = None
  end.

(** The entry [pkg] of [packages/] has no manifest, or a manifest that is an
    object with a string for [name], and then [src], if there, is a directory
    in which every path listed with one of the four extensions is that of a
    regular file. *)
Definition usable_package (packagesDir : path) (t : node) (pkg : string) : Prop :=
  Fs.lookup (manifestPath packagesDir pkg) t = None
  \/ ((exists kvs name, manifest_at packagesDir pkg t kvs name)
      /\ src_listable packagesDir pkg t
      /\ forall es f,
           Fs.lookup (packagesDir // pkg // "src") t = Some (Dir es) ->
           In f (Fs.files_below (packagesDir // pkg // "src") (Dir es)) ->
           hasSourceExtension f = true ->
           is_file f t).

Definition usable_doc (t : node) (f : path) : Prop :=
  Fs.lookup f t = None \/ is_file f t.

Definition usable_project (rootDir : path) (t : node) : Prop :=
  usable_root rootDir t
  /\ match Fs.lookup (rootDir // "packages") t with
     | None => True
     | Some (File _) => False
     | Some (Dir es) =>
         Forall (usable_package (rootDir // "packages") t) (map fst es)
     end
  /\ usable_doc t (rootDir // "README.md")
  /\ usable_doc t (rootDir // "packages" // "frontend" // "index.html").

(** ** Fields that a run keeps *)

(** The fields of a manifest that no update of a package changes. *)
Definition kept_fields (packagesDir : path) (pkg : string)
  (kvs : list (string * json)) (w : world) : Prop :=
  exists kvs' name,
    manifest_at packagesDir pkg (tree w) kvs' name
    /\ Obj.keys kvs' = Obj.keys kvs
    /\ forall k, k <> "name" -> k <> "dependencies" -> k <> "devDependencies" ->
                 Obj.get k kvs' = Obj.get k kvs.

(** ** Source files in a run *)

(** A project whose package [ui] has one source file, which holds the scope
    token [@old/] and not the identifier of the template. *)
Definition scoped_workspace : node :=
  Dir [("app", Dir
    [("package.json", File (Json (JObject [("name", JString "starter")])));
     ("packages", Dir
       [("ui", Dir
          [("package.json", Sample.manifest "@old/ui" []);
           ("src", Dir [("index.ts", File (Text "import '@old/ui'"))])])])])].

(** The file [f] holds [c]; and if the content [c0] has neither the token
    [old] nor the identifier of the template, the record is [tr] followed by
    writes to other paths than [f]. *)
Definition file_kept (old : string) (f : path) (c0 : content) (tr : list event)
  (c : content) (u : world) : Prop :=
  Fs.lookup f (tree u) = Some (File c)
  /\ (includes (text_of c0) old = false
      /\ includes (text_of c0) boilerplate = false ->
      exists ps, trace u = (tr ++ map Wrote ps)%list
                 /\ Forall (fun q => q <> f) ps).

(** * Properties *)

(** ** Strings *)

Section StringFacts.

Lemma ascii_eqb_refl (a : ascii) : Ascii.eqb a a = true.
Proof. apply Ascii.eqb_eq; reflexivity. Qed.

Lemma startsWith_app (p r : string) : startsWith (p ++ r) p = true.
Proof.
  induction p as [|a p IH]; simpl; [reflexivity|].
  now rewrite ascii_eqb_refl, IH.
Qed.

Lemma startsWith_elim (s p : string) :
  startsWith s p = true -> s = p ++ drop (String.length p) s.
Proof.
  revert s; induction p as [|b p IH]; intros s H; simpl in *.
  - now destruct s.
  - destruct s as [|a s]; [discriminate|].
    apply andb_true_iff in H as [Hab Hs].
    apply Ascii.eqb_eq in Hab; subst b.
    simpl. f_equal. now apply IH.
Qed.

Lemma startsWith_nil (s : string) : startsWith s "" = true.
Proof. now destruct s. Qed.

Lemma drop_app (p r : string) : drop (String.length p) (p ++ r) = r.
Proof. induction p; simpl; [now destruct r | assumption]. Qed.

Lemma replace_prefix (s p r : string) :
  startsWith s p = true -> replace s p r = r ++ drop (String.length p) s.
Proof. intros H. destruct s; simpl; now rewrite H. Qed.

Lemma replace_same (s p : string) :
  startsWith s p = true -> replace s p p = s.
Proof.
  intros H. rewrite (replace_prefix _ _ _ H).
  symmetry. now apply startsWith_elim.
Qed.

Lemma includes_startsWith (s p : string) :
  includes s p = false -> startsWith s p = false.
Proof. destruct s; simpl; intros H; now apply orb_false_iff in H. Qed.

Lemma includes_tail (a : ascii) (s p : string) :
  includes (String a s) p = false -> includes s p = false.
Proof. simpl; intros H; now apply orb_false_iff in H. Qed.

Lemma includes_app_r (q s p : string) :
  includes s p = true -> includes (q ++ s) p = true.
Proof.
  intros H. induction q as [|a q IH]; simpl; [assumption|].
  rewrite IH. apply orb_true_r.
Qed.

Lemma startsWith_app_l (s r p : string) :
  startsWith s p = true -> startsWith (s ++ r) p = true.
Proof.
  revert s; induction p as [|b p IH]; intros s H; simpl in *; [reflexivity|].
  destruct s as [|a s]; [discriminate|]. simpl.
  apply andb_true_iff in H as [-> H]. simpl. now apply IH.
Qed.

(** *** [split] and [replaceAll], one occurrence at a time *)

Lemma split_from_skip (sep : string) (k : nat) (s : string) :
  split_from sep k s = split_from sep 0 (drop k s).
Proof.
  revert k; induction s as [|a s IH]; intros [|k]; try reflexivity.
  simpl drop. rewrite <- IH. reflexivity.
Qed.

Lemma split_from_match (sep s : string) :
  sep <> "" -> startsWith s sep = true ->
  split_from sep 0 s = "" :: split_from sep 0 (drop (String.length sep) s).
Proof.
  intros Hne H. destruct sep as [|b sep]; [congruence|].
  destruct s as [|a s]; [discriminate|].
  cbn [split_from]. rewrite H. rewrite split_from_skip.
  simpl. now rewrite Nat.sub_0_r.
Qed.

Lemma split_from_nomatch (sep : string) (a : ascii) (s : string) :
  startsWith (String a s) sep = false ->
  split_from sep 0 (String a s) = cons_head a (split_from sep 0 s).
Proof. intros H. cbn [split_from]. now rewrite H. Qed.

Lemma replaceAll_from_skip (pat repl : string) (k : nat) (s : string) :
  replaceAll_from pat repl k s = replaceAll_from pat repl 0 (drop k s).
Proof.
  revert k; induction s as [|a s IH]; intros [|k]; try reflexivity.
  simpl drop. rewrite <- IH. reflexivity.
Qed.

Lemma replaceAll_match (s pat repl : string) :
  pat <> "" -> startsWith s pat = true ->
  replaceAll s pat repl = repl ++ replaceAll (drop (String.length pat) s) pat repl.
Proof.
  unfold replaceAll. intros Hne H. destruct pat as [|b pat]; [congruence|].
  destruct s as [|a s]; [discriminate|].
  cbn [replaceAll_from]. rewrite H. rewrite replaceAll_from_skip.
  simpl. now rewrite Nat.sub_0_r.
Qed.

Lemma replaceAll_nomatch (a : ascii) (s pat repl : string) :
  startsWith (String a s) pat = false ->
  replaceAll (String a s) pat repl = String a (replaceAll s pat repl).
Proof. unfold replaceAll. intros H. cbn [replaceAll_from]. now rewrite H. Qed.

Lemma length_drop (k : nat) (s : string) :
  String.length (drop k s) = String.length s - k.
Proof.
  revert k; induction s as [|a s IH]; intros [|k]; simpl; try reflexivity.
  apply IH.
Qed.

(** Induction along the scan: at each position either the token matches and
    the scan jumps over it, or one character is passed. *)
Lemma scan_ind (tok : string) (P : string -> Prop) :
  tok <> "" ->
  P "" ->
  (forall s, startsWith s tok = true ->
             P (drop (String.length tok) s) -> P s) ->
  (forall a s, startsWith (String a s) tok = false -> P s -> P (String a s)) ->
  forall s, P s.
Proof.
  intros Hne H0 Hm Hn s.
  remember (String.length s) as n eqn:E.
  revert s E. induction n as [n IH] using lt_wf_ind. intros s E.
  destruct s as [|a s]; [exact H0|].
  destruct (startsWith (String a s) tok) eqn:Hs.
  - apply Hm; [assumption|].
    apply (IH (String.length (drop (String.length tok) (String a s)))); [|reflexivity].
    rewrite length_drop. subst n. destruct tok; [congruence|]. simpl. lia.
  - apply Hn; [assumption|]. apply (IH (String.length s)); [|reflexivity].
    subst n; simpl; lia.
Qed.

Lemma split_from_nonempty (sep s : string) : split_from sep 0 s <> [].
Proof.
  destruct s as [|a s]; [discriminate|]. cbn [split_from].
  destruct (startsWith (String a s) sep); [discriminate|].
  destruct (split_from sep 0 s); discriminate.
Qed.

Lemma join_cons_head (a : ascii) (l : list string) (sep : string) :
  l <> [] -> join (cons_head a l) sep = String a (join l sep).
Proof.
  destruct l as [|h t]; [congruence|]. intros _.
  unfold join; simpl. now destruct t.
Qed.

Lemma join_cons (h : string) (l : list string) (sep : string) :
  l <> [] -> join (h :: l) sep = h ++ sep ++ join l sep.
Proof. destruct l; [congruence|reflexivity]. Qed.

(** [s.split(tok).join(repl)] and [s.replace(/tok/g, repl)] agree. *)
Lemma join_split_from (tok repl : string) :
  tok <> "" ->
  forall s, join (split_from tok 0 s) repl = replaceAll s tok repl.
Proof.
  intros Hne. apply (scan_ind tok); try assumption.
  - reflexivity.
  - intros s Hs IH.
    rewrite (split_from_match _ _ Hne Hs), (replaceAll_match _ _ _ Hne Hs).
    rewrite join_cons by apply split_from_nonempty. simpl. now rewrite IH.
  - intros a s Hs IH.
    rewrite (split_from_nomatch _ _ _ Hs), (replaceAll_nomatch _ _ _ _ Hs).
    rewrite join_cons_head by apply split_from_nonempty. now rewrite IH.
Qed.

Lemma join_split (s tok repl : string) :
  tok <> "" -> join (split s tok) repl = replaceAll s tok repl.
Proof.
  intros Hne. unfold split. destruct tok; [congruence|].
  now apply join_split_from.
Qed.

Lemma replaceAll_same (tok : string) :
  tok <> "" -> forall s, replaceAll s tok tok = s.
Proof.
  intros Hne. apply (scan_ind tok); try assumption.
  - reflexivity.
  - intros s Hs IH. rewrite (replaceAll_match _ _ _ Hne Hs), IH.
    symmetry. now apply startsWith_elim.
  - intros a s Hs IH. now rewrite (replaceAll_nomatch _ _ _ _ Hs), IH.
Qed.

Lemma replaceAll_absent (s pat repl : string) :
  includes s pat = false -> replaceAll s pat repl = s.
Proof.
  induction s as [|a s IH]; intros H; [reflexivity|].
  rewrite replaceAll_nomatch by now apply includes_startsWith.
  f_equal. apply IH. now apply includes_tail in H.
Qed.

Lemma includes_nil (s : string) : includes s "" = true.
Proof. destruct s; reflexivity. Qed.

Lemma includes_nonempty (s tok : string) : includes s tok = false -> tok <> "".
Proof. intros H ->. now rewrite includes_nil in H. Qed.

Lemma join_split_absent (s tok repl : string) :
  includes s tok = false -> join (split s tok) repl = s.
Proof.
  intros H. rewrite join_split by now apply includes_nonempty in H.
  now apply replaceAll_absent.
Qed.

Lemma join_split_same (s tok : string) :
  tok <> "" -> join (split s tok) tok = s.
Proof. intros Hne. rewrite join_split by assumption. now apply replaceAll_same. Qed.

Lemma split_from_head (tok s h : string) (t : list string) :
  tok <> "" -> split_from tok 0 s = h :: t -> exists r, s = h ++ r.
Proof.
  intros Hne E.
  pose proof (join_split_from tok tok Hne s) as J.
  rewrite replaceAll_same in J by assumption. rewrite E in J.
  destruct t as [|h' t].
  - exists "". unfold join in J; simpl in J. subst s.
    clear. induction h; simpl; congruence.
  - rewrite join_cons in J by discriminate. eauto.
Qed.

(** No piece of [s.split(tok)] holds an occurrence of [tok]: every
    occurrence the scan meets is a cut. *)
Lemma split_from_pieces (tok : string) :
  tok <> "" ->
  forall s, Forall (fun piece => includes piece tok = false) (split_from tok 0 s).
Proof.
  intros Hne. apply (scan_ind tok); try assumption.
  - constructor; [|constructor]. destruct tok; [congruence|reflexivity].
  - intros s Hs IH. rewrite (split_from_match _ _ Hne Hs).
    constructor; [|assumption]. destruct tok; [congruence|reflexivity].
  - intros a s Hs IH. rewrite (split_from_nomatch _ _ _ Hs).
    destruct (split_from tok 0 s) as [|h t] eqn:E.
    + now apply split_from_nonempty in E.
    + inversion IH as [|? ? Hh Ht]; subst. constructor; [|assumption].
      simpl. rewrite Hh, orb_false_r.
      destruct (split_from_head tok s h t Hne E) as [r ->].
      destruct (startsWith (String a h) tok) eqn:F; [|reflexivity].
      apply (startsWith_app_l _ r) in F. simpl in F, Hs. congruence.
Qed.

Lemma split_pieces (s tok : string) :
  tok <> "" -> Forall (fun piece => includes piece tok = false) (split s tok).
Proof.
  intros Hne. unfold split. destruct tok; [congruence|].
  now apply split_from_pieces.
Qed.

(** *** Scope tokens *)

Lemma no_slash_head (c : ascii) (a : string) :
  includes (String c a) "/" = false ->
  Ascii.eqb c "/"%char = false /\ includes a "/" = false.
Proof.
  simpl. intros H. apply orb_false_iff in H as [H1 H2].
  destruct (Ascii.eqb c "/"%char); [discriminate|auto].
Qed.

(** [name.split("/")[0]] is what stands before the first slash. *)
Lemma split_slash_head (a r : string) :
  includes a "/" = false -> hd "" (split (a ++ "/" ++ r) "/") = a.
Proof.
  unfold split. induction a as [|c a IH]; intros H; [reflexivity|].
  apply no_slash_head in H as [Hc Ha].
  change ((String c a ++ "/" ++ r)) with (String c (a ++ "/" ++ r)).
  rewrite split_from_nomatch by (simpl; now rewrite Hc).
  specialize (IH Ha).
  destruct (split_from "/" 0 (a ++ "/" ++ r)) eqn:E;
    [now apply split_from_nonempty in E|].
  simpl in *. now subst.
Qed.

Lemma split_slash_head_clean (n : string) :
  includes (hd "" (split n "/")) "/" = false.
Proof.
  pose proof (split_pieces n "/") as F.
  destruct (split n "/"); [reflexivity|].
  assert (H : "/" <> "") by discriminate.
  specialize (F H). now inversion F.
Qed.

(** Two tokens [a/] and [b/] whose scopes have no slash: one begins a string
    that begins with the other only if they are the same token. *)
Lemma token_prefix (a b r : string) :
  includes a "/" = false -> includes b "/" = false ->
  startsWith (b ++ "/" ++ r) (a ++ "/") = true -> a = b.
Proof.
  revert b; induction a as [|x a IH]; intros b Ha Hb H.
  - destruct b as [|c b]; [reflexivity|].
    apply no_slash_head in Hb as [Hc _].
    cbn [append startsWith] in H. now rewrite Hc in H.
  - apply no_slash_head in Ha as [Hx Ha].
    destruct b as [|c b]; cbn [append startsWith] in H;
      apply andb_true_iff in H as [Hcx H]; apply Ascii.eqb_eq in Hcx.
    + subst x. discriminate.
    + apply no_slash_head in Hb as [_ Hb].
      f_equal; [congruence|]. now apply IH.
Qed.

Lemma startsWith_trans (n p q : string) :
  startsWith n p = true -> startsWith p q = true -> startsWith n q = true.
Proof.
  revert n p; induction q as [|c q IH]; intros n p Hn Hp; [reflexivity|].
  destruct p as [|b p]; [discriminate|].
  destruct n as [|a n]; [discriminate|].
  cbn [startsWith] in *.
  apply andb_true_iff in Hn as [Hab Hn]. apply andb_true_iff in Hp as [Hbc Hp].
  apply Ascii.eqb_eq in Hab; subst b. rewrite Hbc. simpl. eauto.
Qed.

Lemma startsWith_includes (s p : string) :
  startsWith s p = true -> includes s p = true.
Proof. intros H. destruct s; simpl; now rewrite H. Qed.

Lemma includes_app_mid (a t r : string) : includes ((a ++ t) ++ r) t = true.
Proof.
  induction a as [|c a IH].
  - apply startsWith_includes, startsWith_app.
  - simpl. rewrite IH. apply orb_true_r.
Qed.

(** A name that begins with a token [@.../] is a scoped name. *)
Lemma startsWith_token_scoped (n scope : string) :
  startsWith scope "@" = true ->
  startsWith n (scope ++ "/") = true ->
  scoped n = true.
Proof.
  intros Hs Hn. apply andb_true_iff; split.
  - apply (startsWith_trans _ _ _ Hn). now apply startsWith_app_l.
  - rewrite (startsWith_elim _ _ Hn). apply includes_app_mid.
Qed.

Lemma nameChar_not_slash (c : ascii) :
  nameChar c = true -> Ascii.eqb c "/"%char = false.
Proof.
  destruct c as [[] [] [] [] [] [] [] []]; vm_compute; congruence.
Qed.

Lemma validName_no_slash (newName : string) :
  validName newName = true -> includes newName "/" = false.
Proof.
  unfold validName. intros H. apply andb_true_iff in H as [_ H].
  induction newName as [|c s IH]; [reflexivity|].
  simpl in H. apply andb_true_iff in H as [Hc Hs].
  simpl. rewrite (nameChar_not_slash _ Hc). simpl. now apply IH.
Qed.

End StringFacts.

Lemma append_assoc (a b c : string) : (a ++ b) ++ c = a ++ (b ++ c).
Proof. induction a; simpl; congruence. Qed.

Lemma append_inv_head (p a b : string) : p ++ a = p ++ b -> a = b.
Proof. induction p; simpl; intros H; [assumption|]. injection H; auto. Qed.

(** ** Objects *)

Section ObjFacts.

Lemma get_set (k k' : string) (v : json) (o : list (string * json)) :
  Obj.get k (Obj.set k' v o) = if String.eqb k k' then Some v else Obj.get k o.
Proof.
  induction o as [|[k0 v0] o IH]; simpl; [reflexivity|].
  destruct (String.eqb_spec k' k0) as [->|Hne]; simpl.
  - destruct (String.eqb k k0); reflexivity.
  - rewrite IH. destruct (String.eqb_spec k k0) as [->|]; [|reflexivity].
    apply String.eqb_neq in Hne. rewrite String.eqb_sym in Hne. now rewrite Hne.
Qed.

Lemma get_delete (k k' : string) (o : list (string * json)) :
  Obj.get k (Obj.delete k' o) = if String.eqb k k' then None else Obj.get k o.
Proof.
  unfold Obj.delete.
  induction o as [|[k0 v0] o IH]; simpl.
  - now destruct (String.eqb k k').
  - destruct (String.eqb_spec k' k0) as [->|Hne]; simpl.
    + rewrite IH. destruct (String.eqb k k0); reflexivity.
    + rewrite IH. destruct (String.eqb_spec k k0) as [->|]; [|reflexivity].
      apply String.eqb_neq in Hne. rewrite String.eqb_sym in Hne. now rewrite Hne.
Qed.

Lemma set_same (k : string) (v : json) (o : list (string * json)) :
  Obj.get k o = Some v -> Obj.set k v o = o.
Proof.
  induction o as [|[k0 v0] o IH]; simpl; [discriminate|].
  destruct (String.eqb k k0); intros H.
  - congruence.
  - now rewrite IH.
Qed.

Lemma get_in_keys (k : string) (o : list (string * json)) :
  In k (Obj.keys o) -> exists v, Obj.get k o = Some v.
Proof.
  induction o as [|[k0 v0] o IH]; simpl; [tauto|].
  intros [->|H].
  - rewrite String.eqb_refl. eauto.
  - destruct (String.eqb k k0); eauto.
Qed.

Lemma get_filter (f : string -> bool) (k : string) (o : list (string * json)) :
  Obj.get k (filter (fun kv => f (fst kv)) o) = if f k then Obj.get k o else None.
Proof.
  induction o as [|[k0 v0] o IH]; simpl.
  - now destruct (f k).
  - destruct (f k0) eqn:F0; simpl; rewrite IH;
      destruct (String.eqb_spec k k0) as [->|]; try reflexivity.
    + now rewrite F0.
    + now rewrite F0.
Qed.

End ObjFacts.

(** ** The manifest of one package *)

Section Manifest.

Variables oldScopeToken newScopeToken : string.

Lemma get_renameName (f name : string) (data : list (string * json)) :
  f <> "name" ->
  Obj.get f (renameName oldScopeToken newScopeToken name data) = Obj.get f data.
Proof.
  intros Hf. unfold renameName. destruct (startsWith name oldScopeToken); [|reflexivity].
  rewrite get_set. apply String.eqb_neq in Hf. now rewrite Hf.
Qed.

Lemma get_updateDeps_other (f field : string) (data : list (string * json)) :
  f <> field ->
  Obj.get f (updateDeps field oldScopeToken newScopeToken data) = Obj.get f data.
Proof.
  intros Hf. unfold updateDeps. apply String.eqb_neq in Hf.
  destruct (truthy (Obj.get field data)); [|reflexivity].
  destruct (Obj.get field data) as [[]|]; try reflexivity.
  rewrite get_set. now rewrite Hf.
Qed.

Lemma get_updateDeps_same (field : string) (data deps : list (string * json)) :
  Obj.get field data = Some (JObject deps) ->
  Obj.get field (updateDeps field oldScopeToken newScopeToken data)
  = Some (JObject (rekeyDeps oldScopeToken newScopeToken deps)).
Proof.
  intros H. unfold updateDeps. rewrite H. simpl.
  rewrite get_set. now rewrite String.eqb_refl.
Qed.

(** The mapping written for [dependencies] and for [devDependencies] is the
    rekeyed one; every other field but [name] is as it was read. *)
Lemma get_updateManifest_deps (field name : string)
  (data deps : list (string * json)) :
  field = "dependencies" \/ field = "devDependencies" ->
  Obj.get field data = Some (JObject deps) ->
  Obj.get field (updateManifest oldScopeToken newScopeToken name data)
  = Some (JObject (rekeyDeps oldScopeToken newScopeToken deps)).
Proof.
  intros [->| ->] H; unfold updateManifest.
  - rewrite get_updateDeps_other by discriminate.
    apply get_updateDeps_same. rewrite get_renameName by discriminate. exact H.
  - apply get_updateDeps_same. rewrite get_updateDeps_other by discriminate.
    rewrite get_renameName by discriminate. exact H.
Qed.

Lemma get_updateManifest_other (f name : string) (data : list (string * json)) :
  f <> "name" -> f <> "dependencies" -> f <> "devDependencies" ->
  Obj.get f (updateManifest oldScopeToken newScopeToken name data) = Obj.get f data.
Proof.
  intros H1 H2 H3. unfold updateManifest.
  now rewrite !get_updateDeps_other, get_renameName.
Qed.

Lemma get_updateManifest_name (name : string) (data : list (string * json)) :
  Obj.get "name" data = Some (JString name) ->
  Obj.get "name" (updateManifest oldScopeToken newScopeToken name data)
  = Some (JString (if startsWith name oldScopeToken
                   then replace name oldScopeToken newScopeToken else name)).
Proof.
  intros H. unfold updateManifest.
  rewrite !get_updateDeps_other by discriminate.
  unfold renameName. destruct (startsWith name oldScopeToken); [|exact H].
  rewrite get_set. reflexivity.
Qed.

End Manifest.

(** ** Rekeying a dependency mapping *)

Section RekeySameToken.

Variable tok : string.

Lemma rekeyDep_same_token (deps : list (string * json)) (dep : string) :
  rekeyDep tok tok deps dep
  = if startsWith dep tok then Obj.delete dep deps else deps.
Proof.
  unfold rekeyDep. destruct (startsWith dep tok) eqn:H; [|reflexivity].
  rewrite (replace_same _ _ H).
  destruct (Obj.get dep deps) eqn:G.
  - now rewrite (set_same _ _ _ G).
  - unfold Obj.delete. induction deps as [|[k v] r IH]; simpl; [reflexivity|].
    simpl in G. destruct (String.eqb dep k) eqn:E; simpl.
    + discriminate.
    + rewrite E. simpl. f_equal. now apply IH.
Qed.

Lemma rekey_same_token_fold (keys : list string) (deps : list (string * json)) :
  fold_left (rekeyDep tok tok) keys deps
  = filter (fun kv => negb (startsWith (fst kv) tok
                            && existsb (String.eqb (fst kv)) keys)) deps.
Proof.
  revert deps; induction keys as [|d keys IH]; intros deps; simpl.
  - induction deps as [|kv r IHr]; simpl; [reflexivity|].
    rewrite andb_false_r. simpl. now f_equal.
  - rewrite IH, rekeyDep_same_token. clear IH.
    destruct (startsWith d tok) eqn:Hd.
    + unfold Obj.delete. induction deps as [|[k v] r IHr]; simpl; [reflexivity|].
      destruct (String.eqb_spec d k) as [->|Hne]; simpl.
      * rewrite String.eqb_refl, Hd. simpl. exact IHr.
      * apply String.eqb_neq in Hne. rewrite String.eqb_sym in Hne.
        rewrite Hne. simpl.
        destruct (negb _); [now f_equal | exact IHr].
    + induction deps as [|[k v] r IHr]; simpl; [reflexivity|].
      destruct (String.eqb_spec k d) as [->|Hne]; simpl.
      * rewrite Hd. simpl. now f_equal.
      * rewrite IHr. reflexivity.
Qed.

Lemma existsb_self_key (k : string) (v : json) (deps : list (string * json)) :
  In (k, v) deps -> existsb (String.eqb k) (Obj.keys deps) = true.
Proof.
  intros H. apply existsb_exists. exists k. split.
  - unfold Obj.keys. now apply (in_map fst) in H.
  - apply String.eqb_refl.
Qed.

Lemma rekeyDeps_same_token (deps : list (string * json)) :
  rekeyDeps tok tok deps
  = filter (fun kv => negb (startsWith (fst kv) tok)) deps.
Proof.
  unfold rekeyDeps. rewrite rekey_same_token_fold.
  apply filter_ext_in. intros [k v] H. simpl.
  now rewrite (existsb_self_key _ _ _ H), andb_true_r.
Qed.

End RekeySameToken.

Section RekeyFreshToken.

Variables old new : string.

(** No rekeyed key begins with the old token again. *)
Hypothesis fresh : forall r, startsWith (new ++ r) old = false.

Let nk (k : string) : string := replace k old new.

Lemma nk_fresh (k : string) :
  startsWith k old = true -> startsWith (nk k) old = false.
Proof. intros H. unfold nk. rewrite (replace_prefix _ _ _ H). apply fresh. Qed.

Lemma nk_inj (k1 k2 : string) :
  startsWith k1 old = true -> startsWith k2 old = true ->
  nk k1 = nk k2 -> k1 = k2.
Proof.
  intros H1 H2. unfold nk.
  rewrite (replace_prefix _ _ _ H1), (replace_prefix _ _ _ H2).
  intros E. apply append_inv_head in E.
  rewrite (startsWith_elim _ _ H1), (startsWith_elim _ _ H2). now rewrite E.
Qed.

Lemma rekeyDep_get (deps : list (string * json)) (dep : string) (v : json) :
  startsWith dep old = true -> Obj.get dep deps = Some v ->
  forall k, Obj.get k (rekeyDep old new deps dep)
            = if String.eqb k dep then None
              else if String.eqb k (nk dep) then Some v else Obj.get k deps.
Proof.
  intros H G k. unfold rekeyDep. rewrite H, G.
  now rewrite get_delete, get_set.
Qed.

Variable deps0 : list (string * json).

(** The state of the loop: [todo] are the keys still to visit, [done] the
    keys visited, [deps] the mapping as the turns so far left it. *)
Definition rekey_inv (done todo : list string) (deps : list (string * json)) : Prop :=
  (forall k, In k todo -> startsWith k old = true ->
             Obj.get k deps = Obj.get k deps0)
  /\ (forall k, In k done -> startsWith k old = true ->
                Obj.get k deps = None /\ Obj.get (nk k) deps = Obj.get k deps0)
  /\ (forall k, startsWith k old = false ->
                (forall k0, In k0 done -> startsWith k0 old = true -> nk k0 <> k) ->
                Obj.get k deps = Obj.get k deps0).

Lemma rekey_inv_fold (todo done : list string) (deps : list (string * json)) :
  NoDup (done ++ todo)%list ->
  (forall k, In k todo -> In k (Obj.keys deps0)) ->
  rekey_inv done todo deps ->
  rekey_inv (done ++ todo)%list [] (fold_left (rekeyDep old new) todo deps).
Proof.
  revert done deps; induction todo as [|d todo IH]; intros done deps ND Hin Inv.
  - simpl. now rewrite app_nil_r.
  - simpl fold_left.
    replace (done ++ d :: todo)%list with ((done ++ [d]) ++ todo)%list
      in * by now rewrite <- app_assoc.
    assert (Hd_notin : ~ In d done /\ ~ In d todo).
    { rewrite <- app_assoc in ND. simpl in ND.
      apply NoDup_remove_2 in ND. rewrite in_app_iff in ND. tauto. }
    destruct Hd_notin as [Hd1 Hd2].
    apply IH; [assumption | intros; apply Hin; now right |].
    destruct Inv as (I1 & I2 & I3).
    destruct (startsWith d old) eqn:Hd.
    + destruct (get_in_keys d deps0 (Hin d (or_introl eq_refl))) as [v Hv].
      assert (G : Obj.get d deps = Some v)
        by (rewrite I1; [assumption | now left | assumption]).
      pose proof (rekeyDep_get deps d v Hd G) as R.
      repeat split.
      * intros k Hk Hs. rewrite R.
        destruct (String.eqb_spec k d) as [->|_]; [tauto|].
        destruct (String.eqb_spec k (nk d)) as [->|_].
        { now rewrite nk_fresh in Hs. }
        apply I1; [now right | assumption].
      * apply in_app_iff in H as [H|[<-|[]]].
        { rewrite R. destruct (String.eqb_spec k d) as [->|_]; [reflexivity|].
          destruct (String.eqb_spec k (nk d)) as [->|_].
          - now rewrite nk_fresh in H0.
          - now apply I2. }
        { rewrite R. now rewrite String.eqb_refl. }
      * apply in_app_iff in H as [H|[<-|[]]].
        { rewrite R.
          destruct (String.eqb_spec (nk k) d) as [E|_].
          - rewrite <- E in Hd. now rewrite nk_fresh in Hd.
          - destruct (String.eqb_spec (nk k) (nk d)) as [E|_].
            + apply nk_inj in E; try assumption. subst k. tauto.
            + now apply I2. }
        { rewrite R.
          destruct (String.eqb_spec (nk d) d) as [E|_].
          - rewrite <- E in Hd at 1. now rewrite nk_fresh in Hd.
          - now rewrite String.eqb_refl. }
      * intros k Hk Hnew. rewrite R.
        destruct (String.eqb_spec k d) as [->|_]; [congruence|].
        destruct (String.eqb_spec k (nk d)) as [->|_].
        { exfalso. apply (Hnew d); [apply in_app_iff; right; now left | assumption | reflexivity]. }
        apply I3; [assumption|].
        intros k0 H0 Hs0. apply Hnew; [apply in_app_iff; now left | assumption].
    + unfold rekeyDep. rewrite Hd.
      repeat split.
      * intros k Hk Hs. apply I1; [now right | assumption].
      * apply in_app_iff in H as [H|[<-|[]]]; [now apply I2 | congruence].
      * apply in_app_iff in H as [H|[<-|[]]]; [now apply I2 | congruence].
      * intros k Hk Hnew. apply I3; [assumption|].
        intros k0 H0 Hs0. apply Hnew; [apply in_app_iff; now left | assumption].
Qed.

End RekeyFreshToken.

(** ** The file system: reading after writing *)

Section NodeInd.

Variable P : node -> Prop.
Hypothesis P_file : forall c, P (File c).
Hypothesis P_dir : forall es, Forall (fun e => P (snd e)) es -> P (Dir es).

Fixpoint node_induction (n : node) : P n :=
  match n with
  | File c => P_file c
  | Dir es =>
      P_dir es
        ((fix go (es : list (string * node)) : Forall (fun e => P (snd e)) es :=
            match es with
            | [] => Forall_nil _
            | e :: r => Forall_cons e (node_induction (snd e)) (go r)
            end) es)
  end.

End NodeInd.

Section FsFacts.

Lemma lookup_app (p q : path) (n : node) :
  Fs.lookup (p ++ q)%list n
  = match Fs.lookup p n with Some m => Fs.lookup q m | None => None end.
Proof.
  revert n; induction p as [|x p IH]; intros n; simpl; [reflexivity|].
  destruct n as [c|es]; [reflexivity|].
  destruct (Fs.assoc x es); [apply IH | reflexivity].
Qed.

Lemma lookup_sub (p : path) (x : string) (n : node) :
  Fs.lookup (p // x) n
  = match Fs.lookup p n with
    | Some (Dir es) => Fs.assoc x es
    | _ => None
    end.
Proof.
  unfold sub. rewrite lookup_app. destruct (Fs.lookup p n) as [[c|es]|]; simpl; try reflexivity.
  now destruct (Fs.assoc x es).
Qed.

Lemma alter_assoc_other (x y : string) f fresh es es' :
  Fs.alter x f fresh es = Some es' -> y <> x -> Fs.assoc y es' = Fs.assoc y es.
Proof.
  revert es'; induction es as [|[z m] r IH]; intros es' H Hne; simpl in H.
  - destruct fresh; [|discriminate]. injection H as <-. simpl.
    apply String.eqb_neq in Hne. now rewrite Hne.
  - destruct (String.eqb_spec x z) as [->|Hxz].
    + destruct (f m); [|discriminate]. injection H as <-. simpl.
      apply String.eqb_neq in Hne. now rewrite Hne.
    + destruct (Fs.alter x f fresh r) eqn:E; [|discriminate]. injection H as <-.
      simpl. destruct (String.eqb y z); [reflexivity|]. now apply IH.
Qed.

Lemma alter_assoc_same (x : string) f fresh es es' :
  Fs.alter x f fresh es = Some es' ->
  exists m', Fs.assoc x es' = Some m'
             /\ match Fs.assoc x es with
                | Some m => f m = Some m'
                | None => fresh = Some m'
                end.
Proof.
  revert es'; induction es as [|[z m] r IH]; intros es' H; simpl in H.
  - destruct fresh as [m'|]; [|discriminate]. injection H as <-. simpl.
    rewrite String.eqb_refl. eauto.
  - simpl. destruct (String.eqb_spec x z) as [->|Hxz].
    + destruct (f m) as [m'|]; [|discriminate]. injection H as <-. simpl.
      rewrite String.eqb_refl. eauto.
    + destruct (Fs.alter x f fresh r) eqn:E; [|discriminate]. injection H as <-.
      simpl. apply String.eqb_neq in Hxz. rewrite Hxz. now apply IH.
Qed.

(** After a write at [p], [p] is that file. *)
Lemma put_lookup_same (p : path) (c : content) (t t' : node) :
  Fs.put p c t = Some t' -> Fs.lookup p t' = Some (File c).
Proof.
  revert t t'; induction p as [|x p IH]; intros t t' H; simpl in H.
  - destruct t; [|discriminate]. now injection H as <-.
  - destruct t as [c0|es]; [discriminate|].
    destruct (Fs.alter x _ _ es) as [es'|] eqn:E; [|discriminate].
    injection H as <-. simpl.
    destruct (alter_assoc_same _ _ _ _ _ E) as (m' & -> & Hm).
    destruct (Fs.assoc x es) as [m|]; [now apply IH in Hm|].
    destruct p; [|discriminate]. now injection Hm as <-.
Qed.

(** A write at [w] leaves every path that is not an initial part of [w] as
    it was. *)
Lemma put_lookup_frame (w : path) (c : content) (t t' : node) (p : path) :
  Fs.put w c t = Some t' -> (forall r, w <> (p ++ r)%list) ->
  Fs.lookup p t' = Fs.lookup p t.
Proof.
  revert t t' p; induction w as [|x w IH]; intros t t' p H Hp; simpl in H.
  - destruct t; [|discriminate]. injection H as <-.
    destruct p; [now specialize (Hp [])|reflexivity].
  - destruct t as [c0|es]; [discriminate|].
    destruct (Fs.alter x _ _ es) as [es'|] eqn:E; [|discriminate].
    injection H as <-.
    destruct p as [|y p]; [now specialize (Hp (x :: w))|]. simpl.
    destruct (String.eqb_spec y x) as [->|Hne].
    + destruct (alter_assoc_same _ _ _ _ _ E) as (m' & -> & Hm).
      destruct (Fs.assoc x es) as [m|].
      * apply (IH _ _ p) in Hm; [assumption|].
        intros r ->. now apply (Hp r).
      * destruct w; [|discriminate]. injection Hm as <-.
        destruct p; [now specialize (Hp [])|reflexivity].
    + now rewrite (alter_assoc_other _ _ _ _ _ _ E Hne).
Qed.

End FsFacts.

Section SimFacts.

Variable R : content -> content -> Prop.

Lemma sim_refl : (forall c, R c c) -> forall t, sim R t t.
Proof.
  intros HR. induction t as [c|es IH] using node_induction; simpl; [apply HR|].
  induction IH as [|e r He _ IHr]; simpl; auto.
Qed.

Lemma entries_rel_assoc (es es' : list (string * node)) (x : string) :
  entries_rel (sim R) es es' -> sim_opt R (Fs.assoc x es) (Fs.assoc x es').
Proof.
  revert es'; induction es as [|[y m] r IH]; intros [|[y' m'] r'] H;
    simpl in H; try contradiction; [exact I|].
  destruct H as (E & Hm & Hr). simpl in E; subst y'. simpl.
  destruct (String.eqb x y); [exact Hm | now apply IH].
Qed.

Lemma sim_lookup (a b : node) (p : path) :
  sim R a b -> sim_opt R (Fs.lookup p a) (Fs.lookup p b).
Proof.
  revert a b; induction p as [|x p IH]; intros a b H; simpl; [exact H|].
  destruct a as [c|es], b as [c'|es']; simpl in H; try contradiction; [exact I|].
  pose proof (entries_rel_assoc _ _ x H) as A.
  destruct (Fs.assoc x es), (Fs.assoc x es'); simpl in A; try contradiction;
    [now apply IH | exact I].
Qed.

Lemma entries_rel_names (es es' : list (string * node)) :
  entries_rel (sim R) es es' -> map fst es = map fst es'.
Proof.
  revert es'; induction es as [|e r IH]; intros [|e' r'] H;
    simpl in H; try contradiction; [reflexivity|].
  destruct H as (E & _ & Hr). simpl. rewrite E. f_equal. now apply IH.
Qed.

(** Writing over a file of [b]'s shape a content related to the one [b]
    has there keeps the trees related. *)
Lemma sim_put (p : path) (c cb : content) (a b : node) :
  sim R a b -> Fs.lookup p b = Some (File cb) -> R c cb ->
  exists a', Fs.put p c a = Some a' /\ sim R a' b.
Proof.
  revert a b; induction p as [|x p IH]; intros a b H L Hc; simpl in L.
  - injection L as ->. destruct a; simpl in H; [|contradiction].
    simpl. eauto.
  - destruct b as [c'|es']; [discriminate|].
    destruct a as [c0|es]; simpl in H; [contradiction|].
    simpl.
    assert (G : exists es2,
               Fs.alter x (Fs.put p c)
                 (match p with [] => Some (File c) | _ => None end) es = Some es2
               /\ entries_rel (sim R) es2 es').
    { revert es' H L. induction es as [|[y m] r IHr]; intros [|[y' m'] r'] H L;
        simpl in H; try contradiction; [discriminate|].
      destruct H as (E & Hm & Hr). simpl in E; subst y'. simpl in L |- *.
      destruct (String.eqb x y).
      - destruct (IH _ _ Hm L Hc) as (m2 & -> & Hm2). simpl.
        eexists; split; [reflexivity|]. simpl. auto.
      - destruct (IHr _ Hr L) as (r2 & -> & Hr2). simpl.
        eexists; split; [reflexivity|]. simpl. auto. }
    destruct (Fs.assoc x es') eqn:A; [|discriminate].
    destruct G as (es2 & -> & G). simpl. eauto.
Qed.

Lemma sim_files_below (a b : node) (d : path) :
  sim R a b -> Fs.files_below d a = Fs.files_below d b.
Proof.
  revert b d; induction a as [c|es IH] using node_induction; intros b d H.
  - destruct b; simpl in H; [reflexivity|contradiction].
  - destruct b as [c'|es']; simpl in H; [contradiction|]. simpl.
    revert es' H; induction IH as [|[x m] r He _ IHr]; intros [|[x' m'] r'] H;
      simpl in H; try contradiction; [reflexivity|].
    destruct H as (E & Hm & Hr). simpl in E, Hm, He; subst x'. simpl.
    f_equal; [|now apply IHr].
    destruct m as [c|es0], m' as [c'|es0']; simpl in Hm; try contradiction;
      [reflexivity|].
    now apply He.
Qed.

End SimFacts.

(** ** Running the calls *)

Section Running.

Lemma bind_eq {A B} (m : M A) (k : A -> M B) (w : world) :
  bind m k w
  = match m w with
    | (Ok a, w') => k a w'
    | (Throw e, w') => (Throw e, w')
    end.
Proof. reflexivity. Qed.

Lemma bind_inv {A B} (m : M A) (k : A -> M B) (w w' : world) (r : outcome B) :
  bind m k w = (r, w') ->
  (exists a w1, m w = (Ok a, w1) /\ k a w1 = (r, w'))
  \/ (exists e, m w = (Throw e, w') /\ r = Throw e).
Proof.
  unfold bind. destruct (m w) as [[a|e] w1]; intros H.
  - left; eauto.
  - right. injection H as <- <-. eauto.
Qed.

Lemma bind_ok {A B} (m : M A) (k : A -> M B) (w w' : world) (b : B) :
  bind m k w = (Ok b, w') ->
  exists a w1, m w = (Ok a, w1) /\ k a w1 = (Ok b, w').
Proof.
  intros H. apply bind_inv in H as [H|(e & _ & H)]; [assumption|discriminate].
Qed.

Lemma preserves_ret {A} (I : world -> Prop) (a : A) : preserves I (ret a).
Proof. intros w r w' H E. injection E as <- <-. exact H. Qed.

Lemma preserves_throw {A} (I : world -> Prop) (e : error) :
  preserves I (@throw A e).
Proof. intros w r w' H E. injection E as <- <-. exact H. Qed.

Lemma preserves_bind {A B} (I : world -> Prop) (m : M A) (k : A -> M B) :
  preserves I m ->
  (forall a w w1, I w -> m w = (Ok a, w1) -> preserves (fun w' => I w' /\ w' = w1) (k a)) ->
  preserves I (bind m k).
Proof.
  intros Hm Hk w r w' HI E.
  apply bind_inv in E as [(a & w1 & E1 & E2)|(e & E1 & _)].
  - apply (Hk a w w1 HI E1 w1 r w'); [|assumption].
    split; [|reflexivity]. now apply (Hm w (Ok a) w1).
  - now apply (Hm w (Throw e) w').
Qed.

Lemma preserves_forM {A} (I : world -> Prop) (l : list A) (body : A -> M unit) :
  (forall x, In x l -> preserves I (body x)) -> preserves I (forM_ l body).
Proof.
  induction l as [|x l IH]; intros Hb; simpl.
  - apply preserves_ret.
  - intros w r w' HI E.
    apply bind_inv in E as [(a & w1 & E1 & E2)|(e & E1 & _)].
    + apply (IH (fun y Hy => Hb y (or_intror Hy)) w1 r w'); [|assumption].
      apply (Hb x (or_introl eq_refl) w (Ok a) w1); assumption.
    + apply (Hb x (or_introl eq_refl) w (Throw e) w'); assumption.
Qed.

(** The calls that only read. *)
Lemma existsSync_run (p : path) (w : world) :
  existsSync p w
  = (Ok (match Fs.lookup p (tree w) with Some _ => true | None => false end), w).
Proof. reflexivity. Qed.

Lemma readdir_state (p : path) (w w' : world) r :
  readdir p w = (r, w') -> w' = w.
Proof.
  unfold readdir. destruct (Fs.lookup p (tree w)) as [[c|es]|]; now intros [= _ <-].
Qed.

Lemma isDirectory_state (p : path) (w w' : world) r :
  isDirectory p w = (r, w') -> w' = w.
Proof.
  unfold isDirectory. destruct (Fs.lookup p (tree w)) as [[c|es]|]; now intros [= _ <-].
Qed.

Lemma readFile_inv (p : path) (w w' : world) r :
  readFile p w = (r, w') ->
  w' = w /\ forall s, r = Ok s ->
            exists c, Fs.lookup p (tree w) = Some (File c) /\ s = text_of c.
Proof.
  unfold readFile. destruct (Fs.lookup p (tree w)) as [[c|es]|];
    intros [= <- <-]; (split; [reflexivity|]); intros s [=]. eauto.
Qed.

Lemma readJson_inv (p : path) (w w' : world) r :
  readJson p w = (r, w') ->
  w' = w /\ forall j, r = Ok j -> Fs.lookup p (tree w) = Some (File (Json j)).
Proof.
  unfold readJson. destruct (Fs.lookup p (tree w)) as [[[s|j0]|es]|];
    intros [= <- <-]; (split; [reflexivity|]); intros j [=]. now subst.
Qed.

Lemma getFiles_inv (dir : path) (w w' : world) r :
  getFiles dir w = (r, w') ->
  w' = w /\ forall files, r = Ok files ->
            exists es, Fs.lookup dir (tree w) = Some (Dir es)
                       /\ files = Fs.files_below dir (Dir es).
Proof.
  unfold getFiles. destruct (Fs.lookup dir (tree w)) as [[c|es]|];
    intros [= <- <-]; (split; [reflexivity|]); intros files [=]. eauto.
Qed.

Lemma name_of_inv (data : json) (w w' : world) r :
  name_of data w = (r, w') ->
  w' = w /\ forall n, r = Ok n ->
            exists kvs, data = JObject kvs /\ Obj.get "name" kvs = Some (JString n).
Proof.
  unfold name_of, prop.
  destruct data as [| | | | |kvs]; try (intros [= <- <-]; split; [reflexivity|intros ? [=]]).
  destruct (Obj.get "name" kvs) as [[|b|num|s|l|o]|] eqn:G;
    intros [= <- <-]; (split; [reflexivity|]); intros n0 [=]. subst. eauto.
Qed.

Lemma put_file (p : path) (c : content) (t : node) :
  is_file p t -> exists t', Fs.put p c t = Some t' /\ same_shape t' t.
Proof.
  intros [c0 H].
  apply (sim_put any_content p c c0 t t); [|assumption|exact I].
  now apply sim_refl.
Qed.

Lemma write_inv (p : path) (c : content) (w w' : world) r :
  write p c w = (r, w') ->
  (exists t', Fs.put p c (tree w) = Some t' /\ r = Ok tt
              /\ w' = World t' (trace w ++ [Wrote p])%list)
  \/ (Fs.put p c (tree w) = None /\ w' = w /\ exists e, r = Throw e).
Proof.
  unfold write. destruct (Fs.put p c (tree w)) as [t'|]; intros [= <- <-].
  - left; eauto.
  - right; eauto.
Qed.

Lemma write_file_run (p : path) (c : content) (w : world) :
  is_file p (tree w) ->
  exists t', Fs.put p c (tree w) = Some t'
             /\ write p c w = (Ok tt, World t' (trace w ++ [Wrote p])%list).
Proof.
  intros H. destruct (put_file p c _ H) as (t' & E & _).
  exists t'. split; [assumption|]. unfold write. now rewrite E.
Qed.

Lemma preserves_write (S : path -> Prop) (I : world -> Prop) (p : path) (c : content) :
  stable S I -> S p ->
  preserves (fun w => I w /\ is_file p (tree w)) (write p c).
Proof.
  intros HS Hp w r w' [HI Hf] E.
  apply write_inv in E as [(t' & E & -> & ->)|(_ & -> & _)]; [|now split].
  split; [now apply (HS w p c t')|].
  exists c. now apply put_lookup_same in E.
Qed.

End Running.

(** ** What a run can touch *)

Ltac inv_bind E :=
  let a := fresh "a" in
  let w1 := fresh "w1" in
  let e := fresh "e" in
  let E1 := fresh E "a" in
  let E2 := fresh E "b" in
  let Er := fresh E "r" in
  apply bind_inv in E as [(a & w1 & E1 & E2) | (e & E1 & Er)];
  [cbv beta delta [ret throw] in E2 | try discriminate Er].

(** [E : (e <- existsSync p ;; k e) w = (r, w')]: split on whether [p]
    exists, keeping what is there as [L]. *)
Ltac inv_exists E L :=
  rewrite bind_eq, existsSync_run in E;
  match type of E with
  | context [match Fs.lookup ?p ?t with _ => _ end] =>
      destruct (Fs.lookup p t) eqn:L
  end;
  cbv beta iota delta [ret throw] in E.

(** [E : ret a w = (r, w')] or [E : throw e w = (r, w')]. *)
Ltac inv_ret E :=
  cbv beta delta [ret throw] in E;
  first [discriminate E | injection E as <- <- | injection E as _ <-
        | injection E as <-].

Section Confinement.

Lemma files_below_prefix (n : node) (d f : path) :
  In f (Fs.files_below d n) -> exists r, f = (d ++ r)%list.
Proof.
  revert d; induction n as [c|es IH] using node_induction; intros d H;
    simpl in H; [contradiction|].
  apply in_flat_map in H as ([x m] & Hin & Hf). simpl in Hf.
  rewrite Forall_forall in IH. specialize (IH _ Hin). simpl in IH.
  destruct m as [c|es'].
  - destruct Hf as [<-|[]]. now exists [x].
  - apply IH in Hf as [r ->]. exists (x :: r). unfold sub.
    now rewrite <- app_assoc.
Qed.

Variable S : path -> Prop.
Variable I : world -> Prop.
Hypothesis I_stable : stable S I.

Lemma writeFile_keeps (file : path) (s : string) (w w' : world) r :
  S file -> I w /\ is_file file (tree w) -> writeFile file s w = (r, w') ->
  I w' /\ is_file file (tree w').
Proof.
  intros Hf J E. exact (preserves_write S I file _ I_stable Hf w r w' J E).
Qed.

Lemma updateSourceFile_preserves (old new newName : string) (file : path) :
  S file -> preserves I (updateSourceFile old new newName file).
Proof.
  intros Hf w r w' HI E. unfold updateSourceFile in E.
  destruct (hasSourceExtension file); [|now inv_ret E].
  inv_bind E; [|now apply readFile_inv in Ea as [-> _]].
  apply readFile_inv in Ea as [-> Hc].
  destruct (Hc a eq_refl) as (c & L & _). clear Hc.
  assert (J : I w /\ is_file file (tree w)) by (split; [assumption|now exists c]).
  clear HI L.
  inv_bind Eb.
  - assert (K : I w1 /\ is_file file (tree w1)).
    { destruct (includes a old); [|now inv_ret Eba].
      inv_bind Eba.
      inv_ret Ebab. eapply writeFile_keeps; eauto. }
    destruct (includes a0 boilerplate); [|now inv_ret Ebb].
    eapply writeFile_keeps; eauto.
  - destruct (includes a old); [|inv_ret Eba].
    inv_bind Eba; [inv_ret Ebab|].
    eapply writeFile_keeps; eauto.
Qed.

Lemma updateExtraFile_preserves (newName : string) (file : path) :
  S file -> preserves I (updateExtraFile newName file).
Proof.
  intros Hf w r w' HI E. unfold updateExtraFile in E.
  inv_exists E L0; [|now inv_ret E].
  inv_bind E; [|now apply readFile_inv in Ea as [-> _]].
  apply readFile_inv in Ea as [-> Hc].
  destruct (Hc a eq_refl) as (c & L & _).
  eapply writeFile_keeps; eauto. split; [assumption|now exists c].
Qed.

Lemma detectScope_state (packagesDir : path) (packages : list string)
  (w w' : world) r :
  detectScope packagesDir packages w = (r, w') -> w' = w.
Proof.
  induction packages as [|pkg rest IH]; simpl; intros E.
  - now inv_ret E.
  - inv_exists E L; [|now apply IH].
    inv_bind E; [|now apply readJson_inv in Ea as [-> _]].
    apply readJson_inv in Ea as [-> _].
    inv_bind Eb; [|now apply name_of_inv in Eba as [-> _]].
    apply name_of_inv in Eba as [-> _].
    destruct (scoped _); [now inv_ret Ebb | now apply IH].
Qed.

Lemma updateSources_preserves (pkgPath : path) (old new newName : string) :
  (forall r, S (pkgPath // "src" ++ r)%list) ->
  preserves I (updateSources pkgPath old new newName).
Proof.
  intros Hs w r w' HI E. unfold updateSources in E.
  inv_exists E L; [|now inv_ret E].
  inv_bind E; [|now apply getFiles_inv in Ea as [-> _]].
  apply getFiles_inv in Ea as [-> Hfs].
  destruct (Hfs _ eq_refl) as (es & _ & ->).
  revert Eb. apply preserves_forM; [|assumption].
  intros f Hf. apply updateSourceFile_preserves.
  apply files_below_prefix in Hf as [r0 ->]. apply Hs.
Qed.

Lemma updatePackage_preserves (packagesDir : path)
  (old new newName pkg : string) :
  S (packagesDir // pkg // "package.json") ->
  (forall r, S (packagesDir // pkg // "src" ++ r)%list) ->
  preserves I (updatePackage packagesDir old new newName pkg).
Proof.
  intros Hm Hs w r w' HI E. unfold updatePackage in E.
  inv_bind E; [|now apply isDirectory_state in Ea as ->].
  apply isDirectory_state in Ea as ->.
  rewrite bind_eq, existsSync_run in Eb.
  destruct (a && _); [|now inv_ret Eb].
  inv_bind Eb; [|now apply readJson_inv in Eba as [-> _]].
  apply readJson_inv in Eba as [-> Hj]. specialize (Hj _ eq_refl).
  inv_bind Ebb; [|now apply name_of_inv in Ebba as [-> _]].
  apply name_of_inv in Ebba as [-> Hn].
  destruct (Hn _ eq_refl) as (kvs & -> & _). clear Hn.
  assert (J : I w /\ is_file (packagesDir // pkg // "package.json") (tree w))
    by (split; [assumption | eexists; eassumption]).
  inv_bind Ebbb;
    [|now apply (preserves_write S I _ _ I_stable Hm _ _ _ J Ebbba)].
  apply (preserves_write S I _ _ I_stable Hm _ _ _ J) in Ebbba as [HI2 _].
  revert Ebbbb. now apply updateSources_preserves.
Qed.

End Confinement.
Section ConfinementTop.

Variable rootDir : path.
Variable S : path -> Prop.
Variable I : world -> Prop.
Hypothesis I_stable : stable S I.

Lemma detectCurrentScope_state (packagesDir : path) (w w' : world) r :
  detectCurrentScope packagesDir w = (r, w') -> w' = w.
Proof.
  unfold detectCurrentScope. intros E.
  inv_exists E L; [|now inv_ret E].
  inv_bind E; [|now apply readdir_state in Ea as ->].
  apply readdir_state in Ea as ->. now apply detectScope_state in Eb.
Qed.

Lemma assign_state (k : string) (v data : json) (w w' : world) r :
  assign k v data w = (r, w') -> w' = w.
Proof. destruct data; intros E; now inv_ret E. Qed.

Lemma updateRootManifest_preserves (newName : string) :
  S (rootDir // "package.json") ->
  preserves I (updateRootManifest rootDir newName).
Proof.
  intros HS w r w' HI E. unfold updateRootManifest in E.
  inv_exists E L; [|now inv_ret E].
  inv_bind E; [|now apply readJson_inv in Ea as [-> _]].
  apply readJson_inv in Ea as [-> Hj]. specialize (Hj _ eq_refl).
  inv_bind Eb; [|now apply assign_state in Eba as ->].
  apply assign_state in Eba as ->.
  eapply (preserves_write S I); eauto.
  split; [assumption | eexists; eassumption].
Qed.

Lemma updatePackages_preserves (packagesDir : path) (old new newName : string) :
  (forall pkg, S (packagesDir // pkg // "package.json")) ->
  (forall pkg r, S (packagesDir // pkg // "src" ++ r)%list) ->
  preserves I (updatePackages packagesDir old new newName).
Proof.
  intros Hm Hs w r w' HI E. unfold updatePackages in E.
  inv_exists E L; [|now inv_ret E].
  inv_bind E; [|now apply readdir_state in Ea as ->].
  apply readdir_state in Ea as ->.
  revert Eb. apply preserves_forM; [|assumption].
  intros pkg _. apply (updatePackage_preserves S); auto.
Qed.

Lemma updateExtraFiles_preserves (newName : string) :
  S (rootDir // "README.md") ->
  S (rootDir // "packages" // "frontend" // "index.html") ->
  preserves I (updateExtraFiles rootDir newName).
Proof.
  intros H1 H2.
  apply preserves_forM. intros f [<-|[<-|[]]];
    now apply (updateExtraFile_preserves S).
Qed.

End ConfinementTop.

(** Whatever [renameProject] does, it does by overwriting existing files at
    the paths of its footprint. *)
Lemma renameProject_preserves (rootDir : path) (I : world -> Prop)
  (newName : string) :
  stable (footprint rootDir) I -> preserves I (renameProject rootDir newName).
Proof.
  intros I_stable w r w' HI E. unfold renameProject in E.
  inv_bind E; [|now apply detectCurrentScope_state in Ea as ->].
  apply detectCurrentScope_state in Ea as ->.
  assert (P1 : preserves I (updateRootManifest rootDir newName)).
  { apply (updateRootManifest_preserves rootDir (footprint rootDir));
      [assumption | now left]. }
  assert (P2 : forall old new,
             preserves I (updatePackages (rootDir // "packages") old new newName)).
  { intros old new.
    apply (updatePackages_preserves (footprint rootDir)); [assumption | |].
    - intros pkg. right; left. now exists pkg.
    - intros pkg r0. right; right; left. now exists pkg, r0. }
  assert (P3 : preserves I (updateExtraFiles rootDir newName)).
  { apply (updateExtraFiles_preserves rootDir (footprint rootDir));
      [assumption | |].
    - right; right; right; now left.
    - right; right; right; now right. }
  inv_bind Eb; [|now eapply P1; eauto].
  apply (P1 w _ _ HI) in Eba.
  inv_bind Ebb; [|now eapply P2; eauto].
  eapply P3; [|eassumption]. eapply P2; eauto.
Qed.

(** ** Three properties that overwriting keeps *)

Section StableInstances.

Variable S : path -> Prop.

(** The shape of the tree. *)
Lemma stable_shape (t0 : node) : stable S (fun w => same_shape (tree w) t0).
Proof.
  intros w p c t' HI _ [c1 Hf] E. simpl.
  pose proof (sim_lookup any_content _ _ p HI) as L. rewrite Hf in L.
  destruct (Fs.lookup p t0) as [[c0|es]|] eqn:L0; simpl in L; try contradiction.
  destruct (sim_put any_content p c c0 _ _ HI L0 I) as (a' & E' & Hs).
  rewrite E in E'. now injection E' as <-.
Qed.

(** What stands at a path that no written path passes through. *)
Lemma stable_lookup (p : path) (v : option node) :
  (forall w r, S w -> w <> (p ++ r)%list) ->
  stable S (fun w => Fs.lookup p (tree w) = v).
Proof.
  intros Hp w q c t' HI Hq _ E. simpl.
  rewrite (put_lookup_frame _ _ _ _ p E); [assumption|].
  intros r. now apply Hp.
Qed.

(** The record of the writes. *)
Lemma stable_trace (tr : list event) :
  stable S (fun w => exists ps, trace w = (tr ++ map Wrote ps)%list /\ Forall S ps).
Proof.
  intros w q c t' (ps & E & F) Hq _ _. simpl.
  exists (ps ++ [q])%list. split.
  - rewrite E, map_app, app_assoc. reflexivity.
  - apply Forall_app. split; [assumption|]. now constructor.
Qed.

End StableInstances.

(** A run of [renameProject] changes no directory and creates no file. *)
Lemma renameProject_shape (rootDir : path) (newName : string) (w w' : world) r :
  renameProject rootDir newName w = (r, w') -> same_shape (tree w') (tree w).
Proof.
  apply (renameProject_preserves rootDir (fun w' => same_shape (tree w') (tree w)) newName).
  - apply stable_shape.
  - apply sim_refl. intros c; exact I.
Qed.

(** ** Scope detection *)

Section Detection.

Variable packagesDir : path.

Lemma readJson_run (p : path) (w : world) (j : json) :
  Fs.lookup p (tree w) = Some (File (Json j)) -> readJson p w = (Ok j, w).
Proof. intros H. unfold readJson. now rewrite H. Qed.

Lemma name_of_run (kvs : list (string * json)) (n : string) (w : world) :
  Obj.get "name" kvs = Some (JString n) -> name_of (JObject kvs) w = (Ok n, w).
Proof. intros H. unfold name_of, prop. now rewrite H. Qed.

Lemma read_unreadable (p : path) (c : content) (e : error) (w : world) {A}
  (k : string -> M A) :
  Fs.lookup p (tree w) = Some (File c) -> unreadable c e ->
  (data <- readJson p ;; name <- name_of data ;; k name) w = (Throw e, w).
Proof.
  intros L H; inversion H as [s|data Hn]; subst; rewrite bind_eq;
    unfold readJson; rewrite L; [reflexivity|].
  rewrite bind_eq. unfold name_of.
  destruct (prop "name" data) as [[| | |s| |]|] eqn:P; try reflexivity.
  now specialize (Hn s).
Qed.

Lemma detectScope_skip (pre rest : list string) (w : world) :
  Forall (yields_no_scope packagesDir (tree w)) pre ->
  detectScope packagesDir (pre ++ rest) w = detectScope packagesDir rest w.
Proof.
  induction 1 as [|x pre Hx _ IH]; [reflexivity|].
  cbn [app detectScope]. rewrite bind_eq, existsSync_run.
  destruct Hx as [Hx|(kvs & n & Hx & Hn & Hs)]; unfold manifestPath in Hx;
    rewrite Hx; [exact IH|].
  rewrite bind_eq, (readJson_run _ _ _ Hx).
  rewrite bind_eq, (name_of_run _ _ _ Hn).
  cbv beta. now rewrite Hs.
Qed.

Lemma detectScope_hit (pkg : string) (post : list string) (w : world)
  (kvs : list (string * json)) (n : string) :
  Fs.lookup (manifestPath packagesDir pkg) (tree w)
  = Some (File (Json (JObject kvs))) ->
  Obj.get "name" kvs = Some (JString n) -> scoped n = true ->
  detectScope packagesDir (pkg :: post) w = (Ok (hd "" (split n "/")), w).
Proof.
  intros Hx Hn Hs. cbn [detectScope]. rewrite bind_eq, existsSync_run.
  unfold manifestPath in Hx. rewrite Hx.
  rewrite bind_eq, (readJson_run _ _ _ Hx).
  rewrite bind_eq, (name_of_run _ _ _ Hn).
  cbv beta. now rewrite Hs.
Qed.

Lemma detectScope_unreadable (pkg : string) (post : list string) (w : world)
  (c : content) (e : error) :
  Fs.lookup (manifestPath packagesDir pkg) (tree w) = Some (File c) ->
  unreadable c e ->
  detectScope packagesDir (pkg :: post) w = (Throw e, w).
Proof.
  intros Hx Hc. cbn [detectScope]. rewrite bind_eq, existsSync_run.
  unfold manifestPath in Hx. rewrite Hx.
  now apply read_unreadable with (c := c).
Qed.

Lemma detectScope_fallback (packages : list string) (w : world) :
  Forall (yields_no_scope packagesDir (tree w)) packages ->
  detectScope packagesDir packages w = (Ok fallbackScope, w).
Proof.
  intros H. rewrite <- (app_nil_r packages). now rewrite detectScope_skip.
Qed.

Lemma detectCurrentScope_run (es : list (string * node)) (w : world) :
  Fs.lookup packagesDir (tree w) = Some (Dir es) ->
  detectCurrentScope packagesDir w = detectScope packagesDir (map fst es) w.
Proof.
  intros H. unfold detectCurrentScope.
  rewrite bind_eq, existsSync_run, H. rewrite bind_eq. unfold readdir. now rewrite H.
Qed.

End Detection.

Lemma includes_slash_split (n : string) :
  includes n "/" = true ->
  exists a r, n = a ++ "/" ++ r /\ includes a "/" = false.
Proof.
  induction n as [|c n IH]; [discriminate|].
  destruct (Ascii.eqb c "/"%char) eqn:E.
  - apply Ascii.eqb_eq in E; subst c. intros _. now exists "", n.
  - intros H. cbn [includes startsWith] in H. rewrite E in H. simpl in H.
    destruct (IH H) as (a & r & -> & Ha).
    exists (String c a), r. split; [reflexivity|].
    cbn [includes startsWith]. now rewrite E, Ha.
Qed.

(** ** One package *)

(** Two paths that part ways below a common directory. *)
Ltac path_neq :=
  let H := fresh "H" in
  intros H; unfold manifestPath, sub in H;
  repeat rewrite <- app_assoc in H;
  repeat (apply app_inv_head in H); simpl in H;
  try discriminate H;
  try (injection H; intros; subst; try discriminate; try tauto; try congruence).

Section Package.

Variable packagesDir : path.
Variables old new newName : string.

Lemma parent_is_dir (p : path) (x : string) (t n : node) :
  Fs.lookup (p // x) t = Some n ->
  exists es, Fs.lookup p t = Some (Dir es).
Proof.
  rewrite lookup_sub. destruct (Fs.lookup p t) as [[c|es]|]; try discriminate.
  eauto.
Qed.

Lemma isDirectory_run (p : path) (w : world) (es : list (string * node)) :
  Fs.lookup p (tree w) = Some (Dir es) -> isDirectory p w = (Ok true, w).
Proof. intros H. unfold isDirectory. now rewrite H. Qed.

Lemma forM_app {A} (l1 l2 : list A) (body : A -> M unit) (w : world) :
  forM_ (l1 ++ l2) body w
  = match forM_ l1 body w with
    | (Ok _, w1) => forM_ l2 body w1
    | (Throw e, w1) => (Throw e, w1)
    end.
Proof.
  revert w; induction l1 as [|x l1 IH]; intros w; [reflexivity|].
  simpl. rewrite !bind_eq. destruct (body x w) as [[[]|e] w1]; [apply IH|reflexivity].
Qed.

(** A manifest that cannot be read, or that has no string [name], stops the
    update of its package before anything is written. *)
Lemma updatePackage_unreadable (pkg : string) (w : world) (c : content) (e : error) :
  Fs.lookup (manifestPath packagesDir pkg) (tree w) = Some (File c) ->
  unreadable c e ->
  updatePackage packagesDir old new newName pkg w = (Throw e, w).
Proof.
  intros L U. unfold updatePackage.
  destruct (parent_is_dir _ _ _ _ L) as [es D].
  rewrite bind_eq, (isDirectory_run _ _ _ D).
  rewrite bind_eq, existsSync_run. unfold manifestPath in L. rewrite L.
  cbn [andb].
  inversion U as [s|data Hn]; subst; rewrite bind_eq;
    unfold readJson; rewrite L; [reflexivity|].
  rewrite bind_eq. unfold name_of.
  destruct (prop "name" data) as [[| | |s| |]|] eqn:P; try reflexivity.
  now specialize (Hn s).
Qed.

(** The update of one package leaves the rest of [packages/] alone. *)
Lemma updatePackage_frame (pkg : string) (p : path) (v : option node) :
  (forall r, manifestPath packagesDir pkg <> (p ++ r)%list) ->
  (forall r r', (packagesDir // pkg // "src" ++ r')%list <> (p ++ r)%list) ->
  preserves (fun w => Fs.lookup p (tree w) = v)
    (updatePackage packagesDir old new newName pkg).
Proof.
  intros H1 H2.
  apply (updatePackage_preserves
           (fun q => q = manifestPath packagesDir pkg
                     \/ exists r', q = (packagesDir // pkg // "src" ++ r')%list)).
  - apply stable_lookup. intros q r [->|[r' ->]]; auto.
  - now left.
  - intros r. right. now exists r.
Qed.

Lemma updatePackage_frame_other (pkg other : string) (r0 : path)
  (v : option node) :
  other <> pkg ->
  preserves (fun w => Fs.lookup (packagesDir // other ++ r0)%list (tree w) = v)
    (updatePackage packagesDir old new newName pkg).
Proof.
  intros Hne. apply updatePackage_frame.
  - intros r. path_neq.
  - intros r r'. path_neq.
Qed.

End Package.

(** ** A run that stops at a package *)

Section Abort.

Variable rootDir : path.
Variable newName : string.

Let packagesDir : path := rootDir // "packages".

Lemma updateRootManifest_frame (p : path) (v : option node) :
  (forall r, rootDir // "package.json" <> (p ++ r)%list) ->
  preserves (fun w => Fs.lookup p (tree w) = v)
    (updateRootManifest rootDir newName).
Proof.
  intros H.
  apply (updateRootManifest_preserves rootDir (fun q => q = rootDir // "package.json")).
  - apply stable_lookup. now intros q r ->.
  - reflexivity.
Qed.

Lemma updateRootManifest_shape (w w' : world) r :
  updateRootManifest rootDir newName w = (r, w') ->
  same_shape (tree w') (tree w).
Proof.
  apply (updateRootManifest_preserves rootDir (fun _ => True)
           (fun w' => same_shape (tree w') (tree w))).
  - apply stable_shape.
  - exact I.
  - apply sim_refl. intros c; exact I.
Qed.

Lemma same_shape_readdir (t t' : node) (p : path) (es : list (string * node)) :
  same_shape t' t -> Fs.lookup p t = Some (Dir es) ->
  exists es', Fs.lookup p t' = Some (Dir es') /\ map fst es' = map fst es.
Proof.
  intros H L. pose proof (sim_lookup any_content _ _ p H) as Q.
  rewrite L in Q. destruct (Fs.lookup p t') as [[c|es']|]; simpl in Q;
    try contradiction.
  exists es'. split; [reflexivity|]. now apply entries_rel_names in Q.
Qed.

Lemma updatePackages_frame_loop (old new : string) (pkgs : list string)
  (p : path) (v : option node) :
  (forall pkg r, In pkg pkgs -> manifestPath packagesDir pkg <> (p ++ r)%list) ->
  (forall pkg r r', In pkg pkgs ->
     (packagesDir // pkg // "src" ++ r')%list <> (p ++ r)%list) ->
  preserves (fun w => Fs.lookup p (tree w) = v)
    (forM_ pkgs (updatePackage packagesDir old new newName)).
Proof.
  intros H1 H2. apply preserves_forM. intros x Hx.
  apply updatePackage_frame; eauto.
Qed.

Lemma reaches_lookup (w w1 : world) (pre : list string) (scope : string)
  (p : path) :
  reaches rootDir newName w pre scope w1 ->
  (forall r, rootDir // "package.json" <> (p ++ r)%list) ->
  (forall pkg r, In pkg pre -> manifestPath packagesDir pkg <> (p ++ r)%list) ->
  (forall pkg r r', In pkg pre ->
     (packagesDir // pkg // "src" ++ r')%list <> (p ++ r)%list) ->
  Fs.lookup p (tree w1) = Fs.lookup p (tree w).
Proof.
  intros (_ & w0 & E0 & E1) H0 H1 H2.
  apply (updatePackages_frame_loop (scope ++ "/") ("@" ++ newName ++ "/")
           pre p _ H1 H2 w0 (Ok tt) w1); [|exact E1].
  apply (updateRootManifest_frame p _ H0 w (Ok tt) w0); [reflexivity|exact E0].
Qed.

Lemma reaches_untouched (w w1 : world) (pre : list string) (scope : string) :
  reaches rootDir newName w pre scope w1 -> untouched_after rootDir w w1 pre.
Proof.
  intros R. repeat split.
  - apply (reaches_lookup _ _ _ _ _ R); unfold packagesDir.
    + intros r. path_neq.
    + intros pkg r _. path_neq.
    + intros pkg r r' _. path_neq.
  - apply (reaches_lookup _ _ _ _ _ R); unfold packagesDir.
    + intros r. path_neq.
    + intros pkg r _. path_neq.
    + intros pkg r r' _. path_neq.
  - intros other r Hn.
    apply (reaches_lookup _ _ _ _ _ R); unfold packagesDir.
    + intros r'. path_neq.
    + intros pkg r' Hp. path_neq.
    + intros pkg r' r'' Hp. path_neq.
Qed.

Lemma renameProject_stops_in_scan (w : world) (es : list (string * node))
  (pre post : list string) (pkg : string) (c : content) (e : error) :
  Fs.lookup packagesDir (tree w) = Some (Dir es) ->
  map fst es = (pre ++ pkg :: post)%list ->
  Forall (yields_no_scope packagesDir (tree w)) pre ->
  Fs.lookup (manifestPath packagesDir pkg) (tree w) = Some (File c) ->
  unreadable c e ->
  renameProject rootDir newName w = (Throw e, w).
Proof.
  intros D N Hpre L U. unfold renameProject. fold packagesDir.
  rewrite bind_eq, (detectCurrentScope_run _ _ _ D), N.
  rewrite detectScope_skip by assumption.
  now rewrite (detectScope_unreadable _ _ _ _ _ _ L U).
Qed.

Lemma renameProject_stops_in_update (w w1 : world) (es : list (string * node))
  (pre post : list string) (pkg scope : string) (c : content) (e : error) :
  Fs.lookup packagesDir (tree w) = Some (Dir es) ->
  map fst es = (pre ++ pkg :: post)%list ->
  ~ In pkg pre ->
  Fs.lookup (manifestPath packagesDir pkg) (tree w) = Some (File c) ->
  unreadable c e ->
  reaches rootDir newName w pre scope w1 ->
  renameProject rootDir newName w = (Throw e, w1).
Proof.
  intros D N Hn L U R. pose proof (reaches_untouched _ _ _ _ R) as (_ & _ & F).
  destruct R as (E & w0 & E0 & E1). fold packagesDir in E, E1, F.
  unfold renameProject. fold packagesDir.
  rewrite bind_eq, E. rewrite bind_eq, E0. rewrite bind_eq.
  unfold updatePackages. rewrite bind_eq, existsSync_run.
  destruct (same_shape_readdir _ _ _ _ (updateRootManifest_shape _ _ _ E0) D)
    as (es0 & D0 & N0).
  rewrite D0. rewrite bind_eq. unfold readdir. rewrite D0, N0, N.
  rewrite forM_app, E1. cbn [forM_]. rewrite bind_eq.
  rewrite (updatePackage_unreadable _ _ _ _ _ _ c e); [reflexivity | | assumption].
  change (manifestPath packagesDir pkg)
    with (packagesDir // pkg ++ ["package.json"])%list in L |- *.
  now rewrite (F pkg ["package.json"] Hn).
Qed.

End Abort.

(** * The rename routine on projects *)

(** ** C6 *)

(** C6: scope detection scans the entries of [rootDir/packages] in listing
    order.  The first entry whose manifest has a name that starts with [@]
    and contains [/] gives the scope, the part of that name before the first
    [/], whatever the entries [post] listed after it hold: they are not
    scanned.  When every entry yields no scope, the scope is [@repo]. *)
Theorem C6_scope_detection (packagesDir : path) (w : world)
  (es : list (string * node)) :
  Fs.lookup packagesDir (tree w) = Some (Dir es) ->
  (forall pre pkg post kvs scope rest,
      map fst es = (pre ++ pkg :: post)%list ->
      Forall (yields_no_scope packagesDir (tree w)) pre ->
      Fs.lookup (manifestPath packagesDir pkg) (tree w)
      = Some (File (Json (JObject kvs))) ->
      Obj.get "name" kvs = Some (JString (scope ++ "/" ++ rest)) ->
      startsWith scope "@" = true ->
      includes scope "/" = false ->
      detectCurrentScope packagesDir w = (Ok scope, w))
  /\ (Forall (yields_no_scope packagesDir (tree w)) (map fst es) ->
      detectCurrentScope packagesDir w = (Ok "@repo", w)).
Proof.
  intros D. split.
  - intros pre pkg post kvs scope rest N Hpre L G Hat Hs.
    rewrite (detectCurrentScope_run _ _ _ D), N.
    rewrite detectScope_skip by assumption.
    rewrite (detectScope_hit _ _ _ _ _ _ L G).
    + now rewrite split_slash_head.
    + apply (startsWith_token_scoped _ scope Hat).
      rewrite <- append_assoc. apply startsWith_app.
  - intros H. rewrite (detectCurrentScope_run _ _ _ D).
    now apply detectScope_fallback.
Qed.

Lemma C6_scope_detection_witness :
  detectCurrentScope ["app"; "packages"] (World Sample.workspace [])
  = (Ok "@old", World Sample.workspace [])
  /\ detectCurrentScope ["app"; "packages"] (World Sample.unscoped_workspace [])
     = (Ok "@repo", World Sample.unscoped_workspace []).
Proof.
  split.
  - refine (proj1 (C6_scope_detection ["app"; "packages"]
                     (World Sample.workspace []) _ eq_refl)
              [] "ui" ["api"] _ "@old" "ui" eq_refl _ eq_refl eq_refl eq_refl eq_refl).
    constructor.
  - refine (proj2 (C6_scope_detection ["app"; "packages"]
                     (World Sample.unscoped_workspace []) _ eq_refl) _).
    repeat (apply Forall_cons; [right; do 2 eexists; repeat split; reflexivity|]).
    apply Forall_nil.
Defined.

(** ** C10 *)

(** C10: a manifest without a [name] field in a package that the run reaches
    makes [renameProject] throw a [TypeError].  Reached by the scan for the
    scope, nothing has been written.  Reached by the update of the packages,
    the run ends in the world [w1] it had built until then: the root manifest
    and the packages listed before stay as they were rewritten, and the
    packages not listed before and the two documentation files are as they
    were at the start. *)
Theorem C10_missing_name_aborts (rootDir : path) (newName : string) (w : world)
  (es : list (string * node)) (pre post : list string) (pkg : string)
  (data : json) :
  Fs.lookup (rootDir // "packages") (tree w) = Some (Dir es) ->
  map fst es = (pre ++ pkg :: post)%list ->
  ~ In pkg pre ->
  Fs.lookup (manifestPath (rootDir // "packages") pkg) (tree w)
  = Some (File (Json data)) ->
  prop "name" data = None ->
  (Forall (yields_no_scope (rootDir // "packages") (tree w)) pre ->
   renameProject rootDir newName w = (Throw TypeError, w))
  /\ (forall scope w1,
        reaches rootDir newName w pre scope w1 ->
        renameProject rootDir newName w = (Throw TypeError, w1)
        /\ untouched_after rootDir w w1 pre).
Proof.
  intros D N Hn L P.
  assert (U : unreadable (Json data) TypeError)
    by (constructor; intros n; rewrite P; discriminate).
  split.
  - intros Hpre.
    eapply renameProject_stops_in_scan; eauto.
  - intros scope w1 R. split.
    + eapply renameProject_stops_in_update; eauto.
    + now apply (reaches_untouched rootDir newName w w1 pre scope).
Qed.

Lemma C10_missing_name_aborts_witness :
  exists w1,
    renameProject ["app"] "shop" (World (Sample.workspace_with nameless) [])
    = (Throw TypeError, w1)
    /\ trace w1 = [Wrote ["app"; "package.json"];
                   Wrote ["app"; "packages"; "ui"; "package.json"]]
    /\ Fs.lookup ["app"; "README.md"] (tree w1)
       = Some (File (Text "# Modern Fullstack Boilerplate"))
    /\ Fs.lookup ["app"; "packages"; "api"; "package.json"] (tree w1)
       = Some (Sample.manifest "@old/api" [("zod", "3.0.0")]).
Proof.
  pose (w := World (Sample.workspace_with nameless) []).
  pose (w1 := snd (renameProject ["app"] "shop" w)).
  assert (Hn : ~ In "docs" ["ui"]) by (intros [H|[]]; discriminate H).
  destruct (C10_missing_name_aborts ["app"] "shop" w _ ["ui"] ["api"] "docs" _
              eq_refl eq_refl Hn eq_refl eq_refl) as [_ H].
  destruct (H "@old" w1) as [E (U1 & _ & U3)].
  - split; [reflexivity|]. eexists. split; reflexivity.
  - exists w1. split; [exact E|]. split; [reflexivity|]. split.
    + exact U1.
    + assert (Ha : ~ In "api" ["ui"]) by (intros [Q|[]]; discriminate Q).
      exact (U3 "api" ["package.json"] Ha).
Defined.

(** ** C4 *)

(** C4, as stated, fails: the manifest of [docs] does not parse, the run
    throws there, and the package [api] listed after it keeps its old name. *)
Lemma C4_counterexample :
  let t := Sample.workspace_with (Text "{ name: ") in
  let out := run (renameProject ["app"] "shop") t in
  fst out = Throw SyntaxError
  /\ Fs.lookup ["app"; "packages"; "api"; "package.json"] (tree (snd out))
     = Some (Sample.manifest "@old/api" [("zod", "3.0.0")])
  /\ Fs.lookup ["app"; "packages"; "ui"; "package.json"] (tree (snd out))
     = Some (Sample.manifest "@shop/ui" [("react", "18.0.0")]).
Proof. vm_compute. repeat split. Qed.

(** C4, amended: a manifest that does not parse in a package that the run
    reaches makes [renameProject] throw a [SyntaxError]; nothing is skipped
    and resumed.  Reached by the scan for the scope, nothing has been written.
    Reached by the update of the packages, the run ends in the world [w1] it
    had built until then, and the packages not listed before and the two
    documentation files are as they were at the start. *)
Theorem C4_parse_failure_aborts (rootDir : path) (newName : string) (w : world)
  (es : list (string * node)) (pre post : list string) (pkg : string)
  (text : string) :
  Fs.lookup (rootDir // "packages") (tree w) = Some (Dir es) ->
  map fst es = (pre ++ pkg :: post)%list ->
  ~ In pkg pre ->
  Fs.lookup (manifestPath (rootDir // "packages") pkg) (tree w)
  = Some (File (Text text)) ->
  (Forall (yields_no_scope (rootDir // "packages") (tree w)) pre ->
   renameProject rootDir newName w = (Throw SyntaxError, w))
  /\ (forall scope w1,
        reaches rootDir newName w pre scope w1 ->
        renameProject rootDir newName w = (Throw SyntaxError, w1)
        /\ untouched_after rootDir w w1 pre).
Proof.
  intros D N Hn L.
  pose proof (unreadable_text text) as U.
  split.
  - intros Hpre.
    eapply renameProject_stops_in_scan; eauto.
  - intros scope w1 R. split.
    + eapply renameProject_stops_in_update; eauto.
    + now apply (reaches_untouched rootDir newName w w1 pre scope).
Qed.

Lemma C4_parse_failure_aborts_witness :
  exists w1,
    renameProject ["app"] "shop"
      (World (Sample.workspace_with (Text "{ name: ")) [])
    = (Throw SyntaxError, w1)
    /\ Fs.lookup ["app"; "README.md"] (tree w1)
       = Some (File (Text "# Modern Fullstack Boilerplate")).
Proof.
  pose (w := World (Sample.workspace_with (Text "{ name: ")) []).
  pose (w1 := snd (renameProject ["app"] "shop" w)).
  assert (Hn : ~ In "docs" ["ui"]) by (intros [H|[]]; discriminate H).
  destruct (C4_parse_failure_aborts ["app"] "shop" w _ ["ui"] ["api"] "docs" _
              eq_refl eq_refl Hn eq_refl) as [_ H].
  destruct (H "@old" w1) as [E (U1 & _)].
  - split; [reflexivity|]. eexists. split; reflexivity.
  - exists w1. split; [exact E | exact U1].
Defined.

(** ** C9 *)

(** C9: when the old scope token is the new one, [@newName/], the rekeying
    of [dependencies] and of [devDependencies] removes every key that begins
    with the token and keeps the others: the entry is assigned to its own key
    and then deleted. *)
Theorem C9_same_token_deletes (newName name field : string)
  (data deps : list (string * json)) :
  let token := "@" ++ newName ++ "/" in
  field = "dependencies" \/ field = "devDependencies" ->
  Obj.get field data = Some (JObject deps) ->
  exists deps',
    Obj.get field (updateManifest token token name data) = Some (JObject deps')
    /\ deps' = filter (fun kv => negb (startsWith (fst kv) token)) deps
    /\ (forall k, startsWith k token = true -> Obj.get k deps' = None)
    /\ (forall k, startsWith k token = false -> Obj.get k deps' = Obj.get k deps).
Proof.
  intros token Hf G.
  exists (filter (fun kv => negb (startsWith (fst kv) token)) deps).
  split; [|split; [reflexivity|split]].
  - rewrite (get_updateManifest_deps _ _ _ _ _ _ Hf G).
    now rewrite rekeyDeps_same_token.
  - intros k Hk.
    rewrite (get_filter (fun k => negb (startsWith k token))). now rewrite Hk.
  - intros k Hk.
    rewrite (get_filter (fun k => negb (startsWith k token))). now rewrite Hk.
Qed.

Lemma C9_same_token_deletes_witness :
  Obj.get "dependencies"
    (updateManifest "@shop/" "@shop/" "@shop/api"
       [("name", JString "@shop/api");
        ("dependencies",
         JObject [("@shop/ui", JString "workspace:*"); ("zod", JString "3.0.0")])])
  = Some (JObject [("zod", JString "3.0.0")]).
Proof.
  destruct (C9_same_token_deletes "shop" "@shop/api" "dependencies"
              [("name", JString "@shop/api");
               ("dependencies",
                JObject [("@shop/ui", JString "workspace:*");
                         ("zod", JString "3.0.0")])]
              _ (or_introl eq_refl) eq_refl) as (deps' & E & -> & _).
  exact E.
Defined.

(** ** C3 *)

(** C3, as stated, fails: [@shop/ui] does not begin with the old token
    [@old/], and the rekeying of [@old/ui] overwrites its value. *)
Lemma C3_counterexample :
  let deps := [("@old/ui", JString "1.0.0"); ("@shop/ui", JString "2.0.0")] in
  let data := [("name", JString "@old/api"); ("dependencies", JObject deps)] in
  startsWith "@shop/ui" "@old/" = false
  /\ Obj.get "@shop/ui" deps = Some (JString "2.0.0")
  /\ Obj.get "dependencies" (updateManifest "@old/" "@shop/" "@old/api" data)
     = Some (JObject [("@shop/ui", JString "1.0.0")]).
Proof. vm_compute. repeat split. Qed.

Lemma token_fresh (scope newName : string) :
  includes scope "/" = false -> includes newName "/" = false ->
  scope <> "@" ++ newName ->
  forall r, startsWith (("@" ++ newName ++ "/") ++ r) (scope ++ "/") = false.
Proof.
  intros Hs Hn Hne r.
  destruct (startsWith _ _) eqn:E; [|reflexivity].
  exfalso. apply Hne.
  apply (token_prefix scope ("@" ++ newName) r); try assumption.
  replace (("@" ++ newName) ++ "/" ++ r) with (("@" ++ newName ++ "/") ++ r);
    [exact E|].
  cbn [append]. f_equal. apply append_assoc.
Qed.

(** C3, amended: in a manifest whose mapping has distinct keys, when the
    old scope token differs from the new one, every key of [dependencies] and
    of [devDependencies] that begins with the old token is gone and its value
    stands under the same key with the new token as prefix; every key that
    does not begin with the old token, and that is not the new key of a
    rekeyed entry, keeps its value. *)
Theorem C3_rekeying (scope newName name field : string)
  (data deps : list (string * json)) :
  let old := scope ++ "/" in
  let new := "@" ++ newName ++ "/" in
  includes scope "/" = false ->
  validName newName = true ->
  scope <> "@" ++ newName ->
  NoDup (Obj.keys deps) ->
  field = "dependencies" \/ field = "devDependencies" ->
  Obj.get field data = Some (JObject deps) ->
  exists deps',
    Obj.get field (updateManifest old new name data) = Some (JObject deps')
    /\ (forall k v, Obj.get k deps = Some v -> startsWith k old = true ->
          Obj.get (replace k old new) deps' = Some v
          /\ replace k old new = new ++ drop (String.length old) k
          /\ Obj.get k deps' = None)
    /\ (forall k, startsWith k old = false ->
          (forall k0, In k0 (Obj.keys deps) -> startsWith k0 old = true ->
                      replace k0 old new <> k) ->
          Obj.get k deps' = Obj.get k deps).
Proof.
  intros old new Hs Hv Hne ND Hf G.
  exists (rekeyDeps old new deps).
  split; [now apply get_updateManifest_deps|].
  assert (F : forall r, startsWith (new ++ r) old = false)
    by (apply token_fresh; auto using validName_no_slash).
  destruct (rekey_inv_fold old new F deps (Obj.keys deps) [] deps)
    as (_ & I2 & I3).
  - exact ND.
  - auto.
  - split; [auto | split; [intros k [] | auto]].
  - split.
    + intros k v Hk Hsw.
      assert (Hin : In k (Obj.keys deps)).
      { clear -Hk. induction deps as [|[k0 v0] r IH]; simpl in *; [discriminate|].
        destruct (String.eqb_spec k k0); [now left | right; auto]. }
      destruct (I2 k Hin Hsw) as [N1 N2].
      split; [now rewrite <- Hk | split; [now apply replace_prefix | exact N1]].
    + intros k Hsw Hk. apply I3; [assumption|].
      intros k0 Hin0. now apply Hk.
Qed.

Lemma C3_rekeying_witness :
  exists deps',
    Obj.get "dependencies"
      (updateManifest "@old/" "@shop/" "@old/api"
         [("name", JString "@old/api");
          ("dependencies",
           JObject [("@old/ui", JString "workspace:*"); ("zod", JString "3.0.0")])])
    = Some (JObject deps')
    /\ Obj.get "@shop/ui" deps' = Some (JString "workspace:*")
    /\ Obj.get "@old/ui" deps' = None
    /\ Obj.get "zod" deps' = Some (JString "3.0.0").
Proof.
  assert (ND : NoDup (Obj.keys [("@old/ui", JString "workspace:*");
                                ("zod", JString "3.0.0")])).
  { repeat constructor; simpl; intuition discriminate. }
  assert (Hne : "@old" <> "@" ++ "shop") by discriminate.
  destruct (C3_rekeying "@old" "shop" "@old/api" "dependencies"
              [("name", JString "@old/api");
               ("dependencies",
                JObject [("@old/ui", JString "workspace:*");
                         ("zod", JString "3.0.0")])]
              _ eq_refl eq_refl Hne ND (or_introl eq_refl) eq_refl)
    as (deps' & E & H1 & H2).
  exists deps'. split; [exact E|].
  destruct (H1 "@old/ui" _ eq_refl eq_refl) as (G1 & _ & G2).
  split; [exact G1 | split; [exact G2|]].
  apply (H2 "zod" eq_refl).
  intros k0 [<-|[<-|[]]] Hs; discriminate.
Defined.

(** ** The manifests after a run *)

Lemma forM_establish {A} (I J : world -> Prop) (x : A) (l : list A)
  (body : A -> M unit) :
  In x l ->
  (forall y w w', I w -> body y w = (Ok tt, w') -> I w') ->
  (forall w w', I w -> body x w = (Ok tt, w') -> J w') ->
  (forall y w w', J w -> body y w = (Ok tt, w') -> J w') ->
  forall w w', I w -> forM_ l body w = (Ok tt, w') -> J w'.
Proof.
  intros Hin HI HIJ HJ.
  assert (KJ : forall k w w', J w -> forM_ k body w = (Ok tt, w') -> J w').
  { clear Hin. induction k as [|y k IH]; intros w w' H E; cbn [forM_] in E.
    - now inv_ret E.
    - inv_bind E. destruct a. eauto. }
  induction l as [|y l IH]; intros w w' H E; [contradiction|].
  cbn [forM_] in E. inv_bind E. destruct a.
  destruct Hin as [->|Hin].
  - apply (KJ l w1 w'); [|assumption]. now apply (HIJ w w1).
  - apply (IH Hin w1 w'); [|assumption]. now apply (HI y w w1).
Qed.

Section PackageSelf.

Variable packagesDir : path.
Variables old new newName : string.

Lemma updateSources_frame (pkg : string) (p : path) (v : option node) :
  (forall r r', (packagesDir // pkg // "src" ++ r')%list <> (p ++ r)%list) ->
  preserves (fun w => Fs.lookup p (tree w) = v)
    (updateSources (packagesDir // pkg) old new newName).
Proof.
  intros H.
  apply (updateSources_preserves
           (fun q => exists r', q = (packagesDir // pkg // "src" ++ r')%list)).
  - apply stable_lookup. intros q r [r' ->]. apply H.
  - intros r. now exists r.
Qed.

(** The update of a package writes the updated manifest, and the rewriting
    of the source files leaves it there. *)
Lemma updatePackage_self (pkg : string) (w w' : world)
  (kvs : list (string * json)) (name : string) :
  manifest_at packagesDir pkg (tree w) kvs name ->
  updatePackage packagesDir old new newName pkg w = (Ok tt, w') ->
  Fs.lookup (manifestPath packagesDir pkg) (tree w')
  = Some (File (Json (JObject (updateManifest old new name kvs)))).
Proof.
  intros [L G] E. unfold updatePackage in E.
  destruct (parent_is_dir _ _ _ _ L) as [es D].
  rewrite bind_eq, (isDirectory_run _ _ _ D) in E.
  rewrite bind_eq, existsSync_run in E. unfold manifestPath in L. rewrite L in E.
  cbn [andb] in E.
  rewrite bind_eq, (readJson_run _ _ _ L) in E.
  rewrite bind_eq, (name_of_run _ _ _ G) in E.
  inv_bind E.
  apply write_inv in Ea as [(t' & P & _ & ->)|(_ & _ & e & Q)]; [|discriminate].
  apply put_lookup_same in P.
  assert (Hneq : forall r r', (packagesDir // pkg // "src" ++ r')%list
                              <> (manifestPath packagesDir pkg ++ r)%list)
    by (intros r r'; path_neq).
  refine (updateSources_frame pkg (manifestPath packagesDir pkg) _ Hneq
            _ (Ok tt) w' _ Eb).
  exact P.
Qed.

(** A package without a manifest is passed over. *)
Lemma updatePackage_absent (pkg : string) (w w' : world) r :
  Fs.lookup (manifestPath packagesDir pkg) (tree w) = None ->
  updatePackage packagesDir old new newName pkg w = (r, w') -> w' = w.
Proof.
  intros L E. unfold updatePackage in E.
  inv_bind E; [|now apply isDirectory_state in Ea].
  apply isDirectory_state in Ea as ->.
  rewrite bind_eq, existsSync_run in Eb. unfold manifestPath in L.
  rewrite L, andb_false_r in Eb. now inv_ret Eb.
Qed.

(** A package whose update succeeded had a manifest with a name, or none. *)
Lemma updatePackage_ok_manifest (pkg : string) (w w' : world) :
  updatePackage packagesDir old new newName pkg w = (Ok tt, w') ->
  Fs.lookup (manifestPath packagesDir pkg) (tree w) = None
  \/ exists kvs name, manifest_at packagesDir pkg (tree w) kvs name.
Proof.
  intros E. unfold updatePackage in E.
  inv_bind E. pose proof Ea as Ed. apply isDirectory_state in Ea as ->.
  rewrite bind_eq, existsSync_run in Eb.
  fold (manifestPath packagesDir pkg) in Eb.
  destruct (Fs.lookup (manifestPath packagesDir pkg) (tree w)) eqn:L; [|now left].
  right. destruct a; cbn [andb] in Eb.
  - inv_bind Eb. apply readJson_inv in Eba as [-> Hj]. specialize (Hj _ eq_refl).
    inv_bind Ebb. apply name_of_inv in Ebba as [-> Hn].
    destruct (Hn _ eq_refl) as (kvs & -> & G).
    exists kvs. eexists. split; [|eassumption].
    exact Hj.
  - exfalso. inv_ret Eb.
    destruct (parent_is_dir _ _ _ _ L) as [es D].
    unfold isDirectory in Ed. rewrite D in Ed. discriminate.
Qed.

(** With respect to the name of [pkg]: a property of names that the
    renaming keeps is kept by the update of any package, and the update of
    [pkg] itself renames. *)
Lemma updatePackage_named_other (pkg other : string) (P : string -> Prop)
  (w w' : world) :
  other <> pkg ->
  named packagesDir pkg P w ->
  updatePackage packagesDir old new newName other w = (Ok tt, w') ->
  named packagesDir pkg P w'.
Proof.
  intros Hne (kvs & name & [L G] & HP) E.
  exists kvs, name. split; [split|]; try assumption.
  change (manifestPath packagesDir pkg)
    with (packagesDir // pkg ++ ["package.json"])%list in L |- *.
  now apply (updatePackage_frame_other packagesDir old new newName other pkg
               ["package.json"] _ (not_eq_sym Hne) w (Ok tt) w').
Qed.

Lemma updatePackage_named_self (pkg : string) (P Q : string -> Prop)
  (w w' : world) :
  (forall name, P name -> Q (renamed old new name)) ->
  named packagesDir pkg P w ->
  updatePackage packagesDir old new newName pkg w = (Ok tt, w') ->
  named packagesDir pkg Q w'.
Proof.
  intros HPQ (kvs & name & M & HP) E.
  exists (updateManifest old new name kvs), (renamed old new name).
  split; [split|].
  - now apply updatePackage_self with (w := w).
  - apply get_updateManifest_name. apply M.
  - now apply HPQ.
Qed.

Lemma updatePackage_named (pkg x : string) (P : string -> Prop) (w w' : world) :
  (forall name, P name -> P (renamed old new name)) ->
  named packagesDir pkg P w ->
  updatePackage packagesDir old new newName x w = (Ok tt, w') ->
  named packagesDir pkg P w'.
Proof.
  intros HP N E. destruct (string_dec x pkg) as [->|Hne].
  - now apply (updatePackage_named_self pkg P P w w').
  - now apply (updatePackage_named_other pkg x P w w').
Qed.

(** After the loop over a listing that has [pkg], the name of [pkg] has
    gone through the renaming. *)
Lemma updatePackages_named (pkg : string) (pkgs : list string)
  (P Q : string -> Prop) (w w' : world) :
  In pkg pkgs ->
  (forall name, P name -> P (renamed old new name)) ->
  (forall name, P name -> Q (renamed old new name)) ->
  (forall name, Q name -> Q (renamed old new name)) ->
  named packagesDir pkg P w ->
  forM_ pkgs (updatePackage packagesDir old new newName) w = (Ok tt, w') ->
  named packagesDir pkg Q w'.
Proof.
  intros Hin HP HPQ HQ.
  apply (forM_establish (named packagesDir pkg P) (named packagesDir pkg Q) pkg);
    try assumption.
  - intros y w0 w1. now apply updatePackage_named.
  - intros w0 w1. now apply updatePackage_named_self.
  - intros y w0 w1. now apply updatePackage_named.
Qed.

End PackageSelf.

(** ** A run that succeeds, phase by phase *)

Section Phases.

Variable rootDir : path.
Variable newName : string.

Let packagesDir : path := rootDir // "packages".

Lemma renameProject_ok (w w' : world) :
  renameProject rootDir newName w = (Ok tt, w') ->
  exists scope w0 w2,
    detectCurrentScope packagesDir w = (Ok scope, w)
    /\ updateRootManifest rootDir newName w = (Ok tt, w0)
    /\ updatePackages packagesDir (scope ++ "/") ("@" ++ newName ++ "/") newName w0
       = (Ok tt, w2)
    /\ updateExtraFiles rootDir newName w2 = (Ok tt, w').
Proof.
  intros E. unfold renameProject in E. fold packagesDir in E.
  inv_bind E. pose proof (detectCurrentScope_state _ _ _ _ Ea) as ->.
  inv_bind Eb. destruct a0. inv_bind Ebb. destruct a0.
  do 3 eexists. repeat split; eassumption.
Qed.

Lemma updatePackages_ok (old new : string) (w w' : world) :
  updatePackages packagesDir old new newName w = (Ok tt, w') ->
  (Fs.lookup packagesDir (tree w) = None /\ w' = w)
  \/ exists es,
       Fs.lookup packagesDir (tree w) = Some (Dir es)
       /\ forM_ (map fst es) (updatePackage packagesDir old new newName) w
          = (Ok tt, w').
Proof.
  intros E. unfold updatePackages in E.
  inv_exists E L; [|left; split; [reflexivity | now inv_ret E]].
  right. inv_bind E. unfold readdir in Ea. rewrite L in Ea.
  destruct n as [c|es]; [discriminate|]. inv_ret Ea. eauto.
Qed.

Lemma updatePackages_frame (old new : string) (p : path) (v : option node) :
  (forall pkg r, manifestPath packagesDir pkg <> (p ++ r)%list) ->
  (forall pkg r r', (packagesDir // pkg // "src" ++ r')%list <> (p ++ r)%list) ->
  preserves (fun w => Fs.lookup p (tree w) = v)
    (updatePackages packagesDir old new newName).
Proof.
  intros H1 H2.
  apply (updatePackages_preserves
           (fun q => (exists pkg, q = manifestPath packagesDir pkg)
                     \/ exists pkg r', q = (packagesDir // pkg // "src" ++ r')%list)).
  - apply stable_lookup. intros q r [[pkg ->]|(pkg & r' & ->)]; auto.
  - intros pkg. left. now exists pkg.
  - intros pkg r. right. now exists pkg, r.
Qed.

Lemma updateExtraFiles_frame (p : path) (v : option node) :
  (forall r, rootDir // "README.md" <> (p ++ r)%list) ->
  (forall r, rootDir // "packages" // "frontend" // "index.html" <> (p ++ r)%list) ->
  preserves (fun w => Fs.lookup p (tree w) = v) (updateExtraFiles rootDir newName).
Proof.
  intros H1 H2.
  apply (updateExtraFiles_preserves rootDir
           (fun q => q = rootDir // "README.md"
                     \/ q = rootDir // "packages" // "frontend" // "index.html")).
  - apply stable_lookup. intros q r [->| ->]; auto.
  - now left.
  - now right.
Qed.

(** No phase but the update of the packages touches a package manifest. *)
Lemma manifest_after_root (pkg : string) (w w0 : world) r :
  updateRootManifest rootDir newName w = (r, w0) ->
  Fs.lookup (manifestPath packagesDir pkg) (tree w0)
  = Fs.lookup (manifestPath packagesDir pkg) (tree w).
Proof.
  intros E.
  refine (updateRootManifest_frame rootDir newName _ _ _ w r w0 eq_refl E).
  intros r0. unfold packagesDir. path_neq.
Qed.

Lemma manifest_after_extras (pkg : string) (w w' : world) r :
  updateExtraFiles rootDir newName w = (r, w') ->
  Fs.lookup (manifestPath packagesDir pkg) (tree w')
  = Fs.lookup (manifestPath packagesDir pkg) (tree w).
Proof.
  intros E.
  refine (updateExtraFiles_frame _ _ _ _ w r w' eq_refl E);
    intros r0; unfold packagesDir; path_neq.
Qed.

(** The root manifest, when it is an object, gets the new name, and no later
    phase touches it. *)
Lemma updateRootManifest_object (w w0 : world) (kvs : list (string * json)) :
  Fs.lookup (rootDir // "package.json") (tree w)
  = Some (File (Json (JObject kvs))) ->
  updateRootManifest rootDir newName w = (Ok tt, w0) ->
  Fs.lookup (rootDir // "package.json") (tree w0)
  = Some (File (Json (JObject (Obj.set "name" (JString newName) kvs)))).
Proof.
  intros L E. unfold updateRootManifest in E.
  rewrite bind_eq, existsSync_run, L in E.
  rewrite bind_eq, (readJson_run _ _ _ L) in E.
  rewrite bind_eq in E. cbn [assign ret] in E.
  apply write_inv in E as [(t' & P & _ & ->)|(_ & _ & e & Q)]; [|discriminate].
  now apply put_lookup_same in P.
Qed.

Lemma root_after_packages (old new : string) (w w' : world) r :
  updatePackages packagesDir old new newName w = (r, w') ->
  Fs.lookup (rootDir // "package.json") (tree w')
  = Fs.lookup (rootDir // "package.json") (tree w).
Proof.
  intros E.
  refine (updatePackages_frame old new _ _ _ _ w r w' eq_refl E).
  - intros pkg r0. unfold packagesDir. path_neq.
  - intros pkg r0 r1. unfold packagesDir. path_neq.
Qed.

Lemma root_after_extras (w w' : world) r :
  updateExtraFiles rootDir newName w = (r, w') ->
  Fs.lookup (rootDir // "package.json") (tree w')
  = Fs.lookup (rootDir // "package.json") (tree w).
Proof.
  intros E.
  refine (updateExtraFiles_frame _ _ _ _ w r w' eq_refl E); intros r0; path_neq.
Qed.

End Phases.

Lemma assoc_in (x : string) (es : list (string * node)) (n : node) :
  Fs.assoc x es = Some n -> In x (map fst es).
Proof.
  induction es as [|[y m] r IH]; simpl; [discriminate|].
  destruct (String.eqb_spec x y) as [->|]; [now left | right; auto].
Qed.

Lemma manifest_listed (packagesDir : path) (pkg : string) (t n : node)
  (es : list (string * node)) :
  Fs.lookup packagesDir t = Some (Dir es) ->
  Fs.lookup (manifestPath packagesDir pkg) t = Some n ->
  In pkg (map fst es).
Proof.
  intros D L. unfold manifestPath in L. rewrite lookup_sub, lookup_sub, D in L.
  destruct (Fs.assoc pkg es) eqn:A; [|discriminate]. now apply assoc_in in A.
Qed.

(** The scope that the scan returns begins with [@] and has no [/]. *)
Lemma detectScope_token (packagesDir : path) (packages : list string)
  (w w' : world) (scope : string) :
  detectScope packagesDir packages w = (Ok scope, w') ->
  startsWith scope "@" = true /\ includes scope "/" = false.
Proof.
  induction packages as [|pkg rest IH]; cbn [detectScope]; intros E.
  - inv_ret E. split; reflexivity.
  - inv_exists E L; [|now apply IH].
    inv_bind E. apply readJson_inv in Ea as [-> _].
    inv_bind Eb. apply name_of_inv in Eba as [-> _].
    destruct (scoped a0) eqn:Hs; [|now apply IH].
    inv_ret Ebb. split; [|apply split_slash_head_clean].
    apply andb_true_iff in Hs as [H1 H2].
    destruct (includes_slash_split _ H2) as (a1 & r & -> & Ha).
    pose proof (split_slash_head a1 r Ha) as Q. unfold split in Q. rewrite Q.
    destruct a1 as [|c a1]; [discriminate H1|].
    cbn [append startsWith] in H1 |- *.
    apply andb_true_iff in H1 as [-> _]. reflexivity.
Qed.

Lemma detectCurrentScope_token (packagesDir : path) (w w' : world)
  (scope : string) :
  detectCurrentScope packagesDir w = (Ok scope, w') ->
  startsWith scope "@" = true /\ includes scope "/" = false.
Proof.
  unfold detectCurrentScope. intros E.
  inv_exists E L; [|inv_ret E; split; reflexivity].
  inv_bind E. now apply detectScope_token in Eb.
Qed.

(** ** C1 *)

Section Renaming.

Variables scope newName : string.
Hypothesis scope_clean : includes scope "/" = false.
Hypothesis name_valid : validName newName = true.

Let old : string := scope ++ "/".
Let new : string := "@" ++ newName ++ "/".

Lemma renamed_old (rest : string) : renamed old new (old ++ rest) = new ++ rest.
Proof.
  unfold renamed. rewrite startsWith_app.
  rewrite replace_prefix by apply startsWith_app. now rewrite drop_app.
Qed.

Lemma renamed_new (rest : string) : renamed old new (new ++ rest) = new ++ rest.
Proof.
  unfold renamed. destruct (startsWith (new ++ rest) old) eqn:E; [|reflexivity].
  destruct (string_dec scope ("@" ++ newName)) as [Hs|Hs].
  - assert (old = new) as -> by (unfold old, new; rewrite Hs; reflexivity).
    now apply replace_same.
  - unfold old, new in E.
    rewrite token_fresh in E; auto using validName_no_slash. discriminate.
Qed.

Lemma renamed_unscoped (name : string) :
  startsWith scope "@" = true -> scoped name = false ->
  renamed old new name = name.
Proof.
  intros Hat Hn. unfold renamed.
  destruct (startsWith name old) eqn:E; [|reflexivity].
  apply (startsWith_token_scoped _ _ Hat) in E. congruence.
Qed.

End Renaming.

(** After a run that succeeds, a package that was named [scope/rest], with
    [scope] the detected scope, is named [@newName/rest]. *)
Lemma renamed_after_run (rootDir : path) (newName scope : string)
  (w w' : world) (pkg : string) (kvs : list (string * json)) (rest : string) :
  validName newName = true ->
  detectCurrentScope (rootDir // "packages") w = (Ok scope, w) ->
  renameProject rootDir newName w = (Ok tt, w') ->
  manifest_at (rootDir // "packages") pkg (tree w) kvs (scope ++ "/" ++ rest) ->
  exists kvs',
    manifest_at (rootDir // "packages") pkg (tree w') kvs'
      ("@" ++ newName ++ "/" ++ rest).
Proof.
  intros Hv Hd Hrun [L G].
  destruct (renameProject_ok _ _ _ _ Hrun) as (scope' & w0 & w2 & D & R0 & P & X).
  rewrite Hd in D. injection D as <-.
  destruct (detectCurrentScope_token _ _ _ _ Hd) as [Hat Hclean].
  rewrite <- (manifest_after_root rootDir newName pkg w w0 _ R0) in L.
  apply updatePackages_ok in P as [[N _]|(es0 & D0 & F)].
  { destruct (parent_is_dir _ _ _ _ L) as [es1 L1].
    destruct (parent_is_dir _ _ _ _ L1) as [es2 L2]. congruence. }
  set (old := scope ++ "/") in *. set (new := "@" ++ newName ++ "/") in *.
  assert (Hin : In pkg (map fst es0)) by now apply (manifest_listed _ _ _ _ _ D0 L).
  destruct (updatePackages_named (rootDir // "packages") old new newName pkg
              (map fst es0)
              (fun n => n = old ++ rest \/ n = new ++ rest)
              (fun n => n = new ++ rest) w0 w2 Hin)
    as (kvs' & name' & [L2 G2] & ->); try assumption.
  - intros n [->| ->]; right; [apply renamed_old | now apply renamed_new].
  - intros n [->| ->]; [apply renamed_old | now apply renamed_new].
  - intros n ->. now apply renamed_new.
  - exists kvs, (scope ++ "/" ++ rest). split; [now split|].
    left. unfold old. now rewrite append_assoc.
  - exists kvs'. split.
    + now rewrite (manifest_after_extras rootDir newName pkg w2 w' _ X).
    + rewrite G2. unfold new. cbn [append]. now rewrite append_assoc.
Qed.

(** After a run that succeeds, a root manifest that was an object has the
    new name. *)
Lemma root_after_run (rootDir : path) (newName : string) (w w' : world)
  (kvs : list (string * json)) :
  renameProject rootDir newName w = (Ok tt, w') ->
  Fs.lookup (rootDir // "package.json") (tree w)
  = Some (File (Json (JObject kvs))) ->
  Fs.lookup (rootDir // "package.json") (tree w')
  = Some (File (Json (JObject (Obj.set "name" (JString newName) kvs)))).
Proof.
  intros Hrun L.
  destruct (renameProject_ok _ _ _ _ Hrun) as (scope' & w0 & w2 & D & R0 & P & X).
  rewrite (root_after_extras rootDir newName w2 w' _ X).
  rewrite (root_after_packages rootDir newName _ _ w0 w2 _ P).
  now apply updateRootManifest_object with (w := w).
Qed.

(** C1: after a run of [renameProject rootDir newName] that succeeds, every
    package under [packages/] whose manifest was named [scope/rest], [scope]
    being the detected scope, has a manifest named [@newName/rest], and a
    root manifest that is an object has the name [newName], whatever it had
    before. *)
Theorem C1_names_after_rename (rootDir : path) (newName scope : string)
  (w w' : world) :
  validName newName = true ->
  detectCurrentScope (rootDir // "packages") w = (Ok scope, w) ->
  renameProject rootDir newName w = (Ok tt, w') ->
  (forall pkg kvs rest,
      manifest_at (rootDir // "packages") pkg (tree w) kvs (scope ++ "/" ++ rest) ->
      exists kvs',
        manifest_at (rootDir // "packages") pkg (tree w') kvs'
          ("@" ++ newName ++ "/" ++ rest))
  /\ (forall kvs,
        Fs.lookup (rootDir // "package.json") (tree w)
        = Some (File (Json (JObject kvs))) ->
        exists kvs',
          Fs.lookup (rootDir // "package.json") (tree w')
          = Some (File (Json (JObject kvs')))
          /\ Obj.get "name" kvs' = Some (JString newName)).
Proof.
  intros Hv Hd Hrun. split.
  - intros pkg kvs rest M. now apply (renamed_after_run rootDir newName scope w w' pkg kvs).
  - intros kvs L.
    exists (Obj.set "name" (JString newName) kvs). split.
    + now apply root_after_run with (w := w).
    + rewrite get_set. now rewrite String.eqb_refl.
Qed.

Lemma C1_names_after_rename_witness :
  exists w',
    renameProject ["app"] "shop" (World Sample.workspace []) = (Ok tt, w')
    /\ (exists kvs, manifest_at ["app"; "packages"] "ui" (tree w') kvs "@shop/ui")
    /\ (exists kvs, manifest_at ["app"; "packages"] "api" (tree w') kvs "@shop/api")
    /\ (exists kvs,
          Fs.lookup ["app"; "package.json"] (tree w')
          = Some (File (Json (JObject kvs)))
          /\ Obj.get "name" kvs = Some (JString "shop")).
Proof.
  pose (w := World Sample.workspace []).
  pose (w' := snd (renameProject ["app"] "shop" w)).
  exists w'.
  destruct (C1_names_after_rename ["app"] "shop" "@old" w w'
              eq_refl eq_refl eq_refl) as [H1 H2].
  split; [reflexivity|]. split; [|split].
  - refine (H1 "ui" _ "ui" _). split; reflexivity.
  - refine (H1 "api" _ "api" _). split; reflexivity.
  - refine (H2 _ _). reflexivity.
Defined.

(** ** C7 *)

(** C7, as stated, fails: no package of this workspace has a scoped name,
    and the run rekeys the dependency [@repo/ui] of [api]. *)
Lemma C7_counterexample :
  let out := run (renameProject ["app"] "shop") Sample.unscoped_workspace in
  Forall (yields_no_scope ["app"; "packages"] Sample.unscoped_workspace)
    ["ui"; "api"]
  /\ fst out = Ok tt
  /\ Fs.lookup ["app"; "packages"; "api"; "package.json"] Sample.unscoped_workspace
     = Some (Sample.manifest "api" [("@repo/ui", "workspace:*")])
  /\ Fs.lookup ["app"; "packages"; "api"; "package.json"] (tree (snd out))
     = Some (Sample.manifest "api" [("@shop/ui", "workspace:*")]).
Proof.
  split; [|vm_compute; repeat split].
  repeat (apply Forall_cons; [right; do 2 eexists; repeat split; reflexivity|]).
  apply Forall_nil.
Qed.

(** C7, amended: when no package manifest has a name of the form [@x/y], the
    scope in use is the fallback [@repo]; a run that succeeds leaves the name
    of every package manifest as it was; and the update of a package writes its
    [dependencies] and [devDependencies] rekeyed from the token [@repo/], so
    that a key that begins with [@repo/] does change. *)
Theorem C7_fallback_scope (rootDir : path) (newName : string) (w : world)
  (es : list (string * node)) :
  Fs.lookup (rootDir // "packages") (tree w) = Some (Dir es) ->
  Forall (yields_no_scope (rootDir // "packages") (tree w)) (map fst es) ->
  validName newName = true ->
  detectCurrentScope (rootDir // "packages") w = (Ok "@repo", w)
  /\ (forall w' pkg kvs name,
        renameProject rootDir newName w = (Ok tt, w') ->
        manifest_at (rootDir // "packages") pkg (tree w) kvs name ->
        exists kvs', manifest_at (rootDir // "packages") pkg (tree w') kvs' name)
  /\ (forall pkg w1 w2 kvs name,
        manifest_at (rootDir // "packages") pkg (tree w1) kvs name ->
        scoped name = false ->
        updatePackage (rootDir // "packages") "@repo/" ("@" ++ newName ++ "/")
          newName pkg w1 = (Ok tt, w2) ->
        exists kvs',
          manifest_at (rootDir // "packages") pkg (tree w2) kvs' name
          /\ forall field deps,
               field = "dependencies" \/ field = "devDependencies" ->
               Obj.get field kvs = Some (JObject deps) ->
               Obj.get field kvs'
               = Some (JObject (rekeyDeps "@repo/" ("@" ++ newName ++ "/") deps))).
Proof.
  intros D Hall Hv.
  assert (Hd : detectCurrentScope (rootDir // "packages") w = (Ok "@repo", w)).
  { rewrite (detectCurrentScope_run _ _ _ D). now apply detectScope_fallback. }
  split; [exact Hd|]. split.
  - intros w' pkg kvs name Hrun [L G].
    destruct (renameProject_ok _ _ _ _ Hrun) as (scope' & w0 & w2 & D' & R0 & P & X).
    rewrite Hd in D'. injection D' as <-.
    assert (Hu : scoped name = false).
    { pose proof (manifest_listed _ _ _ _ _ D L) as Hin.
      rewrite Forall_forall in Hall. destruct (Hall _ Hin) as [N|(k & n & N & Gn & Hs)];
        rewrite N in L; [discriminate|]. injection L as <-. congruence. }
    rewrite <- (manifest_after_root rootDir newName pkg w w0 _ R0) in L.
    apply updatePackages_ok in P as [[N _]|(es0 & D0 & F)].
    { destruct (parent_is_dir _ _ _ _ L) as [es1 L1].
      destruct (parent_is_dir _ _ _ _ L1) as [es2 L2]. congruence. }
    assert (Hin : In pkg (map fst es0)) by now apply (manifest_listed _ _ _ _ _ D0 L).
    assert (K : forall n, n = name -> renamed ("@repo" ++ "/") ("@" ++ newName ++ "/") n = name).
    { intros n ->. now apply (renamed_unscoped "@repo" newName). }
    destruct (updatePackages_named (rootDir // "packages") ("@repo" ++ "/")
                ("@" ++ newName ++ "/") newName pkg (map fst es0)
                (fun n => n = name) (fun n => n = name) w0 w2 Hin)
      as (kvs' & name' & [L2 G2] & ->); try assumption.
    + exists kvs, name. split; [now split | reflexivity].
    + exists kvs'. split; [|assumption].
      now rewrite (manifest_after_extras rootDir newName pkg w2 w' _ X).
  - intros pkg w1 w2 kvs name M Hs E.
    exists (updateManifest "@repo/" ("@" ++ newName ++ "/") name kvs). split; [split|].
    + now apply (updatePackage_self _ _ _ newName pkg w1 w2).
    + rewrite get_updateManifest_name by apply M.
      pose proof (renamed_unscoped "@repo" newName name eq_refl Hs) as Q.
      unfold renamed in Q. cbn [append] in Q |- *. now rewrite Q.
    + intros field deps Hf Gd. now apply get_updateManifest_deps.
Qed.

Lemma C7_fallback_scope_witness :
  exists w',
    renameProject ["app"] "shop" (World Sample.unscoped_workspace []) = (Ok tt, w')
    /\ detectCurrentScope ["app"; "packages"] (World Sample.unscoped_workspace [])
       = (Ok "@repo", World Sample.unscoped_workspace [])
    /\ exists kvs, manifest_at ["app"; "packages"] "api" (tree w') kvs "api".
Proof.
  pose (w := World Sample.unscoped_workspace []).
  pose (w' := snd (renameProject ["app"] "shop" w)).
  assert (F : Forall (yields_no_scope ["app"; "packages"] (tree w)) ["ui"; "api"]).
  { repeat (apply Forall_cons; [right; do 2 eexists; repeat split; reflexivity|]).
    apply Forall_nil. }
  destruct (C7_fallback_scope ["app"] "shop" w _ eq_refl F eq_refl) as (H1 & H2 & _).
  exists w'. split; [reflexivity|]. split; [exact H1|].
  refine (H2 w' "api" _ "api" eq_refl _). split; reflexivity.
Defined.

(** ** The rewriting of a source file *)

(** [getFiles] misses no regular file below the directory, at any depth. *)
Lemma assoc_entry (x : string) (es : list (string * node)) (n : node) :
  Fs.assoc x es = Some n -> In (x, n) es.
Proof.
  induction es as [|[y m] r IH]; simpl; [discriminate|].
  destruct (String.eqb_spec x y) as [->|]; [intros [= ->]; now left | right; auto].
Qed.

Lemma files_below_complete (r : path) (dir : path) (n : node) (c : content) :
  r <> [] -> Fs.lookup r n = Some (File c) ->
  In (dir ++ r)%list (Fs.files_below dir n).
Proof.
  revert dir n; induction r as [|x r IH]; intros dir n Hr L; [congruence|].
  simpl in L. destruct n as [c0|es]; [discriminate|].
  destruct (Fs.assoc x es) as [m|] eqn:A; [|discriminate].
  apply assoc_entry in A. simpl. apply in_flat_map. exists (x, m). split; [assumption|].
  simpl. destruct r as [|y r].
  - simpl in L. injection L as ->. now left.
  - destruct m as [c1|es1]; [discriminate|].
    replace (dir ++ x :: y :: r)%list with ((dir // x) ++ y :: r)%list
      by (unfold sub; now rewrite <- app_assoc).
    apply IH; [discriminate | assumption].
Qed.

Section SourceFile.

Variables old new newName : string.
Variable file : path.

Lemma writeFile_run (w : world) (s : string) :
  is_file file (tree w) ->
  exists w',
    writeFile file s w = (Ok tt, w')
    /\ Fs.lookup file (tree w') = Some (File (Text s))
    /\ (forall p, (forall r, file <> (p ++ r)%list) ->
                  Fs.lookup p (tree w') = Fs.lookup p (tree w)).
Proof.
  intros Hf. destruct (write_file_run file (Text s) w Hf) as (t' & P & E).
  eexists. split; [exact E|]. split.
  - now apply put_lookup_same in P.
  - intros p Hp. simpl. now apply (put_lookup_frame _ _ _ _ p P).
Qed.

Lemma updateSourceFile_run (w : world) (c : content) :
  hasSourceExtension file = true ->
  Fs.lookup file (tree w) = Some (File c) ->
  let text2 :=
    replaceAll (join (split (text_of c) old) new) boilerplate newName in
  exists w',
    updateSourceFile old new newName file w = (Ok tt, w')
    /\ (exists c', Fs.lookup file (tree w') = Some (File c') /\ text_of c' = text2)
    /\ (includes (text_of c) old = false ->
        includes (text_of c) boilerplate = false -> w' = w)
    /\ (forall p, (forall r, file <> (p ++ r)%list) ->
                  Fs.lookup p (tree w') = Fs.lookup p (tree w)).
Proof.
  intros Hx L text2. unfold updateSourceFile. rewrite Hx.
  rewrite bind_eq. unfold readFile. rewrite L.
  set (text := text_of c) in *.
  assert (Hf : is_file file (tree w)) by now exists c.
  rewrite bind_eq.
  destruct (includes text old) eqn:H1.
  - destruct (writeFile_run w (join (split text old) new) Hf) as (w1 & E1 & L1 & F1).
    rewrite bind_eq, E1. cbn [ret].
    assert (Hf1 : is_file file (tree w1)) by (eexists; exact L1).
    destruct (includes (join (split text old) new) boilerplate) eqn:H2.
    + destruct (writeFile_run w1 text2 Hf1) as (w2 & E2 & L2 & F2).
      exists w2. split; [exact E2|]. split; [eauto|]. split; [discriminate|].
      intros p Hp. now rewrite F2, F1.
    + exists w1. split; [reflexivity|]. split; [|split; [discriminate|exact F1]].
      eexists. split; [exact L1|]. unfold text2. simpl.
      now rewrite replaceAll_absent.
  - cbn [ret]. assert (T1 : join (split text old) new = text)
      by now apply join_split_absent.
    destruct (includes text boilerplate) eqn:H2.
    + destruct (writeFile_run w (replaceAll text boilerplate newName) Hf)
        as (w2 & E2 & L2 & F2).
      exists w2. split; [exact E2|]. split; [|split; [discriminate|exact F2]].
      eexists. split; [exact L2|]. unfold text2. now rewrite T1.
    + exists w. split; [reflexivity|]. split; [|split; [reflexivity|reflexivity]].
      exists c. split; [exact L|]. unfold text2. rewrite T1.
      now rewrite replaceAll_absent.
Qed.

End SourceFile.

(** ** C8 *)

(** A run of [renameProject] adds nothing to the record but its writes. *)
Lemma renameProject_trace (rootDir : path) (newName : string) (w w' : world) r :
  renameProject rootDir newName w = (r, w') ->
  exists writes, trace w' = (trace w ++ map Wrote writes)%list.
Proof.
  intros E.
  destruct (renameProject_preserves rootDir
              (fun w' => exists ps, trace w' = (trace w ++ map Wrote ps)%list
                                    /\ Forall (footprint rootDir) ps)
              newName (stable_trace _ _) w r w') as (ps & H & _); eauto.
  exists []. split; [now rewrite app_nil_r | constructor].
Qed.

(** C8: the [rename] command, once the target exists and the name is valid,
    runs [renameProject] on [(targetDir, newName)], reports its success,
    runs it a second time on the same arguments in the world the first run
    left, reports success again, and only then turns to the folder.  Between
    the start of the spinner and the attempt to move the folder the record
    holds the writes of the first run, one report of success, the writes of
    the second run, and a second report. *)
Theorem C8_rename_twice (cwd : path) (projectPath : pathArg) (newName : string)
  (w w1 w2 : world) (n : node) :
  let targetDir := resolve cwd projectPath in
  let started :=
    reported w (SpinnerStart ("Renaming project at " ++ show targetDir ++ " to "
                              ++ newName ++ "...")) in
  Fs.lookup targetDir (tree w) = Some n ->
  validName newName = true ->
  renameProject targetDir newName started = (Ok tt, w1) ->
  renameProject targetDir newName (reported w1 (SpinnerSucceed renamedMsg))
  = (Ok tt, w2) ->
  let before_move := reported w2 (SpinnerSucceed renamedMsg) in
  (exists writes1 writes2,
      trace before_move
      = (trace started ++ map Wrote writes1 ++ [SpinnerSucceed renamedMsg]
           ++ map Wrote writes2 ++ [SpinnerSucceed renamedMsg])%list)
  /\ renameAndMove cwd targetDir newName started
     = moveFolder cwd targetDir newName before_move
  /\ renameCommand cwd projectPath newName w
     = match moveFolder cwd targetDir newName before_move with
       | (Ok _, w3) => (Ok Returned, w3)
       | (Throw e, w3) =>
           (Ok Returned,
            reported (reported w3 (SpinnerFail failedMsg)) (ConsoleError e))
       end.
Proof.
  intros targetDir started L Hv E1 E2 before_move.
  assert (B : renameAndMove cwd targetDir newName started
              = moveFolder cwd targetDir newName before_move).
  { unfold renameAndMove. rewrite bind_eq, E1. rewrite bind_eq. unfold emit at 1.
    rewrite bind_eq. fold (reported w1 (SpinnerSucceed renamedMsg)). rewrite E2.
    rewrite bind_eq. reflexivity. }
  split; [|split; [exact B|]].
  - destruct (renameProject_trace _ _ _ _ _ E1) as [ps1 T1].
    destruct (renameProject_trace _ _ _ _ _ E2) as [ps2 T2].
    exists ps1, ps2. unfold before_move. unfold reported at 1.
    unfold reported in T2. cbn [trace] in T2 |- *.
    rewrite T2, T1. now rewrite <- !app_assoc.
  - unfold renameCommand. fold targetDir.
    rewrite bind_eq, existsSync_run, L. cbn [negb]. rewrite Hv. cbn [negb].
    rewrite bind_eq. unfold emit at 1.
    rewrite bind_eq. unfold try_catch.
    unfold started at 1, reported at 1 in B. rewrite B.
    destruct (moveFolder cwd targetDir newName before_move) as [[[]|e] w3];
      reflexivity.
Qed.

Lemma C8_rename_twice_witness :
  exists w3,
    renameCommand ["home"] (PathArg true ["app"]) "shop" (World Sample.workspace [])
    = (Ok Returned, w3)
    /\ trace w3
       = [SpinnerStart "Renaming project at /app to shop...";
          Wrote ["app"; "package.json"];
          Wrote ["app"; "packages"; "ui"; "package.json"];
          Wrote ["app"; "packages"; "ui"; "src"; "index.ts"];
          Wrote ["app"; "packages"; "api"; "package.json"];
          Wrote ["app"; "README.md"];
          SpinnerSucceed "Project renamed successfully.";
          Wrote ["app"; "package.json"];
          Wrote ["app"; "packages"; "ui"; "package.json"];
          Wrote ["app"; "packages"; "ui"; "src"; "index.ts"];
          Wrote ["app"; "packages"; "api"; "package.json"];
          Wrote ["app"; "README.md"];
          SpinnerSucceed "Project renamed successfully.";
          Moved ["app"] ["shop"];
          ConsoleLog "Folder renamed to: shop"].
Proof.
  pose (w := World Sample.workspace []).
  pose (started := reported w (SpinnerStart "Renaming project at /app to shop...")).
  pose (w1 := snd (renameProject ["app"] "shop" started)).
  pose (w2 := snd (renameProject ["app"] "shop"
                     (reported w1 (SpinnerSucceed renamedMsg)))).
  destruct (C8_rename_twice ["home"] (PathArg true ["app"]) "shop" w w1 w2 _
              eq_refl eq_refl eq_refl eq_refl) as (_ & _ & H).
  eexists. split; [unfold w in H; rewrite H; vm_compute; reflexivity | reflexivity].
Defined.

(** ** A second run *)

Section SecondRunBasics.

Variable t1 : node.

Let related (w : world) : Prop := same_but_deps_tree (tree w) t1.

Lemma same_but_deps_content_refl (c : content) : same_but_deps_content c c.
Proof. destruct c as [s|[]]; simpl; try reflexivity. intros k _ _. reflexivity. Qed.

Lemma related_file (w : world) (p : path) (c1 : content) :
  related w -> Fs.lookup p t1 = Some (File c1) ->
  exists c, Fs.lookup p (tree w) = Some (File c) /\ same_but_deps_content c c1.
Proof.
  intros H L. pose proof (sim_lookup _ _ _ p H) as Q. rewrite L in Q.
  destruct (Fs.lookup p (tree w)) as [[c|es]|]; simpl in Q; try contradiction.
  eauto.
Qed.

Lemma related_text (w : world) (p : path) (s : string) :
  related w -> Fs.lookup p t1 = Some (File (Text s)) ->
  Fs.lookup p (tree w) = Some (File (Text s)).
Proof.
  intros H L. destruct (related_file w p _ H L) as (c & Lc & Hc).
  destruct c as [s'|[]]; simpl in Hc; try contradiction. now subst.
Qed.

Lemma related_none (w : world) (p : path) :
  related w -> Fs.lookup p t1 = None -> Fs.lookup p (tree w) = None.
Proof.
  intros H L. pose proof (sim_lookup _ _ _ p H) as Q. rewrite L in Q.
  destruct (Fs.lookup p (tree w)); simpl in Q; [contradiction|reflexivity].
Qed.

Lemma related_dir (w : world) (p : path) (es1 : list (string * node)) :
  related w -> Fs.lookup p t1 = Some (Dir es1) ->
  exists es, Fs.lookup p (tree w) = Some (Dir es)
             /\ map fst es = map fst es1
             /\ forall d, Fs.files_below d (Dir es) = Fs.files_below d (Dir es1).
Proof.
  intros H L. pose proof (sim_lookup _ _ _ p H) as Q. rewrite L in Q.
  destruct (Fs.lookup p (tree w)) as [[c|es]|]; simpl in Q; try contradiction.
  exists es. split; [reflexivity|]. split.
  - now apply entries_rel_names in Q.
  - intros d. now apply (sim_files_below same_but_deps_content (Dir es) (Dir es1)).
Qed.

Lemma related_exists (w : world) (p : path) :
  related w ->
  match Fs.lookup p (tree w) with Some _ => true | None => false end
  = match Fs.lookup p t1 with Some _ => true | None => false end.
Proof.
  intros H. pose proof (sim_lookup _ _ _ p H) as Q.
  destruct (Fs.lookup p (tree w)), (Fs.lookup p t1); simpl in Q;
    try contradiction; reflexivity.
Qed.

(** Writing over a file what the reference tree has there, up to the
    dependency mappings, keeps the world related to it. *)
Lemma related_write (w : world) (p : path) (c c1 : content) :
  related w -> Fs.lookup p t1 = Some (File c1) -> same_but_deps_content c c1 ->
  exists w', write p c w = (Ok tt, w') /\ related w'.
Proof.
  intros H L Hc.
  destruct (sim_put _ p c c1 _ _ H L Hc) as (a' & P & Ha).
  eexists. split; [unfold write; rewrite P; reflexivity | exact Ha].
Qed.

Lemma forM_total {A} (l : list A) (body : A -> M unit) (I : world -> Prop) :
  (forall x w, In x l -> I w -> exists w', body x w = (Ok tt, w') /\ I w') ->
  forall w, I w -> exists w', forM_ l body w = (Ok tt, w') /\ I w'.
Proof.
  induction l as [|x l IH]; intros Hb w HI.
  - exists w. now split.
  - destruct (Hb x w (or_introl eq_refl) HI) as (w1 & E1 & H1).
    destruct (IH (fun y v Hy => Hb y v (or_intror Hy)) w1 H1) as (w2 & E2 & H2).
    exists w2. split; [|assumption]. cbn [forM_]. now rewrite bind_eq, E1.
Qed.

End SecondRunBasics.

(** *** What a second run needs of the tree it starts from *)

Section SecondRun.

Variable rootDir : path.
Variable newName : string.
Variable scope : string.
Variable t1 : node.

Let packagesDir : path := rootDir // "packages".
Let old : string := scope ++ "/".
Let new : string := "@" ++ newName ++ "/".
Let related (w : world) : Prop := same_but_deps_tree (tree w) t1.

Lemma old_nonempty : old <> "".
Proof. unfold old. destruct scope; discriminate. Qed.

Lemma second_updateSourceFile (w : world) (f : path) :
  related w -> clean_source old new t1 f ->
  exists w', updateSourceFile old new newName f w = (Ok tt, w') /\ related w'.
Proof.
  intros H (s & L1 & Hold & Hbp).
  pose proof (related_text t1 w f s H L1) as L.
  unfold updateSourceFile. destruct (hasSourceExtension f); [|exists w; split; [reflexivity | exact H]].
  rewrite bind_eq. unfold readFile. rewrite L. cbn [text_of].
  rewrite bind_eq.
  destruct (includes s old) eqn:Ho.
  - destruct (string_dec old new) as [E|E]; [|specialize (Hold E); congruence].
    rewrite <- E. rewrite (join_split_same s old old_nonempty).
    destruct (related_write t1 w f (Text s) (Text s) H L1 eq_refl) as (w' & Ew & Hw).
    rewrite bind_eq. unfold writeFile. rewrite Ew. cbn [ret]. rewrite Hbp.
    exists w'. split; [reflexivity | exact Hw].
  - cbn [ret]. rewrite Hbp. exists w. split; [reflexivity | exact H].
Qed.

Lemma second_updateSources (w : world) (pkg : string) :
  related w ->
  Fs.lookup (manifestPath packagesDir pkg) t1 <> None ->
  clean_sources packagesDir old new t1 ->
  (Fs.lookup (packagesDir // pkg // "src") t1 = None
   \/ exists es, Fs.lookup (packagesDir // pkg // "src") t1 = Some (Dir es)) ->
  exists w',
    updateSources (packagesDir // pkg) old new newName w = (Ok tt, w')
    /\ related w'.
Proof.
  intros H Hm Hclean [N|[es1 D1]]; unfold updateSources;
    rewrite bind_eq, existsSync_run.
  - rewrite (related_none t1 w _ H N). exists w. split; [reflexivity | exact H].
  - destruct (related_dir t1 w _ _ H D1) as (es & D & _ & Fb).
    rewrite D. rewrite bind_eq. unfold getFiles. rewrite D, Fb.
    apply forM_total; [|assumption].
    intros f v Hf Hv.
    destruct (hasSourceExtension f) eqn:Hx.
    + apply second_updateSourceFile; [assumption|]. now apply (Hclean pkg es1).
    + exists v. split; [|assumption]. unfold updateSourceFile. now rewrite Hx.
Qed.

Lemma same_but_deps_update (kvs kvs1 : list (string * json)) (name : string) :
  same_but_deps kvs kvs1 ->
  Obj.get "name" kvs1 = Some (JString name) ->
  renamed old new name = name ->
  same_but_deps (updateManifest old new name kvs) kvs1.
Proof.
  intros Hk G Hr k H1 H2.
  destruct (string_dec k "name") as [->|Hn].
  - rewrite get_updateManifest_name by (rewrite Hk; [assumption | discriminate..]).
    fold (renamed old new name). now rewrite Hr, G.
  - rewrite get_updateManifest_other by assumption. now apply Hk.
Qed.

Lemma second_updatePackage (w : world) (pkg : string) (n : node) :
  related w ->
  Fs.lookup (packagesDir // pkg) t1 = Some n ->
  settled_package packagesDir old new t1 pkg ->
  clean_sources packagesDir old new t1 ->
  exists w',
    updatePackage packagesDir old new newName pkg w = (Ok tt, w') /\ related w'.
Proof.
  intros H Ln [N|(kvs1 & name & [L1 G1] & Hr & Hsrc)] Hclean; unfold updatePackage.
  - pose proof (related_exists t1 w (packagesDir // pkg) H) as Ex.
    rewrite Ln in Ex. rewrite bind_eq. unfold isDirectory.
    destruct (Fs.lookup (packagesDir // pkg) (tree w)) as [[c|es]|];
      try discriminate;
      rewrite bind_eq, existsSync_run;
      unfold manifestPath in N; rewrite (related_none t1 w _ H N);
      rewrite ?andb_false_r; exists w; (split; [reflexivity | exact H]).
  - destruct (parent_is_dir _ _ _ _ L1) as [es1 D1].
    destruct (related_dir t1 w _ _ H D1) as (es & D & _).
    rewrite bind_eq, (isDirectory_run _ _ _ D).
    destruct (related_file t1 w _ _ H L1) as (c & Lc & Hc).
    rewrite bind_eq, existsSync_run. unfold manifestPath in Lc. rewrite Lc.
    cbn [andb].
    destruct c as [s|[| | | | |kvs]]; simpl in Hc; try contradiction; try discriminate.
    rewrite bind_eq, (readJson_run _ _ _ Lc).
    assert (G : Obj.get "name" kvs = Some (JString name))
      by (rewrite Hc; [assumption | discriminate..]).
    rewrite bind_eq, (name_of_run _ _ _ G).
    destruct (related_write t1 w _
                (Json (JObject (updateManifest old new name kvs))) _ H L1)
      as (w1 & Ew & Hw1).
    { simpl. now apply same_but_deps_update. }
    rewrite bind_eq. unfold writeJson. unfold manifestPath in Ew. rewrite Ew.
    apply second_updateSources; try assumption.
    unfold manifestPath in L1 |- *. congruence.
Qed.

Lemma in_assoc (x : string) (es : list (string * node)) :
  In x (map fst es) -> exists n, Fs.assoc x es = Some n.
Proof.
  induction es as [|[y m] r IH]; simpl; [contradiction|].
  destruct (String.eqb_spec x y) as [->|Hne]; [eauto|].
  intros [E|Hin]; [congruence | auto].
Qed.

Lemma second_updatePackages (w : world) :
  related w ->
  (forall es pkg, Fs.lookup packagesDir t1 = Some (Dir es) -> In pkg (map fst es) ->
                  settled_package packagesDir old new t1 pkg) ->
  (forall c, Fs.lookup packagesDir t1 <> Some (File c)) ->
  clean_sources packagesDir old new t1 ->
  exists w',
    updatePackages packagesDir old new newName w = (Ok tt, w') /\ related w'.
Proof.
  intros H Hset Hdir Hclean. unfold updatePackages.
  rewrite bind_eq, existsSync_run.
  destruct (Fs.lookup packagesDir t1) as [[c|es1]|] eqn:D1.
  - now specialize (Hdir c).
  - destruct (related_dir t1 w _ _ H D1) as (es & D & Hn & _).
    rewrite D. rewrite bind_eq. unfold readdir. rewrite D, Hn.
    apply forM_total; [|assumption].
    intros pkg v Hin Hv.
    destruct (in_assoc _ _ Hin) as [n A].
    apply (second_updatePackage v pkg n); auto.
    + now rewrite lookup_sub, D1.
    + now apply (Hset es1).
  - rewrite (related_none t1 w _ H D1). exists w. split; [reflexivity | exact H].
Qed.

Lemma second_updateRootManifest (w : world) :
  related w -> settled_root rootDir newName t1 ->
  exists w', updateRootManifest rootDir newName w = (Ok tt, w') /\ related w'.
Proof.
  intros H S. unfold settled_root in S. unfold updateRootManifest.
  rewrite bind_eq, existsSync_run.
  destruct (Fs.lookup (rootDir // "package.json") t1) as [[[s|j]|es]|] eqn:L1;
    try contradiction.
  - destruct (related_file t1 w _ _ H L1) as (c & Lc & Hc). rewrite Lc.
    destruct j as [| | | |l|kvs1]; try contradiction.
    + destruct c as [s|[| | | |l'|kvs]]; simpl in Hc; try contradiction;
        try discriminate.
      injection Hc as ->.
      rewrite bind_eq, (readJson_run _ _ _ Lc). rewrite bind_eq. cbn [assign ret].
      apply (related_write t1 w _ _ _ H L1). reflexivity.
    + destruct c as [s|[| | | |l'|kvs]]; simpl in Hc; try contradiction;
        try discriminate.
      rewrite bind_eq, (readJson_run _ _ _ Lc). rewrite bind_eq. cbn [assign ret].
      assert (G : Obj.get "name" kvs = Some (JString newName))
        by (rewrite Hc; [assumption | discriminate..]).
      rewrite (set_same _ _ _ G).
      apply (related_write t1 w _ _ _ H L1). exact Hc.
  - rewrite (related_none t1 w _ H L1). exists w. split; [reflexivity | exact H].
Qed.

Lemma second_updateExtraFile (w : world) (f : path) :
  related w -> clean_doc t1 f ->
  exists w', updateExtraFile newName f w = (Ok tt, w') /\ related w'.
Proof.
  intros H C. unfold clean_doc in C. unfold updateExtraFile.
  rewrite bind_eq, existsSync_run.
  destruct (Fs.lookup f t1) as [[[s|j]|es]|] eqn:L1; try contradiction.
  - destruct C as [C1 C2].
    pose proof (related_text t1 w f s H L1) as L. rewrite L.
    rewrite bind_eq. unfold readFile. rewrite L. cbn [text_of].
    rewrite (replaceAll_absent _ _ _ C1), (replaceAll_absent _ _ _ C2).
    apply (related_write t1 w _ _ _ H L1). reflexivity.
  - rewrite (related_none t1 w _ H L1). exists w. split; [reflexivity | exact H].
Qed.

Lemma second_updateExtraFiles (w : world) :
  related w ->
  clean_doc t1 (rootDir // "README.md") ->
  clean_doc t1 (rootDir // "packages" // "frontend" // "index.html") ->
  exists w', updateExtraFiles rootDir newName w = (Ok tt, w') /\ related w'.
Proof.
  intros H C1 C2. unfold updateExtraFiles.
  apply forM_total; [|assumption].
  intros f v [<-|[<-|[]]] Hv; now apply second_updateExtraFile.
Qed.

End SecondRun.

(** A run from a tree where everything is settled and clean succeeds and
    leaves every file as it was, but for dependency mappings. *)
Lemma settled_run (rootDir : path) (newName scope : string) (w1 : world) :
  let packagesDir := rootDir // "packages" in
  let old := scope ++ "/" in
  let new := "@" ++ newName ++ "/" in
  detectCurrentScope packagesDir w1 = (Ok scope, w1) ->
  settled_root rootDir newName (tree w1) ->
  (forall es pkg, Fs.lookup packagesDir (tree w1) = Some (Dir es) ->
                  In pkg (map fst es) ->
                  settled_package packagesDir old new (tree w1) pkg) ->
  clean_sources packagesDir old new (tree w1) ->
  clean_doc (tree w1) (rootDir // "README.md") ->
  clean_doc (tree w1) (rootDir // "packages" // "frontend" // "index.html") ->
  exists w2,
    renameProject rootDir newName w1 = (Ok tt, w2)
    /\ same_but_deps_tree (tree w2) (tree w1).
Proof.
  intros packagesDir old new Hd Hroot Hpk Hsrc Hd1 Hd2.
  assert (H1 : same_but_deps_tree (tree w1) (tree w1))
    by (apply sim_refl, same_but_deps_content_refl).
  unfold renameProject. fold packagesDir. rewrite bind_eq, Hd.
  destruct (second_updateRootManifest rootDir newName (tree w1) w1 H1 Hroot)
    as (wa & Ea & Ha).
  rewrite bind_eq, Ea.
  assert (Hdir : forall c, Fs.lookup packagesDir (tree w1) <> Some (File c)).
  { intros c Lc. unfold detectCurrentScope in Hd.
    rewrite bind_eq, existsSync_run, Lc in Hd. rewrite bind_eq in Hd.
    unfold readdir in Hd. rewrite Lc in Hd. discriminate. }
  destruct (second_updatePackages rootDir newName scope (tree w1) wa Ha Hpk Hdir Hsrc)
    as (wb & Eb & Hb).
  rewrite bind_eq. fold old new. unfold packagesDir, old, new. rewrite Eb.
  now apply second_updateExtraFiles.
Qed.

(** *** What a first run leaves *)

Lemma renamed_same (token name : string) : renamed token token name = name.
Proof.
  unfold renamed. destruct (startsWith name token) eqn:E; [|reflexivity].
  now apply replace_same.
Qed.

(** How the scan for the scope ended. *)
Lemma detectScope_cases (packagesDir : path) (packages : list string)
  (w w' : world) (scope : string) :
  detectScope packagesDir packages w = (Ok scope, w') ->
  (exists pre pkg post kvs name,
      packages = (pre ++ pkg :: post)%list
      /\ Forall (yields_no_scope packagesDir (tree w)) pre
      /\ manifest_at packagesDir pkg (tree w) kvs name
      /\ scoped name = true
      /\ scope = hd "" (split name "/"))
  \/ (Forall (yields_no_scope packagesDir (tree w)) packages
      /\ scope = fallbackScope).
Proof.
  induction packages as [|x rest IH]; cbn [detectScope]; intros E.
  - inv_ret E. right. split; [constructor | reflexivity].
  - inv_exists E L.
    + inv_bind E. apply readJson_inv in Ea as [-> Hj]. specialize (Hj _ eq_refl).
      inv_bind Eb. apply name_of_inv in Eba as [-> Hn].
      destruct (Hn _ eq_refl) as (kvs & -> & G).
      destruct (scoped a0) eqn:Hs.
      * inv_ret Ebb. left. exists [], x, rest, kvs, a0.
        split; [reflexivity|]. split; [constructor|].
        split; [now split|]. split; [exact Hs | reflexivity].
      * assert (Y : yields_no_scope packagesDir (tree w) x)
          by (right; exists kvs, a0; repeat split; assumption).
        destruct (IH Ebb) as [(pre & pkg & post & k & nm & -> & F & M & S & ->)|[F ->]].
        -- left. exists (x :: pre), pkg, post, k, nm.
           split; [reflexivity|]. split; [now constructor|].
           split; [exact M|]. split; [exact S | reflexivity].
        -- right. split; [now constructor | reflexivity].
    + assert (Y : yields_no_scope packagesDir (tree w) x) by now left.
      destruct (IH E) as [(pre & pkg & post & k & nm & -> & F & M & S & ->)|[F ->]].
      * left. exists (x :: pre), pkg, post, k, nm.
        split; [reflexivity|]. split; [now constructor|].
        split; [exact M|]. split; [exact S | reflexivity].
      * right. split; [now constructor | reflexivity].
Qed.

(** ** What a run that succeeded leaves of the packages and the root *)

Lemma same_shape_absent (t t' : node) (p : path) :
  same_shape t' t -> Fs.lookup p t = None -> Fs.lookup p t' = None.
Proof.
  intros H N. pose proof (sim_lookup any_content _ _ p H) as Q. rewrite N in Q.
  destruct (Fs.lookup p t'); simpl in Q; [contradiction|reflexivity].
Qed.

Lemma same_shape_src (packagesDir : path) (pkg : string) (t t' : node) :
  same_shape t' t ->
  src_listable packagesDir pkg t <-> src_listable packagesDir pkg t'.
Proof.
  intros H. pose proof (sim_lookup any_content _ _ (packagesDir // pkg // "src") H) as Q.
  unfold src_listable.
  destruct (Fs.lookup (packagesDir // pkg // "src") t) as [[c|es]|],
           (Fs.lookup (packagesDir // pkg // "src") t') as [[c'|es']|];
    simpl in Q; try contradiction; split; intros [N|[k N]];
    try discriminate; eauto.
Qed.

Section PackageShape.

Variable packagesDir : path.
Variables old new newName : string.

Lemma updateSources_shape (pkgPath : path) (w w' : world) r :
  updateSources pkgPath old new newName w = (r, w') ->
  same_shape (tree w') (tree w).
Proof.
  apply (updateSources_preserves (fun _ => True)
           (fun w' => same_shape (tree w') (tree w))).
  - apply stable_shape.
  - intros; exact I.
  - apply sim_refl. intros c; exact I.
Qed.

Lemma updatePackage_shape (pkg : string) (w w' : world) r :
  updatePackage packagesDir old new newName pkg w = (r, w') ->
  same_shape (tree w') (tree w).
Proof.
  apply (updatePackage_preserves (fun _ => True)
           (fun w' => same_shape (tree w') (tree w))).
  - apply stable_shape.
  - exact I.
  - intros; exact I.
  - apply sim_refl. intros c; exact I.
Qed.

(** Sources that were rewritten were listed. *)
Lemma updateSources_ok_src (pkg : string) (w w' : world) :
  updateSources (packagesDir // pkg) old new newName w = (Ok tt, w') ->
  src_listable packagesDir pkg (tree w).
Proof.
  intros E. unfold updateSources in E.
  inv_exists E L; [|now left].
  right. inv_bind E. apply getFiles_inv in Ea as [-> Hfs].
  destruct (Hfs _ eq_refl) as (es & L' & _). rewrite L in L'.
  injection L' as ->. now exists es.
Qed.

Lemma updatePackage_ok_src (pkg : string) (w w' : world) :
  Fs.lookup (manifestPath packagesDir pkg) (tree w) <> None ->
  updatePackage packagesDir old new newName pkg w = (Ok tt, w') ->
  src_listable packagesDir pkg (tree w').
Proof.
  intros L E. pose proof E as E0. unfold updatePackage in E.
  inv_bind E. pose proof Ea as Ed. apply isDirectory_state in Ea as ->.
  rewrite bind_eq, existsSync_run in Eb.
  fold (manifestPath packagesDir pkg) in Eb.
  destruct (Fs.lookup (manifestPath packagesDir pkg) (tree w)) eqn:Lm;
    [|contradiction].
  destruct a; cbn [andb] in Eb.
  - inv_bind Eb. inv_bind Ebb. inv_bind Ebbb.
    pose proof (updateSources_ok_src _ _ _ Ebbbb) as H.
    now apply (same_shape_src packagesDir pkg _ _ (updateSources_shape _ _ _ _ Ebbbb)).
  - exfalso. destruct (parent_is_dir _ _ _ _ Lm) as [es D].
    unfold isDirectory in Ed. rewrite D in Ed. discriminate.
Qed.

Lemma updatePackage_readable_self (pkg : string) (w w' : world) :
  updatePackage packagesDir old new newName pkg w = (Ok tt, w') ->
  readable_package packagesDir pkg w'.
Proof.
  intros E.
  destruct (updatePackage_ok_manifest _ _ _ _ _ _ _ E) as [N|(kvs & name & M)].
  - left. now rewrite (updatePackage_absent _ _ _ _ _ _ _ _ N E).
  - right. split.
    + apply (updatePackage_named_self packagesDir old new newName pkg
               (fun _ => True) (fun _ => True) w w'); auto.
      now exists kvs, name.
    + apply updatePackage_ok_src with (w := w); [|assumption].
      destruct M as [L _]. now rewrite L.
Qed.

Lemma updatePackage_readable (pkg x : string) (w w' : world) :
  readable_package packagesDir pkg w ->
  updatePackage packagesDir old new newName x w = (Ok tt, w') ->
  readable_package packagesDir pkg w'.
Proof.
  intros [N|[Hn Hs]] E.
  - left. exact (same_shape_absent _ _ _ (updatePackage_shape _ _ _ _ E) N).
  - right. split.
    + apply (updatePackage_named packagesDir old new newName pkg x
               (fun _ => True) w w'); auto.
    + now apply (same_shape_src packagesDir pkg _ _ (updatePackage_shape _ _ _ _ E)).
Qed.

Lemma updatePackages_readable (pkg : string) (pkgs : list string) (w w' : world) :
  In pkg pkgs ->
  forM_ pkgs (updatePackage packagesDir old new newName) w = (Ok tt, w') ->
  readable_package packagesDir pkg w'.
Proof.
  intros Hin.
  apply (forM_establish (fun _ => True) (readable_package packagesDir pkg) pkg);
    auto.
  - intros s s' _. apply updatePackage_readable_self.
  - intros y s s'. apply updatePackage_readable.
Qed.

End PackageShape.

(** ** A run after a run that succeeded *)

Section FirstRun.

Variable rootDir : path.
Variable newName : string.
Variables w w1 : world.
Variable scope : string.

Let old : string := scope ++ "/".
Let new : string := "@" ++ newName ++ "/".

Hypothesis name_valid : validName newName = true.
Hypothesis detected : detectCurrentScope (rootDir // "packages") w = (Ok scope, w).
Hypothesis first_run : renameProject rootDir newName w = (Ok tt, w1).

Lemma absent_after_run (p : path) :
  Fs.lookup p (tree w) = None -> Fs.lookup p (tree w1) = None.
Proof.
  intros N. pose proof (renameProject_shape _ _ _ _ _ first_run) as H.
  pose proof (sim_lookup _ _ _ p H) as Q. rewrite N in Q.
  destruct (Fs.lookup p (tree w1)); simpl in Q; [contradiction|reflexivity].
Qed.

Lemma listing_after_run (es : list (string * node)) :
  Fs.lookup (rootDir // "packages") (tree w) = Some (Dir es) ->
  exists es1, Fs.lookup (rootDir // "packages") (tree w1) = Some (Dir es1)
              /\ map fst es1 = map fst es.
Proof.
  intros D. apply (same_shape_readdir (tree w) (tree w1)); [|assumption].
  exact (renameProject_shape _ _ _ _ _ first_run).
Qed.

(** A package with an unscoped name keeps it. *)
Lemma unscoped_after_run (pkg : string) (kvs : list (string * json))
  (name : string) :
  manifest_at (rootDir // "packages") pkg (tree w) kvs name -> scoped name = false ->
  exists kvs', manifest_at (rootDir // "packages") pkg (tree w1) kvs' name.
Proof.
  intros [L G] Hu.
  destruct (renameProject_ok _ _ _ _ first_run) as (scope' & w0 & w2 & D' & R0 & P & X).
  rewrite detected in D'. injection D' as <-.
  destruct (detectCurrentScope_token _ _ _ _ detected) as [Hat _].
  rewrite <- (manifest_after_root rootDir newName pkg w w0 _ R0) in L.
  apply updatePackages_ok in P as [[N _]|(es0 & D0 & F)].
  { destruct (parent_is_dir _ _ _ _ L) as [es1 L1].
    destruct (parent_is_dir _ _ _ _ L1) as [es2 L2].
    congruence. }
  assert (Hin : In pkg (map fst es0)) by now apply (manifest_listed _ _ _ _ _ D0 L).
  assert (K : forall n, n = name -> renamed (scope ++ "/") ("@" ++ newName ++ "/") n = name).
  { intros n ->. now apply renamed_unscoped. }
  destruct (updatePackages_named (rootDir // "packages") (scope ++ "/")
              ("@" ++ newName ++ "/") newName pkg (map fst es0)
              (fun n => n = name) (fun n => n = name) w0 w2 Hin)
    as (kvs' & name' & [L2 G2] & ->); try assumption.
  - exists kvs, name. split; [now split | reflexivity].
  - exists kvs'. split; [|assumption].
    now rewrite (manifest_after_extras rootDir newName pkg w2 w1 _ X).
Qed.

Lemma yields_no_scope_after_run (pkg : string) :
  yields_no_scope (rootDir // "packages") (tree w) pkg ->
  yields_no_scope (rootDir // "packages") (tree w1) pkg.
Proof.
  intros [N|(kvs & n & L & G & Hs)].
  - left. now apply absent_after_run.
  - right. destruct (unscoped_after_run pkg kvs n) as (kvs' & L' & G');
      [now split | assumption |].
    now exists kvs', n.
Qed.

(** The scope that a second run detects: the new one when the first run
    found a scope, the fallback when no package yielded one. *)
Lemma scope_after_run :
  exists scope2,
    detectCurrentScope (rootDir // "packages") w1 = (Ok scope2, w1)
    /\ (scope2 = "@" ++ newName
        \/ (scope2 = fallbackScope
            /\ forall es1 pkg,
                 Fs.lookup (rootDir // "packages") (tree w1) = Some (Dir es1) ->
                 In pkg (map fst es1) ->
                 yields_no_scope (rootDir // "packages") (tree w1) pkg)).
Proof.
  pose proof detected as E. unfold detectCurrentScope in E.
  inv_exists E D.
  - inv_bind E. unfold readdir in Ea. rewrite D in Ea.
    destruct n as [c|es]; [discriminate|]. inv_ret Ea.
    destruct (listing_after_run es D) as (es1 & D1 & N1).
    rewrite (detectCurrentScope_run _ _ _ D1), N1.
    destruct (detectScope_cases _ _ _ _ _ Eb)
      as [(pre & pkg & post & kvs & name & Hl & F & M & S & Hs)|[F Hs]].
    + exists ("@" ++ newName). split; [|now left].
      apply andb_true_iff in S as [S1 S2].
      destruct (includes_slash_split _ S2) as (a & r & -> & Ha).
      pose proof (split_slash_head a r Ha) as Q. rewrite Q in Hs. subst a.
      destruct (renamed_after_run rootDir newName scope w w1 pkg kvs r
                  name_valid detected first_run M) as (kvs' & L' & G').
      rewrite Hl. rewrite detectScope_skip.
      * rewrite (detectScope_hit _ _ _ _ _ _ L' G').
        -- pose proof (split_slash_head ("@" ++ newName) r) as Q'.
           cbn [append] in Q' |- *. rewrite Q'; [reflexivity|].
           cbn [includes startsWith]. cbn.
           now apply validName_no_slash.
        -- apply (startsWith_token_scoped _ ("@" ++ newName)); [reflexivity|].
           replace ("@" ++ newName ++ "/" ++ r)
             with ((("@" ++ newName) ++ "/") ++ r)
             by now rewrite !append_assoc.
           apply startsWith_app.
      * eapply Forall_impl; [|exact F]. apply yields_no_scope_after_run.
    + exists fallbackScope.
      assert (F1 : Forall (yields_no_scope (rootDir // "packages") (tree w1)) (map fst es)).
      { eapply Forall_impl; [|exact F]. apply yields_no_scope_after_run. }
      split; [now apply detectScope_fallback|]. right. split; [reflexivity|].
      intros es2 pkg D2 Hin. rewrite D1 in D2. injection D2 as <-.
      rewrite N1 in Hin. rewrite Forall_forall in F1. now apply F1.
  - exists fallbackScope.
    pose proof (absent_after_run _ D) as D1.
    split.
    + unfold detectCurrentScope. now rewrite bind_eq, existsSync_run, D1.
    + right. split; [reflexivity|]. intros es1 pkg D2. congruence.
Qed.

(** Every listed package can be read after the run. *)
Lemma package_after_run (es : list (string * node)) (pkg : string) :
  Fs.lookup (rootDir // "packages") (tree w) = Some (Dir es) ->
  In pkg (map fst es) ->
  readable_package (rootDir // "packages") pkg w1.
Proof.
  intros D Hin.
  destruct (renameProject_ok _ _ _ _ first_run) as (scope' & w0 & w2 & D' & R0 & P & X).
  assert (D0 : Fs.lookup (rootDir // "packages") (tree w0) = Some (Dir es)).
  { refine (updateRootManifest_frame rootDir newName _ _ _ w _ w0 D R0).
    intros r. path_neq. }
  apply updatePackages_ok in P as [[N _]|(es0 & D0' & L)]; [congruence|].
  rewrite D0 in D0'. injection D0' as <-.
  pose proof (updatePackages_readable _ _ _ _ pkg _ _ _ Hin L) as [N|[(kvs & name & [Lm G] & _) Hs]].
  - left. now rewrite (manifest_after_extras rootDir newName pkg w2 w1 _ X).
  - right. split.
    + exists kvs, name. split; [|exact I]. split; [|assumption].
      now rewrite (manifest_after_extras rootDir newName pkg w2 w1 _ X).
    + apply (same_shape_src _ pkg (tree w2) (tree w1)); [|assumption].
      revert X.
      apply (updateExtraFiles_preserves rootDir (fun _ => True)
               (fun w' => same_shape (tree w') (tree w2))).
      * apply stable_shape.
      * exact I.
      * exact I.
      * apply sim_refl. intros c; exact I.
Qed.

(** The root manifest has the new name after the run. *)
Lemma root_settled_after_run : settled_root rootDir newName (tree w1).
Proof.
  unfold settled_root.
  destruct (Fs.lookup (rootDir // "package.json") (tree w)) as [n|] eqn:L;
    [|now rewrite (absent_after_run _ L)].
  destruct (renameProject_ok _ _ _ _ first_run) as (scope' & w0 & w2 & D' & R0 & P & X).
  rewrite (root_after_extras rootDir newName w2 w1 _ X).
  rewrite (root_after_packages rootDir newName _ _ w0 w2 _ P).
  unfold updateRootManifest in R0.
  rewrite bind_eq, existsSync_run, L in R0.
  inv_bind R0. apply readJson_inv in R0a as [-> Hj]. specialize (Hj _ eq_refl).
  inv_bind R0b. destruct a; try discriminate; inv_ret R0ba.
  - apply write_inv in R0bb as [(t' & Pt & _ & ->)|(_ & _ & e & Q)]; [|discriminate].
    apply put_lookup_same in Pt. cbn [tree]. now rewrite Pt.
  - apply write_inv in R0bb as [(t' & Pt & _ & ->)|(_ & _ & e & Q)]; [|discriminate].
    apply put_lookup_same in Pt. cbn [tree]. rewrite Pt.
    now rewrite get_set, String.eqb_refl.
Qed.

(** After the run every listed package is settled for the tokens of a
    second run. *)
Lemma settled_after_run (scope2 : string) (es1 : list (string * node))
  (pkg : string) :
  detectCurrentScope (rootDir // "packages") w1 = (Ok scope2, w1) ->
  Fs.lookup (rootDir // "packages") (tree w1) = Some (Dir es1) ->
  In pkg (map fst es1) ->
  settled_package (rootDir // "packages") (scope2 ++ "/") new (tree w1) pkg.
Proof.
  intros D2 L1 Hin.
  assert (R : readable_package (rootDir // "packages") pkg w1).
  { pose proof (renameProject_shape _ _ _ _ _ first_run) as H.
    pose proof (sim_lookup any_content _ _ (rootDir // "packages") H) as Q.
    rewrite L1 in Q.
    destruct (Fs.lookup (rootDir // "packages") (tree w)) as [[c|es]|] eqn:L;
      simpl in Q; try contradiction.
    apply (package_after_run es); [exact L|].
    apply entries_rel_names in Q. now rewrite <- Q. }
  destruct R as [N|[(kvs & name & M & _) Hs]]; [now left|].
  right. exists kvs, name. split; [assumption|]. split; [|exact Hs].
  destruct scope_after_run as (s2 & D2' & [->|[-> F]]);
    rewrite D2 in D2'; injection D2' as ->.
  - apply renamed_same.
  - destruct (F _ _ L1 Hin) as [N|(kvs' & n & L' & G' & Hu)].
    + destruct M as [Lm _]. congruence.
    + destruct M as [Lm G]. rewrite Lm in L'. injection L' as <-.
      rewrite G in G'. injection G' as <-.
      now apply renamed_unscoped.
Qed.

End FirstRun.

(** Source files are clean as soon as those of the listed packages are. *)
Lemma clean_sources_listed (packagesDir : path) (old new : string) (t : node)
  (es0 : list (string * node)) :
  Fs.lookup packagesDir t = Some (Dir es0) ->
  Forall (fun pkg =>
            forall es f,
              Fs.lookup (packagesDir // pkg // "src") t = Some (Dir es) ->
              In f (Fs.files_below (packagesDir // pkg // "src") (Dir es)) ->
              hasSourceExtension f = true ->
              clean_source old new t f)
         (map fst es0) ->
  clean_sources packagesDir old new t.
Proof.
  intros D F pkg es f Hm Hs Hin Hx.
  destruct (Fs.lookup (manifestPath packagesDir pkg) t) as [n|] eqn:L;
    [|contradiction].
  rewrite Forall_forall in F.
  apply (F pkg (manifest_listed _ _ _ _ _ D L) es f); assumption.
Qed.

(** ** C2 *)

(** C2, as stated, fails: the substitution of the boilerplate identifier is
    literal, and a valid new name may contain the identifier.  The first run
    turns the identifier in the README into the new name, and the second run
    rewrites the identifier inside that name again. *)
Lemma C2_counterexample :
  let newName := "modern-fullstack-boilerplate-2" in
  let t := Dir [("app", Dir [("README.md", File (Text "# modern-fullstack-boilerplate"))])] in
  let first := run (renameProject ["app"] newName) t in
  let second := renameProject ["app"] newName (snd first) in
  validName newName = true
  /\ fst first = Ok tt
  /\ fst second = Ok tt
  /\ Fs.lookup ["app"; "README.md"] (tree (snd first))
     = Some (File (Text "# modern-fullstack-boilerplate-2"))
  /\ Fs.lookup ["app"; "README.md"] (tree (snd second))
     = Some (File (Text "# modern-fullstack-boilerplate-2-2")).
Proof. vm_compute. repeat split. Qed.

(** C2, amended: let a run of [renameProject rootDir newName] with a valid
    name succeed and leave the world [w1], in which a run would detect the
    scope [scope2].  If in [w1] no source file of a package contains the
    boilerplate identifier, nor the token [scope2/] unless that is the new
    token, and neither documentation file contains the display name or the
    identifier, then a second run succeeds and changes the content of no file
    other than the [dependencies] and [devDependencies] of a manifest: the tree
    keeps its shape, every text file its text, every JSON object all its other
    fields, and so every manifest its name. *)
Theorem C2_second_run (rootDir : path) (newName scope2 : string) (w w1 : world) :
  validName newName = true ->
  renameProject rootDir newName w = (Ok tt, w1) ->
  detectCurrentScope (rootDir // "packages") w1 = (Ok scope2, w1) ->
  clean_sources (rootDir // "packages") (scope2 ++ "/") ("@" ++ newName ++ "/")
    (tree w1) ->
  clean_doc (tree w1) (rootDir // "README.md") ->
  clean_doc (tree w1) (rootDir // "packages" // "frontend" // "index.html") ->
  exists w2,
    renameProject rootDir newName w1 = (Ok tt, w2)
    /\ same_shape (tree w2) (tree w1)
    /\ (forall p s,
          Fs.lookup p (tree w1) = Some (File (Text s)) ->
          Fs.lookup p (tree w2) = Some (File (Text s)))
    /\ (forall p kvs,
          Fs.lookup p (tree w1) = Some (File (Json (JObject kvs))) ->
          exists kvs',
            Fs.lookup p (tree w2) = Some (File (Json (JObject kvs')))
            /\ forall k, k <> "dependencies" -> k <> "devDependencies" ->
                         Obj.get k kvs' = Obj.get k kvs)
    /\ (forall pkg kvs name,
          manifest_at (rootDir // "packages") pkg (tree w1) kvs name ->
          exists kvs', manifest_at (rootDir // "packages") pkg (tree w2) kvs' name).
Proof.
  intros Hv Hrun D2 Hsrc Hreadme Hhtml.
  destruct (renameProject_ok _ _ _ _ Hrun) as (scope & w0 & w' & D & _).
  destruct (settled_run rootDir newName scope2 w1) as (w2 & R2 & H);
    try assumption.
  - exact (root_settled_after_run rootDir newName w w1 Hrun).
  - intros es pkg L Hin.
    exact (settled_after_run rootDir newName w w1 scope Hv D Hrun scope2 es pkg D2 L Hin).
  - assert (Hobj : forall p kvs,
               Fs.lookup p (tree w1) = Some (File (Json (JObject kvs))) ->
               exists kvs',
                 Fs.lookup p (tree w2) = Some (File (Json (JObject kvs')))
                 /\ same_but_deps kvs' kvs).
    { intros p kvs L.
      destruct (related_file (tree w1) w2 p _ H L) as (c & Lc & Hc).
      destruct c as [s|[]]; simpl in Hc; try contradiction; try discriminate.
      eauto. }
    exists w2. split; [assumption|]. split; [|split; [|split]].
    + exact (renameProject_shape _ _ _ _ _ R2).
    + intros p s L. exact (related_text (tree w1) w2 p s H L).
    + exact Hobj.
    + intros pkg kvs name [L G].
      destruct (Hobj _ _ L) as (kvs' & L' & Hk).
      exists kvs'. split; [assumption|].
      rewrite Hk; [assumption | discriminate | discriminate].
Qed.

Lemma C2_second_run_witness :
  exists w1 w2,
    renameProject ["app"] "shop" (World Sample.workspace []) = (Ok tt, w1)
    /\ renameProject ["app"] "shop" w1 = (Ok tt, w2)
    /\ Fs.lookup ["app"; "README.md"] (tree w2) = Some (File (Text "# Shop"))
    /\ Fs.lookup ["app"; "packages"; "ui"; "src"; "index.ts"] (tree w2)
       = Some (File (Text "export * from '@shop/ui/button'"))
    /\ (exists kvs, manifest_at ["app"; "packages"] "ui" (tree w2) kvs "@shop/ui")
    /\ (exists kvs, manifest_at ["app"; "packages"] "api" (tree w2) kvs "@shop/api").
Proof.
  pose (w := World Sample.workspace []).
  pose (w1 := snd (renameProject ["app"] "shop" w)).
  assert (Hsrc : clean_sources (["app"] // "packages") ("@shop" ++ "/")
                   ("@" ++ "shop" ++ "/") (tree w1)).
  { eapply clean_sources_listed; [vm_compute; reflexivity|].
    cbn [map fst].
    apply Forall_cons; [|apply Forall_cons; [|apply Forall_nil]];
      intros es f Hs Hin Hx; vm_compute in Hs; [|discriminate Hs].
    injection Hs as <-. vm_compute in Hin. destruct Hin as [<-|[]].
    exists "export * from '@shop/ui/button'".
    split; [vm_compute; reflexivity|].
    split; [intros Hne; now contradiction Hne | vm_compute; reflexivity]. }
  assert (Hreadme : clean_doc (tree w1) (["app"] // "README.md")).
  { vm_compute. split; reflexivity. }
  assert (Hhtml : clean_doc (tree w1)
                    (["app"] // "packages" // "frontend" // "index.html")).
  { vm_compute. exact I. }
  destruct (C2_second_run ["app"] "shop" "@shop" w w1
              eq_refl eq_refl eq_refl Hsrc Hreadme Hhtml)
    as (w2 & R & _ & Htext & _ & Hman).
  exists w1, w2. split; [reflexivity|]. split; [exact R|].
  split; [|split; [|split]].
  - apply Htext. reflexivity.
  - apply Htext. reflexivity.
  - refine (Hman "ui" _ "@shop/ui" _). split; reflexivity.
  - refine (Hman "api" _ "@shop/api" _). split; reflexivity.
Defined.

(** * Further properties of the code *)

(** ** [getFiles] *)

Lemma distinct_names_dir (es : list (string * node)) :
  distinct_names (Dir es)
  <-> NoDup (map fst es) /\ Forall (fun e => distinct_names (snd e)) es.
Proof.
  simpl. split; intros [H1 H2]; (split; [assumption|]).
  - induction es as [|e r IH]; constructor; [apply H2|].
    apply IH; [now inversion H1 | apply H2].
  - induction H2 as [|e r He _ IH]; [exact I|]. split; [assumption|].
    apply IH. now inversion H1.
Qed.

Lemma assoc_distinct (x : string) (m : node) (es : list (string * node)) :
  NoDup (map fst es) -> In (x, m) es -> Fs.assoc x es = Some m.
Proof.
  induction es as [|[y k] r IH]; simpl; intros ND Hin; [contradiction|].
  inversion ND as [|? ? Hy Hr]; subst.
  destruct Hin as [[= -> ->]|Hin].
  - now rewrite String.eqb_refl.
  - destruct (String.eqb_spec x y) as [->|_]; [|now apply IH].
    exfalso. apply Hy. change y with (fst (y, m)). now apply in_map.
Qed.

(** What [files_below] lists is a regular file of the tree. *)
Lemma files_below_sound (n : node) (dir f : path) :
  distinct_names n -> In f (Fs.files_below dir n) ->
  exists r c, r <> [] /\ f = (dir ++ r)%list /\ Fs.lookup r n = Some (File c).
Proof.
  revert dir; induction n as [c|es IH] using node_induction; intros dir Hd Hin;
    simpl in Hin; [contradiction|].
  apply distinct_names_dir in Hd as [ND Hall].
  apply in_flat_map in Hin as ([x m] & Hx & Hf). simpl in Hf.
  rewrite Forall_forall in IH, Hall.
  pose proof (assoc_distinct x m es ND Hx) as A.
  destruct m as [c|es'].
  - destruct Hf as [<-|[]]. exists [x], c. split; [discriminate|].
    split; [reflexivity|]. simpl. now rewrite A.
  - destruct (IH _ Hx (dir // x) (Hall _ Hx) Hf) as (r & c & Hr & -> & L).
    exists (x :: r), c. split; [discriminate|]. split.
    + unfold sub. now rewrite <- app_assoc.
    + simpl. now rewrite A.
Qed.

(** In a tree that lists no name twice, [files_below] lists no path twice. *)
Lemma files_below_NoDup (n : node) (dir : path) :
  distinct_names n -> NoDup (Fs.files_below dir n).
Proof.
  revert dir; induction n as [c|es IH] using node_induction; intros dir Hd;
    simpl; [constructor|].
  apply distinct_names_dir in Hd as [ND Hall].
  induction es as [|[x m] r IHr]; simpl; [constructor|].
  inversion IH as [|? ? Hm Hr]; subst. inversion Hall as [|? ? Dm Dr]; subst.
  inversion ND as [|? ? Hx NDr]; subst. simpl in Hm, Dm.
  assert (Hhead : forall f,
             In f (match m with
                   | Dir _ => Fs.files_below (dir // x) m
                   | File _ => [dir // x]
                   end) -> exists q, f = (dir ++ x :: q)%list).
  { intros f Hf. destruct m as [c|es'].
    - destruct Hf as [<-|[]]. now exists [].
    - apply files_below_prefix in Hf as [q ->]. exists q. unfold sub.
      now rewrite <- app_assoc. }
  apply NoDup_app.
  - destruct m as [c|es']; [repeat constructor; intros []|now apply Hm].
  - now apply IHr.
  - intros f Hf Hin. apply Hhead in Hf as [q ->].
    apply in_flat_map in Hin as ([y k] & Hy & Hk). simpl in Hk.
    assert (Hq : exists q', (dir ++ x :: q)%list = (dir ++ y :: q')%list).
    { destruct k as [c|es'].
      - destruct Hk as [Hk|[]]. exists []. now rewrite <- Hk.
      - apply files_below_prefix in Hk as [q' Hk]. exists q'. rewrite Hk.
        unfold sub. now rewrite <- app_assoc. }
    destruct Hq as [q' Hq]. apply app_inv_head in Hq. injection Hq as -> _.
    apply Hx. change y with (fst (y, k)). now apply in_map.
Qed.

(** X1: on a directory whose subtree lists no name twice, [getFiles]
    returns, without touching anything, exactly the paths of the regular
    files at any depth below the directory, each once: every path returned is
    that of a regular file strictly below [dir], no directory is returned, and
    no regular file below [dir] is left out. *)
Theorem X1_getFiles_regular_files (dir : path) (w : world)
  (es : list (string * node)) :
  Fs.lookup dir (tree w) = Some (Dir es) ->
  distinct_names (Dir es) ->
  exists files,
    getFiles dir w = (Ok files, w)
    /\ NoDup files
    /\ forall f,
         In f files
         <-> exists r c, r <> [] /\ f = (dir ++ r)%list
                         /\ Fs.lookup f (tree w) = Some (File c).
Proof.
  intros L Hd. exists (Fs.files_below dir (Dir es)). split; [|split].
  - unfold getFiles. now rewrite L.
  - now apply files_below_NoDup.
  - intros f. split.
    + intros Hin.
      destruct (files_below_sound _ _ _ Hd Hin) as (r & c & Hr & -> & Lr).
      exists r, c. split; [assumption|]. split; [reflexivity|].
      now rewrite lookup_app, L.
    + intros (r & c & Hr & -> & Lf). rewrite lookup_app, L in Lf.
      now apply files_below_complete with (c := c).
Qed.

Lemma X1_getFiles_regular_files_witness :
  exists files,
    getFiles ["app"; "packages"; "ui"] (World Sample.workspace [])
    = (Ok files, World Sample.workspace [])
    /\ In ["app"; "packages"; "ui"; "src"; "index.ts"] files
    /\ ~ In ["app"; "packages"; "ui"; "src"] files.
Proof.
  assert (Hd : distinct_names
                 (Dir [("package.json", Sample.manifest "@old/ui" [("react", "18.0.0")]);
                       ("src", Dir [("index.ts", File (Text "export * from '@old/ui/button'"))])])).
  { simpl. repeat split; repeat constructor; simpl; intuition discriminate. }
  destruct (X1_getFiles_regular_files ["app"; "packages"; "ui"]
              (World Sample.workspace []) _ eq_refl Hd) as (files & E & _ & H).
  exists files. split; [exact E|]. split.
  - apply H. exists ["src"; "index.ts"]. eexists. repeat split. discriminate.
  - intros Hin. apply H in Hin as (r & c & _ & Hr & L).
    vm_compute in L. discriminate L.
Defined.

(** ** What a run leaves in place *)

(** X2: whatever its outcome, a run of [renameProject] creates, deletes and
    moves nothing: a path exists after the run exactly when it existed
    before, a regular file is still a regular file, and a directory still
    lists the same names in the same order. *)
Theorem X2_rename_keeps_shape (rootDir : path) (newName : string)
  (w w' : world) (r : outcome unit) :
  renameProject rootDir newName w = (r, w') ->
  forall p,
    (Fs.lookup p (tree w') = None <-> Fs.lookup p (tree w) = None)
    /\ (is_file p (tree w') <-> is_file p (tree w))
    /\ (forall es, Fs.lookup p (tree w) = Some (Dir es) ->
          exists es', Fs.lookup p (tree w') = Some (Dir es')
                      /\ map fst es' = map fst es).
Proof.
  intros E p. pose proof (renameProject_shape _ _ _ _ _ E) as H.
  pose proof (sim_lookup any_content _ _ p H) as Q. unfold is_file.
  destruct (Fs.lookup p (tree w')) as [[c'|es']|],
           (Fs.lookup p (tree w)) as [[c|es]|];
    simpl in Q; try contradiction.
  - split; [split; discriminate|].
    split; [split; intros _; eexists; reflexivity | discriminate].
  - split; [split; discriminate|].
    split; [split; intros [c Hc]; discriminate|].
    intros k [= <-]. exists es'. split; [reflexivity|].
    now apply entries_rel_names in Q.
  - split; [tauto|]. split; [split; intros [c Hc]; discriminate | discriminate].
Qed.

Lemma X2_rename_keeps_shape_witness :
  let out := run (renameProject ["app"] "shop")
               (Sample.workspace_with (Text "{ name: ")) in
  fst out = Throw SyntaxError
  /\ (exists es', Fs.lookup ["app"; "packages"] (tree (snd out)) = Some (Dir es')
                  /\ map fst es' = ["ui"; "docs"; "api"])
  /\ Fs.lookup ["app"; "packages"; "ui"; "src"] (tree (snd out)) = None.
Proof.
  pose (t := Sample.workspace_with (Text "{ name: ")).
  pose (out := run (renameProject ["app"] "shop") t).
  assert (E : renameProject ["app"] "shop" (World t []) = (fst out, snd out))
    by reflexivity.
  pose proof (X2_rename_keeps_shape ["app"] "shop" _ _ _ E) as H.
  split; [reflexivity|]. split.
  - destruct (H ["app"; "packages"]) as (_ & _ & Hd).
    destruct (Hd _ eq_refl) as (es' & L & N). exists es'. split; assumption.
  - destruct (H ["app"; "packages"; "ui"; "src"]) as (Hn & _).
    apply Hn. reflexivity.
Defined.

(** ** What a run writes, file by file *)

Lemma stable_and (S : path -> Prop) (I J : world -> Prop) :
  stable S I -> stable S J -> stable S (fun w => I w /\ J w).
Proof.
  intros HI HJ w p c t' [H1 H2] Hp Hf E. split; [eapply HI | eapply HJ]; eauto.
Qed.

(** A regular file at which nothing is written keeps its content. *)
Lemma stable_file (S : path -> Prop) (f : path) (c0 : content) :
  ~ S f -> stable S (fun w => Fs.lookup f (tree w) = Some (File c0)).
Proof.
  intros Hn w p c t' L Hp [c1 Hf] E. cbn [tree].
  rewrite (put_lookup_frame _ _ _ _ f E); [assumption|].
  intros r ->. rewrite lookup_app, L in Hf.
  destruct r; [rewrite app_nil_r in Hp; contradiction | discriminate].
Qed.

Section FineConfinement.

Variable S : path -> Prop.
Variable I : world -> Prop.
Hypothesis I_stable : stable S I.

Lemma updateSourceFile_preserves_ext (old new newName : string) (file : path) :
  (hasSourceExtension file = true -> S file) ->
  preserves I (updateSourceFile old new newName file).
Proof.
  intros Hf. destruct (hasSourceExtension file) eqn:Hx.
  - now apply (updateSourceFile_preserves S I I_stable), Hf.
  - intros w r w' HI E. unfold updateSourceFile in E. rewrite Hx in E.
    now inv_ret E.
Qed.

Lemma updateSources_preserves_ext (pkgPath : path) (old new newName : string) :
  (forall r, hasSourceExtension (pkgPath // "src" ++ r)%list = true ->
             S (pkgPath // "src" ++ r)%list) ->
  preserves I (updateSources pkgPath old new newName).
Proof.
  intros Hs w r w' HI E. unfold updateSources in E.
  inv_exists E L; [|now inv_ret E].
  inv_bind E; [|now apply getFiles_inv in Ea as [-> _]].
  apply getFiles_inv in Ea as [-> Hfs].
  destruct (Hfs _ eq_refl) as (es & _ & ->).
  revert Eb. apply preserves_forM; [|assumption].
  intros f Hf. apply updateSourceFile_preserves_ext.
  apply files_below_prefix in Hf as [r0 ->]. apply Hs.
Qed.

Lemma updatePackage_preserves_ext (packagesDir : path)
  (old new newName pkg : string) :
  (forall w, I w ->
     Fs.lookup (manifestPath packagesDir pkg) (tree w) <> None ->
     S (manifestPath packagesDir pkg)
     /\ forall r, hasSourceExtension (packagesDir // pkg // "src" ++ r)%list = true ->
                  S (packagesDir // pkg // "src" ++ r)%list) ->
  preserves I (updatePackage packagesDir old new newName pkg).
Proof.
  intros H w r w' HI E. unfold updatePackage in E.
  inv_bind E; [|now apply isDirectory_state in Ea as ->].
  apply isDirectory_state in Ea as ->.
  rewrite bind_eq, existsSync_run in Eb.
  destruct (a && _); [|now inv_ret Eb].
  inv_bind Eb; [|now apply readJson_inv in Eba as [-> _]].
  apply readJson_inv in Eba as [-> Hj]. specialize (Hj _ eq_refl).
  destruct (H w HI) as [Hm Hs].
  { unfold manifestPath. rewrite Hj. discriminate. }
  inv_bind Ebb; [|now apply name_of_inv in Ebba as [-> _]].
  apply name_of_inv in Ebba as [-> Hn].
  destruct (Hn _ eq_refl) as (kvs & -> & _). clear Hn.
  assert (J : I w /\ is_file (packagesDir // pkg // "package.json") (tree w))
    by (split; [assumption | eexists; eassumption]).
  inv_bind Ebbb;
    [|now apply (preserves_write S I _ _ I_stable Hm _ _ _ J Ebbba)].
  apply (preserves_write S I _ _ I_stable Hm _ _ _ J) in Ebbba as [HI2 _].
  revert Ebbbb. now apply updateSources_preserves_ext.
Qed.

Lemma renameProject_preserves_ext (rootDir : path) (newName : string) :
  S (rootDir // "package.json") ->
  S (rootDir // "README.md") ->
  S (rootDir // "packages" // "frontend" // "index.html") ->
  (forall pkg w, I w ->
     Fs.lookup (manifestPath (rootDir // "packages") pkg) (tree w) <> None ->
     S (manifestPath (rootDir // "packages") pkg)
     /\ forall r,
          hasSourceExtension (rootDir // "packages" // pkg // "src" ++ r)%list = true ->
          S (rootDir // "packages" // pkg // "src" ++ r)%list) ->
  preserves I (renameProject rootDir newName).
Proof.
  intros Hroot Hreadme Hhtml Hpkg w r w' HI E. unfold renameProject in E.
  inv_bind E; [|now apply detectCurrentScope_state in Ea as ->].
  apply detectCurrentScope_state in Ea as ->.
  assert (P1 : preserves I (updateRootManifest rootDir newName))
    by now apply (updateRootManifest_preserves rootDir S).
  assert (P2 : preserves I (updatePackages (rootDir // "packages") (a ++ "/")
                              ("@" ++ newName ++ "/") newName)).
  { intros v q v' Hv Ev. unfold updatePackages in Ev.
    inv_exists Ev L; [|now inv_ret Ev].
    inv_bind Ev; [|now apply readdir_state in Eva as ->].
    apply readdir_state in Eva as ->.
    revert Evb. apply preserves_forM; [|assumption].
    intros pkg _. apply updatePackage_preserves_ext. apply Hpkg. }
  assert (P3 : preserves I (updateExtraFiles rootDir newName))
    by now apply (updateExtraFiles_preserves rootDir S).
  inv_bind Eb; [|now eapply P1; eauto].
  apply (P1 w _ _ HI) in Eba.
  inv_bind Ebb; [|now eapply P2; eauto].
  eapply P3; [|eassumption]. eapply P2; eauto.
Qed.

End FineConfinement.

(** X3: whatever its outcome, a run of [renameProject] writes only to the
    root manifest, to the manifest of an entry of [packages/] that has one,
    to files below the [src] of such an entry whose names end in [.ts],
    [.tsx], [.js] or [.jsx], and to the two documentation files; every other
    regular file of the tree keeps its content.  So a style sheet or a JSON
    file below [src], and the sources of an entry without a manifest, are never
    rewritten. *)
Theorem X3_rename_writes_only_project_files (rootDir : path) (newName : string)
  (w w' : world) (r : outcome unit) :
  renameProject rootDir newName w = (r, w') ->
  (exists writes,
      trace w' = (trace w ++ map Wrote writes)%list
      /\ Forall (rewritable rootDir (tree w)) writes)
  /\ (forall f c,
        Fs.lookup f (tree w) = Some (File c) ->
        ~ rewritable rootDir (tree w) f ->
        Fs.lookup f (tree w') = Some (File c)).
Proof.
  intros E.
  set (S := rewritable rootDir (tree w)).
  set (I := fun v : world =>
              same_shape (tree v) (tree w)
              /\ (exists ps, trace v = (trace w ++ map Wrote ps)%list /\ Forall S ps)
              /\ forall f c, Fs.lookup f (tree w) = Some (File c) -> ~ S f ->
                             Fs.lookup f (tree v) = Some (File c)).
  assert (St : stable S I).
  { apply stable_and; [apply stable_shape|].
    apply stable_and; [apply stable_trace|].
    intros v p c t' H Hp Hf Ep f c0 L Hn.
    exact (stable_file S f c0 Hn v p c t' (H f c0 L Hn) Hp Hf Ep). }
  assert (H : I w').
  { apply (renameProject_preserves_ext S I St rootDir newName) with (w := w) (r := r);
      try assumption.
    - now left.
    - right; right; now left.
    - right; right; now right.
    - intros pkg v (Hs & _) Hm.
      assert (Hm0 : Fs.lookup (manifestPath (rootDir // "packages") pkg) (tree w)
                    <> None).
      { intros N. apply Hm. exact (same_shape_absent _ _ _ Hs N). }
      split.
      + right; left. exists pkg. split; [assumption | now left].
      + intros q Hq. right; left. exists pkg. split; [assumption|].
        right. split; [assumption | now exists q].
    - split; [apply sim_refl; intros c; exact Logic.I|]. split.
      + exists []. split; [now rewrite app_nil_r | constructor].
      + auto. }
  destruct H as (_ & Ht & Hf). split; assumption.
Qed.

Lemma X3_rename_writes_only_project_files_witness :
  exists w',
    renameProject ["app"] "shop" (World styled_workspace []) = (Ok tt, w')
    /\ Fs.lookup ["app"; "packages"; "ui"; "src"; "theme.css"] (tree w')
       = Some (File (Text "@import '@old/ui/base.css';"))
    /\ Fs.lookup ["app"; "packages"; "docs"; "src"; "index.ts"] (tree w')
       = Some (File (Text "import '@old/ui'")).
Proof.
  pose (w := World styled_workspace []).
  pose (w' := snd (renameProject ["app"] "shop" w)).
  destruct (X3_rename_writes_only_project_files ["app"] "shop" w w' (Ok tt)
              eq_refl) as [_ H].
  exists w'. split; [reflexivity|]. split.
  - apply H; [reflexivity|].
    intros [Q|[(pkg & _ & [Q|[Q _]])|[Q|Q]]]; discriminate Q.
  - apply H; [reflexivity|].
    intros [Q|[(pkg & Hm & [Q|[_ [q Q]]])|[Q|Q]]]; try discriminate Q.
    injection Q as <- _. apply Hm. reflexivity.
Defined.

(** ** The manifests, field by field *)

Lemma keys_set (k : string) (v : json) (o : list (string * json)) :
  Obj.keys (Obj.set k v o)
  = match Obj.get k o with
    | Some _ => Obj.keys o
    | None => (Obj.keys o ++ [k])%list
    end.
Proof.
  unfold Obj.keys. induction o as [|[k0 v0] o IH]; simpl; [reflexivity|].
  destruct (String.eqb k k0); simpl; [reflexivity|].
  rewrite IH. now destruct (Obj.get k o).
Qed.

(** X4: a run that succeeds on a root manifest that is an object changes
    nothing of it but [name]: every other field keeps its value, and the keys
    keep their order, [name] being added last when the manifest had none. *)
Theorem X4_root_manifest_fields (rootDir : path) (newName : string)
  (w w' : world) (kvs : list (string * json)) :
  renameProject rootDir newName w = (Ok tt, w') ->
  Fs.lookup (rootDir // "package.json") (tree w)
  = Some (File (Json (JObject kvs))) ->
  exists kvs',
    Fs.lookup (rootDir // "package.json") (tree w')
    = Some (File (Json (JObject kvs')))
    /\ (forall k, k <> "name" -> Obj.get k kvs' = Obj.get k kvs)
    /\ Obj.keys kvs'
       = match Obj.get "name" kvs with
         | Some _ => Obj.keys kvs
         | None => (Obj.keys kvs ++ ["name"])%list
         end.
Proof.
  intros E L. exists (Obj.set "name" (JString newName) kvs). split; [|split].
  - now apply root_after_run with (w := w).
  - intros k Hk. rewrite get_set.
    now destruct (String.eqb_spec k "name").
  - apply keys_set.
Qed.

Lemma X4_root_manifest_fields_witness :
  exists w' kvs',
    renameProject ["app"] "shop" (World styled_workspace []) = (Ok tt, w')
    /\ Fs.lookup ["app"; "package.json"] (tree w') = Some (File (Json (JObject kvs')))
    /\ Obj.get "private" kvs' = Some (JBool true)
    /\ Obj.keys kvs' = ["name"; "private"].
Proof.
  pose (w := World styled_workspace []).
  pose (w' := snd (renameProject ["app"] "shop" w)).
  destruct (X4_root_manifest_fields ["app"] "shop" w w' _ eq_refl eq_refl)
    as (kvs' & L & Hk & Ho).
  exists w', kvs'. split; [reflexivity|]. split; [exact L|]. split.
  - rewrite (Hk "private"); [reflexivity | discriminate].
  - exact Ho.
Defined.

Section ManifestFields.

Variables old new : string.

Lemma keys_renameName (name : string) (data : list (string * json)) :
  Obj.get "name" data <> None ->
  Obj.keys (renameName old new name data) = Obj.keys data.
Proof.
  intros H. unfold renameName. destruct (startsWith name old); [|reflexivity].
  rewrite keys_set. now destruct (Obj.get "name" data).
Qed.

Lemma keys_updateDeps (field : string) (data : list (string * json)) :
  Obj.keys (updateDeps field old new data) = Obj.keys data.
Proof.
  unfold updateDeps. destruct (truthy _); [|reflexivity].
  destruct (Obj.get field data) as [[| | | | |deps]|] eqn:G; try reflexivity.
  rewrite keys_set. now rewrite G.
Qed.

Lemma keys_updateManifest (name : string) (data : list (string * json)) :
  Obj.get "name" data <> None ->
  Obj.keys (updateManifest old new name data) = Obj.keys data.
Proof.
  intros H. unfold updateManifest.
  now rewrite !keys_updateDeps, keys_renameName.
Qed.

End ManifestFields.

Lemma forM_keeps {A} (I : world -> Prop) (l : list A) (body : A -> M unit) :
  (forall y w w', I w -> body y w = (Ok tt, w') -> I w') ->
  forall w w', I w -> forM_ l body w = (Ok tt, w') -> I w'.
Proof.
  intros Hb. induction l as [|x l IH]; intros w w' HI E; cbn [forM_] in E.
  - now inv_ret E.
  - inv_bind E. destruct a. eapply IH; [|eassumption]. eapply Hb; eauto.
Qed.

Lemma updatePackage_kept (packagesDir : path) (old new newName pkg x : string)
  (kvs : list (string * json)) (w w' : world) :
  kept_fields packagesDir pkg kvs w ->
  updatePackage packagesDir old new newName x w = (Ok tt, w') ->
  kept_fields packagesDir pkg kvs w'.
Proof.
  intros (kvs' & name & [L G] & Hk & Hf) E.
  destruct (string_dec x pkg) as [->|Hne].
  - exists (updateManifest old new name kvs'), (renamed old new name).
    split; [split|split].
    + apply (updatePackage_self packagesDir old new newName pkg w w' kvs' name);
        [now split | assumption].
    + now apply get_updateManifest_name.
    + rewrite keys_updateManifest; [assumption|]. now rewrite G.
    + intros k H1 H2 H3. rewrite get_updateManifest_other by assumption. auto.
  - exists kvs', name. split; [split|split]; try assumption.
    change (manifestPath packagesDir pkg)
      with (packagesDir // pkg ++ ["package.json"])%list in L |- *.
    now apply (updatePackage_frame_other packagesDir old new newName x pkg
                 ["package.json"] _ (not_eq_sym Hne) w (Ok tt) w').
Qed.

(** X5: a run that succeeds changes of a package manifest nothing but
    [name], [dependencies] and [devDependencies]: every other field keeps its
    value, and the keys of the manifest keep their order. *)
Theorem X5_package_manifest_fields (rootDir : path) (newName pkg : string)
  (w w' : world) (kvs : list (string * json)) (name : string) :
  renameProject rootDir newName w = (Ok tt, w') ->
  manifest_at (rootDir // "packages") pkg (tree w) kvs name ->
  exists kvs',
    Fs.lookup (manifestPath (rootDir // "packages") pkg) (tree w')
    = Some (File (Json (JObject kvs')))
    /\ Obj.keys kvs' = Obj.keys kvs
    /\ forall k, k <> "name" -> k <> "dependencies" -> k <> "devDependencies" ->
                 Obj.get k kvs' = Obj.get k kvs.
Proof.
  intros E [L G].
  destruct (renameProject_ok _ _ _ _ E) as (scope & w0 & w2 & D & R0 & P & X).
  assert (K0 : kept_fields (rootDir // "packages") pkg kvs w0).
  { exists kvs, name. split; [split; [|assumption]|split; auto].
    now rewrite (manifest_after_root rootDir newName pkg w w0 _ R0). }
  assert (K2 : kept_fields (rootDir // "packages") pkg kvs w2).
  { apply updatePackages_ok in P as [[_ ->]|(es & _ & F)]; [assumption|].
    revert F. apply forM_keeps; [|assumption].
    intros y v v'. apply updatePackage_kept. }
  destruct K2 as (kvs' & name' & [L' _] & Hk & Hf).
  exists kvs'. split; [|split; assumption].
  now rewrite (manifest_after_extras rootDir newName pkg w2 w' _ X).
Qed.

Lemma X5_package_manifest_fields_witness :
  exists w' kvs',
    renameProject ["app"] "shop" (World Sample.workspace []) = (Ok tt, w')
    /\ Fs.lookup ["app"; "packages"; "api"; "package.json"] (tree w')
       = Some (File (Json (JObject kvs')))
    /\ Obj.keys kvs' = ["name"; "version"; "dependencies"]
    /\ Obj.get "version" kvs' = Some (JString "1.0.0").
Proof.
  pose (w := World Sample.workspace []).
  pose (w' := snd (renameProject ["app"] "shop" w)).
  destruct (X5_package_manifest_fields ["app"] "shop" "api" w w' _ "@old/api"
              eq_refl (conj eq_refl eq_refl)) as (kvs' & L & Hk & Hf).
  exists w', kvs'. split; [reflexivity|]. split; [exact L|]. split; [exact Hk|].
  rewrite (Hf "version"); [reflexivity | discriminate..].
Defined.

(** ** The documentation files *)

(** Lines 318-319 on the text of a documentation file. *)
Lemma updateExtraFile_run (newName : string) (file : path) (w : world)
  (c : content) :
  Fs.lookup file (tree w) = Some (File c) ->
  exists t',
    updateExtraFile newName file w
    = (Ok tt, World t' (trace w ++ [Wrote file])%list)
    /\ Fs.lookup file t'
       = Some (File (Text (replaceAll
                             (replaceAll (text_of c) displayName (titleCase newName))
                             boilerplate newName)))
    /\ forall p, (forall r, file <> (p ++ r)%list) ->
                 Fs.lookup p t' = Fs.lookup p (tree w).
Proof.
  intros L. unfold updateExtraFile.
  rewrite bind_eq, existsSync_run, L. rewrite bind_eq.
  unfold readFile. rewrite L. unfold writeFile.
  destruct (write_file_run file
              (Text (replaceAll (replaceAll (text_of c) displayName (titleCase newName))
                       boilerplate newName)) w) as (t' & P & E);
    [now exists c|].
  exists t'. split; [exact E|]. split.
  - now apply put_lookup_same in P.
  - intros p Hp. now apply (put_lookup_frame _ _ _ _ p P).
Qed.

Lemma updateExtraFile_skip (newName : string) (file : path) (w : world) :
  Fs.lookup file (tree w) = None -> updateExtraFile newName file w = (Ok tt, w).
Proof.
  intros L. unfold updateExtraFile. now rewrite bind_eq, existsSync_run, L.
Qed.

Lemma updateExtraFile_ok (newName : string) (file : path) (w w' : world) :
  updateExtraFile newName file w = (Ok tt, w') ->
  Fs.lookup file (tree w) = None \/ is_file file (tree w).
Proof.
  intros E. unfold updateExtraFile in E.
  inv_exists E L; [|now left]. right.
  inv_bind E. apply readFile_inv in Ea as [-> H].
  destruct (H _ eq_refl) as (c & Lc & _). rewrite L in Lc. injection Lc as ->.
  now exists c.
Qed.

(** What the last phase of a run does to the two files. *)
Lemma updateExtraFiles_run (rootDir : path) (newName : string) (w w' : world)
  (file : path) (c : content) :
  file = rootDir // "README.md"
  \/ file = rootDir // "packages" // "frontend" // "index.html" ->
  Fs.lookup file (tree w) = Some (File c) ->
  updateExtraFiles rootDir newName w = (Ok tt, w') ->
  Fs.lookup file (tree w')
  = Some (File (Text (replaceAll
                        (replaceAll (text_of c) displayName (titleCase newName))
                        boilerplate newName)))
  /\ exists ps, trace w' = (trace w ++ map Wrote ps)%list /\ In file ps.
Proof.
  intros Hf L E. unfold updateExtraFiles in E. cbn [forM_] in E.
  inv_bind E. destruct a. inv_bind Eb. destruct a. inv_ret Ebb.
  destruct Hf as [-> | ->].
  - destruct (updateExtraFile_run newName _ w c L) as (t1 & E1 & L1 & F1).
    rewrite E1 in Ea. injection Ea as <-.
    destruct (updateExtraFile_ok _ _ _ _ Eba) as [N|[c2 L2]].
    + rewrite (updateExtraFile_skip _ _ _ N) in Eba. injection Eba as <-.
      split; [exact L1|]. exists [rootDir // "README.md"]. split; [reflexivity|].
      now left.
    + destruct (updateExtraFile_run newName _ _ c2 L2) as (t2 & E2 & _ & F2).
      rewrite E2 in Eba. injection Eba as <-. cbn [tree trace]. split.
      * rewrite F2; [exact L1|]. intros r. path_neq.
      * exists [rootDir // "README.md";
                rootDir // "packages" // "frontend" // "index.html"].
        split; [now rewrite <- app_assoc | now left].
  - assert (Lw1 : Fs.lookup (rootDir // "packages" // "frontend" // "index.html")
                    (tree w1) = Some (File c)).
    { destruct (updateExtraFile_ok _ _ _ _ Ea) as [N|[c1 L1]].
      - rewrite (updateExtraFile_skip _ _ _ N) in Ea. now injection Ea as <-.
      - destruct (updateExtraFile_run newName _ _ c1 L1) as (t1 & E1 & _ & F1).
        rewrite E1 in Ea. injection Ea as <-. cbn [tree].
        rewrite F1; [exact L|]. intros r. path_neq. }
    destruct (updateExtraFile_run newName _ _ c Lw1) as (t2 & E2 & L2 & _).
    rewrite E2 in Eba. injection Eba as <-. cbn [tree trace].
    split; [exact L2|].
    destruct (updateExtraFile_ok _ _ _ _ Ea) as [N|[c1 L1]].
    + rewrite (updateExtraFile_skip _ _ _ N) in Ea. injection Ea as <-.
      exists [rootDir // "packages" // "frontend" // "index.html"].
      split; [reflexivity | now left].
    + destruct (updateExtraFile_run newName _ _ c1 L1) as (t1 & E1 & _ & _).
      rewrite E1 in Ea. injection Ea as <-. cbn [trace].
      exists [rootDir // "README.md";
              rootDir // "packages" // "frontend" // "index.html"].
      split; [now rewrite <- app_assoc | right; now left].
Qed.

(** X6: a run with a valid name that succeeds leaves in [README.md], and in
    [packages/frontend/index.html], the text the file had with every
    [Modern Fullstack Boilerplate] replaced by the title-cased new name and
    then every [modern-fullstack-boilerplate] by the new name; and the file is
    written by the run whether or not this changed anything. *)
Theorem X6_documentation_rewrite (rootDir : path) (newName : string)
  (w w' : world) (file : path) (c : content) :
  validName newName = true ->
  renameProject rootDir newName w = (Ok tt, w') ->
  file = rootDir // "README.md"
  \/ file = rootDir // "packages" // "frontend" // "index.html" ->
  Fs.lookup file (tree w) = Some (File c) ->
  Fs.lookup file (tree w')
  = Some (File (Text (replaceAll
                        (replaceAll (text_of c) displayName (titleCase newName))
                        boilerplate newName)))
  /\ exists writes, trace w' = (trace w ++ map Wrote writes)%list /\ In file writes.
Proof.
  intros Hv E Hf L.
  destruct (renameProject_ok _ _ _ _ E) as (scope & w0 & w2 & D & R0 & P & X).
  assert (L0 : Fs.lookup file (tree w0) = Some (File c)).
  { refine (updateRootManifest_frame rootDir newName file _ _ w _ w0 L R0).
    intros r. destruct Hf as [-> | ->]; path_neq. }
  assert (L2 : Fs.lookup file (tree w2) = Some (File c)).
  { refine (updatePackages_frame rootDir newName _ _ file _ _ _ w0 _ w2 L0 P).
    - intros pkg r. destruct Hf as [-> | ->]; path_neq.
    - intros pkg r r'. destruct Hf as [-> | ->]; path_neq. }
  destruct (updateExtraFiles_run rootDir newName w2 w' file c Hf L2 X)
    as (L' & ps & T & Hin).
  split; [exact L'|].
  assert (T2 : exists ps2, trace w2 = (trace w ++ map Wrote ps2)%list).
  { assert (T0 : exists ps0, trace w0 = (trace w ++ map Wrote ps0)%list
                             /\ Forall (footprint rootDir) ps0).
    { refine (updateRootManifest_preserves rootDir (footprint rootDir) _
                (stable_trace _ _) newName _ w _ w0 _ R0).
      - now left.
      - exists []. split; [now rewrite app_nil_r | constructor]. }
    assert (T2 : exists ps2, trace w2 = (trace w ++ map Wrote ps2)%list
                             /\ Forall (footprint rootDir) ps2).
    { refine (updatePackages_preserves (footprint rootDir) _ (stable_trace _ _)
                _ _ _ _ _ _ w0 _ w2 T0 P).
      - intros pkg. right; left. now exists pkg.
      - intros pkg r. right; right; left. now exists pkg, r. }
    destruct T2 as (ps2 & T2 & _). now exists ps2. }
  destruct T2 as (ps2 & T2). exists (ps2 ++ ps)%list. split.
  - now rewrite T, T2, map_app, app_assoc.
  - apply in_or_app. now right.
Qed.

Lemma X6_documentation_rewrite_witness :
  exists w',
    renameProject ["app"] "my-shop" (World Sample.workspace []) = (Ok tt, w')
    /\ Fs.lookup ["app"; "README.md"] (tree w') = Some (File (Text "# My Shop"))
    /\ In (Wrote ["app"; "README.md"]) (trace w').
Proof.
  pose (w := World Sample.workspace []).
  pose (w' := snd (renameProject ["app"] "my-shop" w)).
  destruct (X6_documentation_rewrite ["app"] "my-shop" w w' ["app"; "README.md"] _
              eq_refl eq_refl (or_introl eq_refl) eq_refl) as (L & ps & T & Hin).
  exists w'. split; [reflexivity|]. split; [exact L|].
  rewrite T. apply in_or_app. right. now apply in_map.
Defined.

(** ** The scope in use *)

(** X7: the scope that detection returns is [@repo] or what stands before
    the first [/] in the name of some package manifest; either way it begins
    with [@] and has no [/], and detection leaves the world as it was. *)
Theorem X7_detected_scope_origin (packagesDir : path) (w w' : world)
  (scope : string) :
  detectCurrentScope packagesDir w = (Ok scope, w') ->
  w' = w
  /\ startsWith scope "@" = true
  /\ includes scope "/" = false
  /\ (scope = fallbackScope
      \/ exists pkg kvs rest,
           manifest_at packagesDir pkg (tree w) kvs (scope ++ "/" ++ rest)).
Proof.
  intros E. pose proof (detectCurrentScope_state _ _ _ _ E) as ->.
  destruct (detectCurrentScope_token _ _ _ _ E) as [H1 H2].
  repeat split; try assumption.
  unfold detectCurrentScope in E.
  inv_exists E L; [|inv_ret E; now left].
  inv_bind E. apply readdir_state in Ea as ->.
  destruct (detectScope_cases _ _ _ _ _ Eb)
    as [(pre & pkg & post & kvs & name & _ & _ & M & S & Hs)|[_ ->]]; [|now left].
  right. apply andb_true_iff in S as [_ S2].
  destruct (includes_slash_split _ S2) as (sc & r & -> & Ha).
  rewrite (split_slash_head sc r Ha) in Hs. subst sc.
  now exists pkg, kvs, r.
Qed.

Lemma X7_detected_scope_origin_witness :
  startsWith "@old" "@" = true
  /\ includes "@old" "/" = false
  /\ ("@old" = fallbackScope
      \/ exists pkg kvs rest,
           manifest_at ["app"; "packages"] pkg Sample.workspace kvs
             ("@old" ++ "/" ++ rest)).
Proof.
  exact (proj2 (X7_detected_scope_origin ["app"; "packages"]
                  (World Sample.workspace []) (World Sample.workspace []) "@old"
                  eq_refl)).
Defined.

(** ** The display name *)

Lemma includes_char (c : ascii) (s : string) :
  includes s (String c "")
  = existsb (fun a => Ascii.eqb a c) (list_ascii_of_string s).
Proof.
  induction s as [|a s IH]; [reflexivity|].
  cbn [includes startsWith list_ascii_of_string existsb].
  now rewrite IH, andb_true_r.
Qed.

Lemma includes_char_app (c : ascii) (s r : string) :
  includes (s ++ r) (String c "")
  = includes s (String c "") || includes r (String c "").
Proof.
  induction s as [|a s IH]; [reflexivity|].
  cbn [append includes startsWith]. rewrite IH, !andb_true_r.
  now rewrite orb_assoc.
Qed.

Lemma toUpperCase_not_hyphen (a : ascii) :
  Ascii.eqb a "-"%char = false -> Ascii.eqb (toUpperCase a) "-"%char = false.
Proof.
  destruct a as [[] [] [] [] [] [] [] []]; vm_compute; congruence.
Qed.

Lemma capitalize_length (p : string) :
  String.length (capitalize p) = String.length p.
Proof. now destruct p. Qed.

Lemma capitalize_no_hyphen (p : string) :
  includes p "-" = false -> includes (capitalize p) "-" = false.
Proof.
  destruct p as [|a p]; [reflexivity|]. cbn [capitalize includes startsWith].
  rewrite !andb_true_r. intros H. apply orb_false_iff in H as [H1 H2].
  now rewrite (toUpperCase_not_hyphen _ H1), H2.
Qed.

Lemma length_append (s r : string) :
  String.length (s ++ r) = String.length s + String.length r.
Proof. induction s; simpl; auto. Qed.

(** Joining with one character or with another gives the same length. *)
Lemma join_length (l l' : list string) (c c' : ascii) :
  Forall2 (fun p p' => String.length p = String.length p') l l' ->
  String.length (join l (String c "")) = String.length (join l' (String c' "")).
Proof.
  unfold join. induction 1 as [|p p' l l' Hp Hl IH]; [reflexivity|].
  destruct Hl as [|q q' l l' Hq Hl]; [exact Hp|].
  change (String.length (p ++ String c "" ++ String.concat (String c "") (q :: l))
          = String.length (p' ++ String c' "" ++ String.concat (String c' "") (q' :: l'))).
  rewrite !length_append, IH, Hp. reflexivity.
Qed.

Lemma join_no_hyphen (l : list string) :
  Forall (fun p => includes p "-" = false) l -> includes (join l " ") "-" = false.
Proof.
  unfold join. induction 1 as [|p l Hp Hl IH]; [reflexivity|].
  destruct l as [|q l]; [exact Hp|].
  change (includes (p ++ " " ++ String.concat " " (q :: l)) "-" = false).
  now rewrite !includes_char_app, Hp, IH.
Qed.

Lemma split_absent (s tok : string) :
  includes s tok = false -> split s tok = [s].
Proof.
  intros H. pose proof (includes_nonempty _ _ H) as Hne.
  unfold split. destruct tok as [|b tok]; [congruence|].
  induction s as [|a s IH]; [reflexivity|].
  rewrite split_from_nomatch by now apply includes_startsWith.
  rewrite IH by now apply includes_tail in H. reflexivity.
Qed.

(** X8: of a valid name, the display name that the documentation rewrite
    computes, [newName.split("-").map(capitalize).join(" ")], is as long as
    the name and has no hyphen left; of a valid name without a hyphen it is
    the name with its first character upper-cased. *)
Theorem X8_titleCase_shape (newName : string) :
  validName newName = true ->
  String.length (titleCase newName) = String.length newName
  /\ includes (titleCase newName) "-" = false
  /\ (includes newName "-" = false -> titleCase newName = capitalize newName).
Proof.
  intros Hv. unfold titleCase. split; [|split].
  - rewrite <- (join_split_same newName "-") at 2 by discriminate.
    apply join_length.
    induction (split newName "-") as [|p l IH]; constructor; [|assumption].
    apply capitalize_length.
  - apply join_no_hyphen. apply Forall_map.
    eapply Forall_impl; [|apply (split_pieces newName "-"); discriminate].
    intros p. apply capitalize_no_hyphen.
  - intros H. now rewrite (split_absent _ _ H).
Qed.

Lemma X8_titleCase_shape_witness :
  String.length (titleCase "my-shop") = 7
  /\ includes (titleCase "my-shop") "-" = false
  /\ titleCase "shop" = "Shop".
Proof.
  split; [exact (proj1 (X8_titleCase_shape "my-shop" eq_refl))|].
  split; [exact (proj1 (proj2 (X8_titleCase_shape "my-shop" eq_refl)))|].
  exact (proj2 (proj2 (X8_titleCase_shape "shop" eq_refl)) eq_refl).
Defined.

(** ** The [rename] command: what it checks first *)

(** X9: when nothing exists at the resolved target, or the new name does
    not match [^[a-z0-9-_]+$], the [rename] command prints one line and exits
    with status 1: [renameProject] is not run and the tree is as it was. *)
Theorem X9_rename_rejects_before_writing (cwd : path) (projectPath : pathArg)
  (newName : string) (w : world) :
  Fs.lookup (resolve cwd projectPath) (tree w) = None
  \/ validName newName = false ->
  exists msg,
    renameCommand cwd projectPath newName w
    = (Ok (Exited 1), World (tree w) (trace w ++ [ConsoleLog msg])%list).
Proof.
  intros H. unfold renameCommand. rewrite bind_eq, existsSync_run.
  destruct (Fs.lookup (resolve cwd projectPath) (tree w)) as [n|] eqn:L.
  - destruct H as [H|H]; [discriminate|]. rewrite H. cbn [negb].
    eexists. reflexivity.
  - cbn [negb]. eexists. reflexivity.
Qed.

Lemma X9_rename_rejects_before_writing_witness :
  (exists msg,
      renameCommand ["home"] (PathArg false ["app"]) "shop" (World Sample.workspace [])
      = (Ok (Exited 1), World Sample.workspace [ConsoleLog msg]))
  /\ (exists msg,
        renameCommand ["home"] (PathArg true ["app"]) "My Shop"
          (World Sample.workspace [])
        = (Ok (Exited 1), World Sample.workspace [ConsoleLog msg])).
Proof.
  split.
  - exact (X9_rename_rejects_before_writing ["home"] (PathArg false ["app"]) "shop"
             (World Sample.workspace []) (or_introl eq_refl)).
  - exact (X9_rename_rejects_before_writing ["home"] (PathArg true ["app"]) "My Shop"
             (World Sample.workspace []) (or_intror eq_refl)).
Defined.

(** ** The [rename] command: how it ends *)

Section Command.

Variable cwd : path.
Variable projectPath : pathArg.
Variable newName : string.
Variable w : world.

Let targetDir : path := resolve cwd projectPath.
Let started : world :=
  reported w (SpinnerStart ("Renaming project at " ++ show targetDir ++ " to "
                            ++ newName ++ "...")).

Hypothesis target_exists : Fs.lookup targetDir (tree w) <> None.
Hypothesis name_valid : validName newName = true.

(** Past the two checks the command is the [try] block and its handler. *)
Lemma renameCommand_body :
  renameCommand cwd projectPath newName w
  = match renameAndMove cwd targetDir newName started with
    | (Ok _, w') => (Ok Returned, w')
    | (Throw e, w') =>
        (Ok Returned, reported (reported w' (SpinnerFail failedMsg)) (ConsoleError e))
    end.
Proof.
  unfold renameCommand. fold targetDir.
  rewrite bind_eq, existsSync_run.
  destruct (Fs.lookup targetDir (tree w)) as [n|]; [|contradiction].
  cbn [negb]. rewrite name_valid. cbn [negb].
  rewrite bind_eq. unfold emit at 1. rewrite bind_eq. unfold try_catch.
  unfold started, reported.
  destruct (renameAndMove cwd targetDir newName _) as [[[]|e] w']; reflexivity.
Qed.

(** The ways the [try] block can go. *)
Lemma renameAndMove_cases (r : outcome unit) (w' : world) :
  renameAndMove cwd targetDir newName started = (r, w') ->
  (exists e, r = Throw e
             /\ renameProject targetDir newName started = (Throw e, w'))
  \/ (exists w1 e,
        r = Throw e
        /\ renameProject targetDir newName started = (Ok tt, w1)
        /\ renameProject targetDir newName (reported w1 (SpinnerSucceed renamedMsg))
           = (Throw e, w'))
  \/ (exists w1 w2,
        renameProject targetDir newName started = (Ok tt, w1)
        /\ renameProject targetDir newName (reported w1 (SpinnerSucceed renamedMsg))
           = (Ok tt, w2)
        /\ moveFolder cwd targetDir newName (reported w2 (SpinnerSucceed renamedMsg))
           = (r, w')).
Proof.
  intros E. unfold renameAndMove in E.
  inv_bind E; [|left; eauto]. destruct a.
  rewrite bind_eq in Eb. unfold emit at 1 in Eb.
  fold (reported w1 (SpinnerSucceed renamedMsg)) in Eb.
  inv_bind Eb; [|right; left; eauto]. destruct a.
  rewrite bind_eq in Ebb. unfold emit at 1 in Ebb.
  fold (reported w0 (SpinnerSucceed renamedMsg)) in Ebb.
  right; right. eauto.
Qed.

End Command.

Lemma alter_total (x : string) (f : node -> option node) (fresh : option node)
  (es : list (string * node)) (m m' : node) :
  Fs.assoc x es = Some m -> f m = Some m' ->
  exists es', Fs.alter x f fresh es = Some es'.
Proof.
  induction es as [|[y k] r IH]; simpl; [discriminate|].
  destruct (String.eqb x y).
  - intros [= ->] ->. simpl. eauto.
  - intros A Hf. destruct (IH A Hf) as [es' ->]. simpl. eauto.
Qed.

(** Changing the listing of the directory at [p]. *)
Lemma update_dir_run (p : path) (f : list (string * node) -> list (string * node))
  (t : node) (es : list (string * node)) :
  Fs.lookup p t = Some (Dir es) ->
  exists t', Fs.update_dir p f t = Some t'
             /\ Fs.lookup p t' = Some (Dir (f es)).
Proof.
  revert t; induction p as [|x p IH]; intros t L; simpl in L.
  - injection L as ->. simpl. eauto.
  - destruct t as [c|es0]; [discriminate|].
    destruct (Fs.assoc x es0) as [m|] eqn:A; [|discriminate].
    destruct (IH m L) as (m' & U & L').
    destruct (alter_total x (Fs.update_dir p f) None es0 m m' A U) as [es0' E].
    exists (Dir es0'). cbn [Fs.update_dir]. rewrite E. split; [reflexivity|].
    destruct (alter_assoc_same _ _ _ _ _ E) as (m2 & A2 & H2).
    rewrite A in H2. rewrite U in H2. injection H2 as <-.
    cbn [Fs.lookup]. now rewrite A2.
Qed.

Lemma assoc_remove_same (x : string) (es : list (string * node)) :
  Fs.assoc x (Fs.remove x es) = None.
Proof.
  unfold Fs.remove. induction es as [|[y m] r IH]; [reflexivity|]. simpl.
  destruct (String.eqb x y) eqn:E; simpl; [assumption|]. now rewrite E.
Qed.

Lemma assoc_remove_other (x y : string) (es : list (string * node)) :
  y <> x -> Fs.assoc y (Fs.remove x es) = Fs.assoc y es.
Proof.
  intros Hne. unfold Fs.remove. induction es as [|[z m] r IH]; [reflexivity|].
  simpl. destruct (String.eqb_spec x z) as [->|Hxz]; simpl.
  - apply String.eqb_neq in Hne. now rewrite Hne.
  - now rewrite IH.
Qed.

Lemma assoc_app (x : string) (es es' : list (string * node)) :
  Fs.assoc x (es ++ es')%list
  = match Fs.assoc x es with Some m => Some m | None => Fs.assoc x es' end.
Proof.
  induction es as [|[y m] r IH]; [reflexivity|]. simpl.
  now destruct (String.eqb x y).
Qed.

Lemma fsRename_run (from to : path) (w : world) (n : node) :
  from <> [] ->
  Fs.lookup from (tree w) = Some n ->
  Fs.lookup to (tree w) = None ->
  fsRename from to w
  = match Fs.update_dir (dirname from) (Fs.remove (last from "")) (tree w) with
    | Some t1 =>
        match Fs.update_dir (dirname to)
                (fun es => (es ++ [(last to "", n)])%list) t1 with
        | Some t2 => (Ok tt, World t2 (trace w ++ [Moved from to])%list)
        | None => (Throw ENOENT, w)
        end
    | None => (Throw ENOENT, w)
    end.
Proof.
  intros Hne Lf Lt. unfold fsRename.
  destruct from; [congruence|]. now rewrite Lf, Lt.
Qed.

(** [fs.rename] of an entry to a free name in the same directory. *)
Lemma fsRename_sibling (dir : path) (x y : string) (w : world) (n : node) :
  Fs.lookup (dir // x) (tree w) = Some n ->
  Fs.lookup (dir // y) (tree w) = None ->
  exists t',
    fsRename (dir // x) (dir // y) w
    = (Ok tt, World t' (trace w ++ [Moved (dir // x) (dir // y)])%list)
    /\ Fs.lookup (dir // y) t' = Some n
    /\ Fs.lookup (dir // x) t' = None.
Proof.
  intros Lx Ly.
  assert (Hxy : x <> y) by (intros ->; congruence).
  destruct (parent_is_dir _ _ _ _ Lx) as [es D].
  pose proof Lx as Ax. pose proof Ly as Ay. rewrite lookup_sub, D in Ax, Ay.
  assert (Hd : forall z, dirname (dir // z) = dir)
    by (intros z; unfold dirname, sub; apply removelast_last).
  assert (Hl : forall z, last (dir // z) "" = z)
    by (intros z; unfold sub; apply last_last).
  destruct (update_dir_run dir (Fs.remove x) (tree w) es D) as (t1 & U1 & L1).
  destruct (update_dir_run dir (fun l => (l ++ [(y, n)])%list) t1 _ L1)
    as (t2 & U2 & L2).
  exists t2. split; [|split].
  - rewrite (fsRename_run _ _ _ n); try assumption.
    + now rewrite !Hd, !Hl, U1, U2.
    + unfold sub. now destruct dir.
  - rewrite lookup_sub, L2, assoc_app, assoc_remove_other, Ay by congruence.
    simpl. now rewrite String.eqb_refl.
  - rewrite lookup_sub, L2, assoc_app, assoc_remove_same. simpl.
    apply String.eqb_neq in Hxy. now rewrite Hxy.
Qed.

Lemma reported_shape (v : world) (e : event) (t : node) :
  same_shape (tree v) t -> same_shape (tree (reported v e)) t.
Proof. exact (fun H => H). Qed.

Lemma renameProject_keeps_shape (rootDir : path) (newName : string) (t : node)
  (v v' : world) (r : outcome unit) :
  same_shape (tree v) t ->
  renameProject rootDir newName v = (r, v') ->
  same_shape (tree v') t.
Proof.
  intros H E.
  exact (renameProject_preserves rootDir (fun u => same_shape (tree u) t) newName
           (stable_shape _ t) v r v' H E).
Qed.

(** The folder stays where it is when the command runs inside it, or when
    the new name is taken. *)
Lemma moveFolder_stays (cwd targetDir : path) (newName : string) (v : world) :
  targetDir = cwd \/ Fs.lookup (dirname targetDir // newName) (tree v) <> None ->
  exists msg, moveFolder cwd targetDir newName v = (Ok tt, reported v (ConsoleLog msg)).
Proof.
  intros H. unfold moveFolder, path_eqb.
  destruct (list_eq_dec string_dec targetDir cwd) as [->|Hne]; cbn [negb].
  - eexists. reflexivity.
  - destruct H as [H|H]; [contradiction|].
    rewrite bind_eq, existsSync_run.
    destruct (Fs.lookup (dirname targetDir // newName) (tree v)); [|contradiction].
    eexists. reflexivity.
Qed.

Section CommandEnds.

Variable cwd : path.
Variable projectPath : pathArg.
Variable newName : string.
Variable w : world.

Let targetDir : path := resolve cwd projectPath.
Let started : world :=
  reported w (SpinnerStart ("Renaming project at " ++ show targetDir ++ " to "
                            ++ newName ++ "...")).

Hypothesis target_exists : Fs.lookup targetDir (tree w) <> None.
Hypothesis name_valid : validName newName = true.

Lemma renameCommand_returns :
  exists w', renameCommand cwd projectPath newName w = (Ok Returned, w').
Proof.
  rewrite (renameCommand_body cwd projectPath newName w target_exists name_valid).
  destruct (renameAndMove _ _ _ _) as [[[]|e] w']; eauto.
Qed.

Lemma renameCommand_first_fails (e : error) (w1 : world) :
  renameProject targetDir newName started = (Throw e, w1) ->
  renameCommand cwd projectPath newName w
  = (Ok Returned, reported (reported w1 (SpinnerFail failedMsg)) (ConsoleError e)).
Proof.
  intros E.
  rewrite (renameCommand_body cwd projectPath newName w target_exists name_valid).
  fold targetDir. fold started. unfold renameAndMove. now rewrite bind_eq, E.
Qed.

Lemma renameCommand_second_fails (e : error) (w1 w2 : world) :
  renameProject targetDir newName started = (Ok tt, w1) ->
  renameProject targetDir newName (reported w1 (SpinnerSucceed renamedMsg))
  = (Throw e, w2) ->
  renameCommand cwd projectPath newName w
  = (Ok Returned, reported (reported w2 (SpinnerFail failedMsg)) (ConsoleError e)).
Proof.
  intros E1 E2.
  rewrite (renameCommand_body cwd projectPath newName w target_exists name_valid).
  fold targetDir. fold started. unfold renameAndMove. rewrite bind_eq, E1.
  rewrite bind_eq. unfold emit at 1. rewrite bind_eq.
  fold (reported w1 (SpinnerSucceed renamedMsg)). now rewrite E2.
Qed.

Lemma renameCommand_both_succeed (w1 w2 : world) :
  renameProject targetDir newName started = (Ok tt, w1) ->
  renameProject targetDir newName (reported w1 (SpinnerSucceed renamedMsg))
  = (Ok tt, w2) ->
  renameCommand cwd projectPath newName w
  = match moveFolder cwd targetDir newName
            (reported w2 (SpinnerSucceed renamedMsg)) with
    | (Ok _, w3) => (Ok Returned, w3)
    | (Throw e, w3) =>
        (Ok Returned, reported (reported w3 (SpinnerFail failedMsg)) (ConsoleError e))
    end.
Proof.
  intros E1 E2.
  rewrite (renameCommand_body cwd projectPath newName w target_exists name_valid).
  fold targetDir. fold started. unfold renameAndMove. rewrite bind_eq, E1.
  rewrite bind_eq. unfold emit at 1. rewrite bind_eq.
  fold (reported w1 (SpinnerSucceed renamedMsg)). rewrite E2.
  rewrite bind_eq. unfold emit at 1. reflexivity.
Qed.

(** When the folder cannot be moved, the command leaves every file and
    directory where it was. *)
Lemma renameCommand_stays :
  targetDir = cwd \/ Fs.lookup (dirname targetDir // newName) (tree w) <> None ->
  exists w',
    renameCommand cwd projectPath newName w = (Ok Returned, w')
    /\ same_shape (tree w') (tree w)
    /\ forall w1 w2,
         renameProject targetDir newName started = (Ok tt, w1) ->
         renameProject targetDir newName (reported w1 (SpinnerSucceed renamedMsg))
         = (Ok tt, w2) ->
         exists msg,
           moveFolder cwd targetDir newName (reported w2 (SpinnerSucceed renamedMsg))
           = (Ok tt, w')
           /\ w' = reported (reported w2 (SpinnerSucceed renamedMsg)) (ConsoleLog msg).
Proof.
  intros H.
  assert (S0 : same_shape (tree started) (tree w))
    by (apply sim_refl; intros c; exact I).
  destruct (renameProject targetDir newName started) as [[[]|e1] w1] eqn:E1.
  - pose proof (renameProject_keeps_shape _ _ _ _ _ _ S0 E1) as S1.
    destruct (renameProject targetDir newName (reported w1 (SpinnerSucceed renamedMsg)))
      as [[[]|e2] w2] eqn:E2.
    + pose proof (renameProject_keeps_shape _ _ _ _ _ _ (reported_shape _ _ _ S1) E2)
        as S2.
      destruct (moveFolder_stays cwd targetDir newName
                  (reported w2 (SpinnerSucceed renamedMsg))) as [msg Em].
      { destruct H as [H|H]; [now left | right]. cbn [reported tree].
        intros N. apply H.
        destruct (Fs.lookup (dirname targetDir // newName) (tree w)) eqn:L;
          [|reflexivity].
        pose proof (sim_lookup any_content _ _ (dirname targetDir // newName) S2) as Q.
        rewrite N, L in Q. contradiction. }
      eexists. split; [|split].
      * rewrite (renameCommand_both_succeed _ _ E1 E2), Em. reflexivity.
      * exact S2.
      * intros v1 v2 [= <-] F2. rewrite E2 in F2. injection F2 as <-.
        exists msg. split; [exact Em | reflexivity].
    + eexists. split; [|split].
      * apply (renameCommand_second_fails _ _ _ E1 E2).
      * exact (renameProject_keeps_shape _ _ _ _ _ _ (reported_shape _ _ _ S1) E2).
      * intros v1 v2 [= <-] F2. rewrite E2 in F2. discriminate.
  - eexists. split; [|split].
    + apply (renameCommand_first_fails _ _ E1).
    + exact (renameProject_keeps_shape _ _ _ _ _ _ S0 E1).
    + intros v1 v2 F1. discriminate.
Qed.

End CommandEnds.

(** X10: once the target exists and the name is valid, the [rename] command
    never exits with an error status and never throws: a failure of
    [renameProject] is caught.  When the first run throws, the second is not
    attempted and the folder is not moved; the command reports the failure and
    the error, and returns, leaving the files as the failed run left them.
    Likewise when the second run throws. *)
Theorem X10_rename_failure_is_caught (cwd : path) (projectPath : pathArg)
  (newName : string) (w : world) :
  let targetDir := resolve cwd projectPath in
  let started :=
    reported w (SpinnerStart ("Renaming project at " ++ show targetDir ++ " to "
                              ++ newName ++ "...")) in
  Fs.lookup targetDir (tree w) <> None ->
  validName newName = true ->
  (exists w', renameCommand cwd projectPath newName w = (Ok Returned, w'))
  /\ (forall e w1,
        renameProject targetDir newName started = (Throw e, w1) ->
        renameCommand cwd projectPath newName w
        = (Ok Returned,
           reported (reported w1 (SpinnerFail failedMsg)) (ConsoleError e)))
  /\ (forall e w1 w2,
        renameProject targetDir newName started = (Ok tt, w1) ->
        renameProject targetDir newName (reported w1 (SpinnerSucceed renamedMsg))
        = (Throw e, w2) ->
        renameCommand cwd projectPath newName w
        = (Ok Returned,
           reported (reported w2 (SpinnerFail failedMsg)) (ConsoleError e))).
Proof.
  intros targetDir started L Hv. split; [|split].
  - now apply renameCommand_returns.
  - intros e w1. now apply renameCommand_first_fails.
  - intros e w1 w2. now apply renameCommand_second_fails.
Qed.

Lemma X10_rename_failure_is_caught_witness :
  exists w',
    renameCommand ["home"] (PathArg true ["app"]) "shop"
      (World (Sample.workspace_with nameless) [])
    = (Ok Returned, w')
    /\ trace w'
       = [SpinnerStart "Renaming project at /app to shop...";
          Wrote ["app"; "package.json"];
          Wrote ["app"; "packages"; "ui"; "package.json"];
          SpinnerFail "Failed to rename project.";
          ConsoleError TypeError]
    /\ Fs.lookup ["shop"] (tree w') = None.
Proof.
  pose (w := World (Sample.workspace_with nameless) []).
  pose (started := reported w (SpinnerStart "Renaming project at /app to shop...")).
  pose (w1 := snd (renameProject ["app"] "shop" started)).
  assert (L : Fs.lookup (resolve ["home"] (PathArg true ["app"])) (tree w) <> None)
    by discriminate.
  destruct (X10_rename_failure_is_caught ["home"] (PathArg true ["app"]) "shop" w
              L eq_refl) as (_ & H & _).
  eexists. split; [exact (H TypeError w1 eq_refl)|].
  split; reflexivity.
Defined.

(** X11: run from inside the target ([path.resolve(targetDir)] is the
    working directory), the [rename] command moves nothing: it returns with
    every file and directory where it was, the target included, and when both
    runs of [renameProject] succeed the last thing it does is print the note
    that the folder name was not changed. *)
Theorem X11_rename_inside_target (cwd : path) (projectPath : pathArg)
  (newName : string) (w : world) :
  let targetDir := resolve cwd projectPath in
  let started :=
    reported w (SpinnerStart ("Renaming project at " ++ show targetDir ++ " to "
                              ++ newName ++ "...")) in
  targetDir = cwd ->
  Fs.lookup targetDir (tree w) <> None ->
  validName newName = true ->
  exists w',
    renameCommand cwd projectPath newName w = (Ok Returned, w')
    /\ same_shape (tree w') (tree w)
    /\ Fs.lookup targetDir (tree w') <> None
    /\ forall w1 w2,
         renameProject targetDir newName started = (Ok tt, w1) ->
         renameProject targetDir newName (reported w1 (SpinnerSucceed renamedMsg))
         = (Ok tt, w2) ->
         w' = reported (reported w2 (SpinnerSucceed renamedMsg))
                (ConsoleLog "Note: The folder name itself was not changed because you are currently inside it.").
Proof.
  intros targetDir started Hc L Hv.
  destruct (renameCommand_stays cwd projectPath newName w L Hv (or_introl Hc))
    as (w' & E & S & Hm).
  exists w'. split; [exact E|]. split; [exact S|]. split.
  - intros N. apply L. fold targetDir.
    pose proof (sim_lookup any_content _ _ targetDir S) as Q. rewrite N in Q.
    destruct (Fs.lookup targetDir (tree w)); [contradiction|reflexivity].
  - intros w1 w2 E1 E2. destruct (Hm w1 w2 E1 E2) as (msg & Em & _).
    fold targetDir in Em. unfold moveFolder, path_eqb in Em.
    destruct (list_eq_dec string_dec targetDir cwd); [|contradiction].
    cbn [negb] in Em. now injection Em as <-.
Qed.

Lemma X11_rename_inside_target_witness :
  exists w',
    renameCommand ["app"] (PathArg false ["."]) "shop" (World Sample.workspace [])
    = (Ok Returned, w')
    /\ Fs.lookup ["app"] (tree w') <> None
    /\ Fs.lookup ["shop"] (tree w') = None
    /\ last (trace w') (ConsoleLog "")
       = ConsoleLog "Note: The folder name itself was not changed because you are currently inside it.".
Proof.
  pose (w := World Sample.workspace []).
  assert (L : Fs.lookup (resolve ["app"] (PathArg false ["."])) (tree w) <> None)
    by discriminate.
  destruct (X11_rename_inside_target ["app"] (PathArg false ["."]) "shop" w
              eq_refl L eq_refl) as (w' & E & S & Lt & Hm).
  exists w'. split; [exact E|]. split; [exact Lt|]. split.
  - apply (same_shape_absent _ _ _ S). reflexivity.
  - pose (started := reported w (SpinnerStart "Renaming project at /app to shop...")).
    pose (w1 := snd (renameProject ["app"] "shop" started)).
    pose (w2 := snd (renameProject ["app"] "shop"
                       (reported w1 (SpinnerSucceed renamedMsg)))).
    rewrite (Hm w1 w2 eq_refl eq_refl). cbn [reported trace]. apply last_last.
Defined.

(** X12: when something already exists beside the target under the new
    name, the [rename] command moves nothing: it returns with every file and
    directory where it was, and when both runs of [renameProject] succeed
    (their rewriting is kept) the last thing it does is print the warning that
    the folder cannot be renamed. *)
Theorem X12_rename_name_taken (cwd : path) (projectPath : pathArg)
  (newName : string) (w : world) :
  let targetDir := resolve cwd projectPath in
  let started :=
    reported w (SpinnerStart ("Renaming project at " ++ show targetDir ++ " to "
                              ++ newName ++ "...")) in
  targetDir <> cwd ->
  Fs.lookup targetDir (tree w) <> None ->
  Fs.lookup (dirname targetDir // newName) (tree w) <> None ->
  validName newName = true ->
  exists w',
    renameCommand cwd projectPath newName w = (Ok Returned, w')
    /\ same_shape (tree w') (tree w)
    /\ forall w1 w2,
         renameProject targetDir newName started = (Ok tt, w1) ->
         renameProject targetDir newName (reported w1 (SpinnerSucceed renamedMsg))
         = (Ok tt, w2) ->
         w' = reported (reported w2 (SpinnerSucceed renamedMsg))
                (ConsoleLog ("Cannot rename folder: Directory " ++ newName
                             ++ " already exists.")).
Proof.
  intros targetDir started Hc L Ls Hv.
  destruct (renameCommand_stays cwd projectPath newName w L Hv (or_intror Ls))
    as (w' & E & S & Hm).
  exists w'. split; [exact E|]. split; [exact S|].
  intros w1 w2 E1 E2. destruct (Hm w1 w2 E1 E2) as (msg & Em & Ew).
  fold targetDir in Em. unfold moveFolder, path_eqb in Em.
  destruct (list_eq_dec string_dec targetDir cwd); [contradiction|].
  cbn [negb] in Em. rewrite bind_eq, existsSync_run in Em.
  destruct (Fs.lookup (dirname targetDir // newName)
              (tree (reported w2 (SpinnerSucceed renamedMsg)))) eqn:N.
  - unfold emit in Em. now injection Em as <-.
  - exfalso. apply Ls. fold targetDir.
    rewrite Ew in S. cbn [reported tree] in S, N.
    pose proof (sim_lookup any_content _ _ (dirname targetDir // newName) S) as Q.
    rewrite N in Q.
    destruct (Fs.lookup (dirname targetDir // newName) (tree w));
      [contradiction|reflexivity].
Qed.

Lemma X12_rename_name_taken_witness :
  exists w',
    renameCommand ["home"] (PathArg true ["app"]) "shop" (World two_projects [])
    = (Ok Returned, w')
    /\ Fs.lookup ["app"; "README.md"] (tree w') = Some (File (Text "# shop"))
    /\ Fs.lookup ["shop"] (tree w') = Some (Dir [])
    /\ last (trace w') (ConsoleLog "")
       = ConsoleLog "Cannot rename folder: Directory shop already exists.".
Proof.
  pose (w := World two_projects []).
  assert (Hc : resolve ["home"] (PathArg true ["app"]) <> ["home"]) by discriminate.
  assert (L : Fs.lookup (resolve ["home"] (PathArg true ["app"])) (tree w) <> None)
    by discriminate.
  assert (Ls : Fs.lookup (dirname (resolve ["home"] (PathArg true ["app"])) // "shop")
                 (tree w) <> None) by discriminate.
  destruct (X12_rename_name_taken ["home"] (PathArg true ["app"]) "shop" w
              Hc L Ls eq_refl) as (w' & E & S & Hm).
  pose (started := reported w (SpinnerStart "Renaming project at /app to shop...")).
  pose (w1 := snd (renameProject ["app"] "shop" started)).
  pose (w2 := snd (renameProject ["app"] "shop"
                     (reported w1 (SpinnerSucceed renamedMsg)))).
  exists w'. split; [exact E|].
  rewrite (Hm w1 w2 eq_refl eq_refl). cbn [reported trace tree].
  split; [reflexivity|]. split; [reflexivity|]. apply last_last.
Defined.

(** X13: when the target is not the working directory itself (it may
    contain it) and nothing exists beside it under the new name, the [rename]
    command, after two runs of [renameProject] that succeed, moves the folder:
    the project, as the second run left it, stands beside its old place under
    the new name, nothing is left at the old path, and the command reports the
    move and returns. *)
Theorem X13_rename_moves_folder (cwd : path) (projectPath : pathArg)
  (newName : string) (w w1 w2 : world) :
  let targetDir := resolve cwd projectPath in
  let newTargetDir := dirname targetDir // newName in
  let started :=
    reported w (SpinnerStart ("Renaming project at " ++ show targetDir ++ " to "
                              ++ newName ++ "...")) in
  targetDir <> cwd ->
  targetDir <> [] ->
  Fs.lookup targetDir (tree w) <> None ->
  Fs.lookup newTargetDir (tree w) = None ->
  validName newName = true ->
  renameProject targetDir newName started = (Ok tt, w1) ->
  renameProject targetDir newName (reported w1 (SpinnerSucceed renamedMsg))
  = (Ok tt, w2) ->
  exists t3 project,
    renameCommand cwd projectPath newName w
    = (Ok Returned,
       World t3 (trace w2 ++ [SpinnerSucceed renamedMsg;
                              Moved targetDir newTargetDir;
                              ConsoleLog ("Folder renamed to: " ++ newName)])%list)
    /\ Fs.lookup targetDir (tree w2) = Some project
    /\ Fs.lookup newTargetDir t3 = Some project
    /\ Fs.lookup targetDir t3 = None.
Proof.
  intros targetDir newTargetDir started Hc Hne L Ls Hv E1 E2.
  assert (S2 : same_shape (tree w2) (tree w)).
  { apply (renameProject_keeps_shape targetDir newName (tree w)
             (reported w1 (SpinnerSucceed renamedMsg)) w2 (Ok tt)); [|exact E2].
    apply reported_shape.
    apply (renameProject_keeps_shape targetDir newName (tree w) started w1 (Ok tt));
      [|exact E1].
    apply sim_refl. intros c; exact I. }
  destruct (Fs.lookup targetDir (tree w2)) as [project|] eqn:L2.
  2:{ exfalso. apply L.
      pose proof (sim_lookup any_content _ _ targetDir S2) as Q. rewrite L2 in Q.
      destruct (Fs.lookup targetDir (tree w)); [contradiction|reflexivity]. }
  pose proof (same_shape_absent _ _ _ S2 Ls) as Ls2.
  assert (Ht : targetDir = dirname targetDir // last targetDir "")
    by (unfold dirname, sub; now apply app_removelast_last).
  set (v := reported w2 (SpinnerSucceed renamedMsg)).
  destruct (fsRename_sibling (dirname targetDir) (last targetDir "") newName v project)
    as (t3 & Em & Ln & Lo).
  { rewrite <- Ht. exact L2. }
  { exact Ls2. }
  rewrite <- Ht in Em, Lo.
  exists t3, project. split; [|split; [reflexivity|split; assumption]].
  rewrite (renameCommand_both_succeed cwd projectPath newName w L Hv w1 w2 E1 E2).
  fold targetDir. fold v. unfold moveFolder, path_eqb.
  destruct (list_eq_dec string_dec targetDir cwd); [contradiction|]. cbn [negb].
  rewrite bind_eq, existsSync_run. fold newTargetDir.
  replace (Fs.lookup newTargetDir (tree v)) with (@None node) by (symmetry; exact Ls2).
  rewrite bind_eq. fold newTargetDir in Em. rewrite Em.
  unfold emit, v. cbn [reported trace tree].
  now rewrite <- !app_assoc.
Qed.

Lemma X13_rename_moves_folder_witness :
  exists w3 project,
    renameCommand ["app"; "packages"] (PathArg false [".."]) "shop"
      (World Sample.workspace [])
    = (Ok Returned, w3)
    /\ Fs.lookup ["shop"] (tree w3) = Some project
    /\ Fs.lookup ["README.md"] project = Some (File (Text "# Shop"))
    /\ Fs.lookup ["app"] (tree w3) = None.
Proof.
  pose (cwd := ["app"; "packages"]).
  pose (w := World Sample.workspace []).
  pose (started := reported w (SpinnerStart "Renaming project at /app to shop...")).
  pose (w1 := snd (renameProject ["app"] "shop" started)).
  pose (w2 := snd (renameProject ["app"] "shop"
                     (reported w1 (SpinnerSucceed renamedMsg)))).
  assert (Hc : resolve cwd (PathArg false [".."]) <> cwd) by discriminate.
  assert (Hne : resolve cwd (PathArg false [".."]) <> []) by discriminate.
  assert (L : Fs.lookup (resolve cwd (PathArg false [".."])) (tree w) <> None)
    by discriminate.
  destruct (X13_rename_moves_folder cwd (PathArg false [".."]) "shop" w w1 w2
              Hc Hne L eq_refl eq_refl eq_refl eq_refl)
    as (t3 & project & E & L2 & Ln & Lo).
  eexists. exists project. split; [exact E|]. split; [exact Ln|].
  split; [|exact Lo].
  vm_compute in L2. injection L2 as <-. reflexivity.
Defined.

(** ** A root manifest that cannot be used *)

(** X14: when something stands at the path of the root manifest that does
    not parse to an object or an array (a directory, text that is no JSON,
    [null], a number, a string, a boolean), a run throws as soon as the scope
    is detected, [EISDIR], [SyntaxError] or [TypeError] as the case may be, and
    nothing has been written: no package is updated. *)
Theorem X14_unusable_root_aborts (rootDir : path) (newName scope : string)
  (w : world) (n : node) (e : error) :
  detectCurrentScope (rootDir // "packages") w = (Ok scope, w) ->
  Fs.lookup (rootDir // "package.json") (tree w) = Some n ->
  root_error n = Some e ->
  renameProject rootDir newName w = (Throw e, w).
Proof.
  intros D L He. unfold renameProject. rewrite bind_eq, D.
  rewrite bind_eq. unfold updateRootManifest.
  rewrite bind_eq, existsSync_run, L. rewrite bind_eq. unfold readJson. rewrite L.
  destruct n as [[s|j]|es]; simpl in He.
  - now injection He as <-.
  - destruct j; try discriminate; injection He as <-; reflexivity.
  - now injection He as <-.
Qed.

Lemma X14_unusable_root_aborts_witness :
  let t := Dir [("app", Dir [("package.json", File (Json JNull));
                             ("README.md", File (Text "# modern-fullstack-boilerplate"))])] in
  renameProject ["app"] "shop" (World t []) = (Throw TypeError, World t []).
Proof.
  intros t.
  exact (X14_unusable_root_aborts ["app"] "shop" "@repo" (World t [])
           (File (Json JNull)) TypeError eq_refl eq_refl eq_refl).
Defined.

(** ** When a run succeeds *)

Lemma same_shape_is_file (t t' : node) (p : path) :
  same_shape t' t -> is_file p t -> is_file p t'.
Proof.
  intros H [c L]. pose proof (sim_lookup any_content _ _ p H) as Q.
  rewrite L in Q. unfold is_file.
  destruct (Fs.lookup p t') as [[c'|es]|]; simpl in Q; try contradiction.
  now exists c'.
Qed.

Lemma same_shape_files_below (t t' : node) (p : path)
  (es es' : list (string * node)) :
  same_shape t' t ->
  Fs.lookup p t = Some (Dir es) -> Fs.lookup p t' = Some (Dir es') ->
  Fs.files_below p (Dir es') = Fs.files_below p (Dir es).
Proof.
  intros H L L'. pose proof (sim_lookup any_content _ _ p H) as Q.
  rewrite L, L' in Q. now apply (sim_files_below any_content).
Qed.

(** A usable package stays usable in a tree of the same shape in which it
    still has a manifest with a name. *)
Lemma usable_package_shape (packagesDir : path) (pkg : string) (v v' : world) :
  same_shape (tree v') (tree v) ->
  (named packagesDir pkg (fun _ => True) v ->
   named packagesDir pkg (fun _ => True) v') ->
  usable_package packagesDir (tree v) pkg ->
  usable_package packagesDir (tree v') pkg.
Proof.
  intros S Hn [N|((kvs & name & M) & Hs & Hf)].
  - left. exact (same_shape_absent _ _ _ S N).
  - right. split; [|split].
    + destruct Hn as (kvs' & name' & M' & _); [now exists kvs, name|].
      now exists kvs', name'.
    + now apply (same_shape_src packagesDir pkg _ _ S).
    + intros es' f L' Hin Hx.
      pose proof (sim_lookup any_content _ _ (packagesDir // pkg // "src") S) as Q.
      rewrite L' in Q.
      destruct (Fs.lookup (packagesDir // pkg // "src") (tree v)) as [[c|es]|] eqn:L;
        simpl in Q; try contradiction.
      apply (same_shape_is_file _ _ _ S). apply (Hf es f eq_refl); [|assumption].
      now rewrite <- (same_shape_files_below _ _ _ _ _ S L L').
Qed.

Section Total.

Variable packagesDir : path.
Variables old new newName : string.

Lemma detectScope_total (packages : list string) (w : world) :
  Forall (usable_package packagesDir (tree w)) packages ->
  exists scope, detectScope packagesDir packages w = (Ok scope, w).
Proof.
  induction 1 as [|pkg rest Hp _ IH]; cbn [detectScope]; [now exists fallbackScope|].
  rewrite bind_eq, existsSync_run.
  destruct Hp as [N|((kvs & name & [L G]) & _)]; unfold manifestPath in *.
  - rewrite N. exact IH.
  - rewrite L. rewrite bind_eq, (readJson_run _ _ _ L).
    rewrite bind_eq, (name_of_run _ _ _ G). cbv beta.
    destruct (scoped name); [eexists; reflexivity | exact IH].
Qed.

Lemma updateSourceFile_total (f : path) (t : node) (u : world) :
  same_shape (tree u) t -> is_file f t ->
  exists u', updateSourceFile old new newName f u = (Ok tt, u')
             /\ same_shape (tree u') t.
Proof.
  intros S Hf. apply (same_shape_is_file _ _ _ S) in Hf as [c L].
  assert (Hu : exists u', updateSourceFile old new newName f u = (Ok tt, u')).
  { destruct (hasSourceExtension f) eqn:Hx.
    - destruct (updateSourceFile_run old new newName f u c Hx L) as (u' & E & _).
      now exists u'.
    - exists u. unfold updateSourceFile. now rewrite Hx. }
  destruct Hu as [u' E]. exists u'. split; [exact E|].
  exact (updateSourceFile_preserves (fun _ => True) _ (stable_shape _ t)
           old new newName f I u _ u' S E).
Qed.

Lemma updateSources_total (pkg : string) (v : world) :
  src_listable packagesDir pkg (tree v) ->
  (forall es f,
      Fs.lookup (packagesDir // pkg // "src") (tree v) = Some (Dir es) ->
      In f (Fs.files_below (packagesDir // pkg // "src") (Dir es)) ->
      hasSourceExtension f = true -> is_file f (tree v)) ->
  exists v', updateSources (packagesDir // pkg) old new newName v = (Ok tt, v').
Proof.
  intros [N|[es L]] Hf; unfold updateSources; rewrite bind_eq, existsSync_run.
  - rewrite N. now exists v.
  - rewrite L. rewrite bind_eq. unfold getFiles. rewrite L.
    destruct (forM_total (Fs.files_below (packagesDir // pkg // "src") (Dir es))
                (updateSourceFile old new newName)
                (fun u => same_shape (tree u) (tree v))) with (w := v)
      as (v' & E & _).
    + intros f u Hin S.
      destruct (hasSourceExtension f) eqn:Hx.
      * apply updateSourceFile_total; [assumption|]. now apply (Hf es).
      * exists u. split; [|assumption]. unfold updateSourceFile. now rewrite Hx.
    + apply sim_refl. intros c; exact I.
    + now exists v'.
Qed.

Lemma updatePackage_total (pkg : string) (v : world) :
  Fs.lookup (packagesDir // pkg) (tree v) <> None ->
  usable_package packagesDir (tree v) pkg ->
  exists v', updatePackage packagesDir old new newName pkg v = (Ok tt, v').
Proof.
  intros Hp [N|((kvs & name & [L G]) & Hs & Hf)]; unfold updatePackage.
  - rewrite bind_eq. unfold isDirectory.
    destruct (Fs.lookup (packagesDir // pkg) (tree v)) as [[c|es]|];
      [| |contradiction];
      rewrite bind_eq, existsSync_run; unfold manifestPath in N; rewrite N;
      rewrite ?andb_false_r; now exists v.
  - destruct (parent_is_dir _ _ _ _ L) as [es D].
    rewrite bind_eq, (isDirectory_run _ _ _ D).
    rewrite bind_eq, existsSync_run. unfold manifestPath in L. rewrite L.
    cbn [andb]. rewrite bind_eq, (readJson_run _ _ _ L).
    rewrite bind_eq, (name_of_run _ _ _ G).
    destruct (write_file_run (packagesDir // pkg // "package.json")
                (Json (JObject (updateManifest old new name kvs))) v)
      as (t' & P & E); [exists (Json (JObject kvs)); exact L|].
    rewrite bind_eq. unfold writeJson. rewrite E.
    assert (S : same_shape t' (tree v)).
    { destruct (put_file (packagesDir // pkg // "package.json")
                  (Json (JObject (updateManifest old new name kvs))) (tree v))
        as (t2 & P2 & S2); [exists (Json (JObject kvs)); exact L|].
      rewrite P in P2. now injection P2 as <-. }
    apply updateSources_total; cbn [tree].
    + now apply (same_shape_src packagesDir pkg _ _ S).
    + intros es' f L' Hin Hx.
      pose proof (sim_lookup any_content _ _ (packagesDir // pkg // "src") S) as Q.
      rewrite L' in Q.
      destruct (Fs.lookup (packagesDir // pkg // "src") (tree v)) as [[c|es0]|] eqn:L0;
        simpl in Q; try contradiction.
      apply (same_shape_is_file _ _ _ S). apply (Hf es0 f eq_refl); [|assumption].
      now rewrite <- (same_shape_files_below _ _ _ _ _ S L0 L').
Qed.

Lemma updatePackage_usable (pkg x : string) (v v' : world) :
  usable_package packagesDir (tree v) pkg ->
  updatePackage packagesDir old new newName x v = (Ok tt, v') ->
  usable_package packagesDir (tree v') pkg.
Proof.
  intros H E. apply (usable_package_shape packagesDir pkg v v'); [| |assumption].
  - exact (updatePackage_shape packagesDir old new newName x v v' _ E).
  - intros Hn.
    now apply (updatePackage_named packagesDir old new newName pkg x
                 (fun _ => True) v v').
Qed.

Lemma updatePackages_total (v : world) :
  match Fs.lookup packagesDir (tree v) with
  | None => True
  | Some (File _) => False
  | Some (Dir es) => Forall (usable_package packagesDir (tree v)) (map fst es)
  end ->
  exists v', updatePackages packagesDir old new newName v = (Ok tt, v').
Proof.
  intros H. unfold updatePackages. rewrite bind_eq, existsSync_run.
  destruct (Fs.lookup packagesDir (tree v)) as [[c|es]|] eqn:D;
    [contradiction| |now exists v].
  rewrite bind_eq. unfold readdir. rewrite D.
  destruct (forM_total (map fst es) (updatePackage packagesDir old new newName)
              (fun u => same_shape (tree u) (tree v)
                        /\ Forall (usable_package packagesDir (tree u)) (map fst es)))
    with (w := v) as (v' & E & _).
  - intros pkg u Hin [S F].
    destruct (updatePackage_total pkg u) as [u' Eu].
    + destruct (in_assoc _ _ Hin) as [n A].
      pose proof (sim_lookup any_content _ _ (packagesDir // pkg) S) as Q.
      rewrite (lookup_sub packagesDir pkg (tree v)), D, A in Q.
      intros N. rewrite N in Q. contradiction.
    + rewrite Forall_forall in F. now apply F.
    + exists u'. split; [exact Eu|]. split.
      * exact (updatePackage_preserves (fun _ => True) _ (stable_shape _ (tree v))
                 packagesDir old new newName pkg I (fun _ => I) u _ u' S Eu).
      * eapply Forall_impl; [|exact F]. intros y Hy.
        now apply (updatePackage_usable y pkg u u').
  - split; [apply sim_refl; intros c; exact I | assumption].
  - now exists v'.
Qed.

End Total.

Lemma updateRootManifest_total (rootDir : path) (newName : string) (w : world) :
  usable_root rootDir (tree w) ->
  exists w0, updateRootManifest rootDir newName w = (Ok tt, w0).
Proof.
  unfold usable_root, updateRootManifest. intros H.
  rewrite bind_eq, existsSync_run.
  destruct (Fs.lookup (rootDir // "package.json") (tree w)) as [n|] eqn:L;
    [|now exists w].
  destruct n as [[s|j]|es]; try discriminate.
  rewrite bind_eq, (readJson_run _ _ _ L). rewrite bind_eq.
  destruct j; try discriminate; cbn [assign ret].
  - destruct (write_file_run (rootDir // "package.json") (Json (JArray l)) w)
      as (t' & _ & E); [eexists; exact L|]. eexists. exact E.
  - destruct (write_file_run (rootDir // "package.json")
                (Json (JObject (Obj.set "name" (JString newName) kvs))) w)
      as (t' & _ & E); [eexists; exact L|]. eexists. exact E.
Qed.

Lemma updateExtraFile_total (newName : string) (f : path) (t : node) (v : world) :
  same_shape (tree v) t -> usable_doc t f ->
  exists v', updateExtraFile newName f v = (Ok tt, v') /\ same_shape (tree v') t.
Proof.
  intros S [N|Hf].
  - exists v. split; [|assumption]. apply updateExtraFile_skip.
    exact (same_shape_absent _ _ _ S N).
  - apply (same_shape_is_file _ _ _ S) in Hf as [c L].
    destruct (updateExtraFile_run newName f v c L) as (t' & E & _).
    eexists. split; [exact E|].
    exact (updateExtraFile_preserves (fun _ => True) _ (stable_shape _ t)
             newName f I v _ _ S E).
Qed.

(** A run on a usable project succeeds. *)
Lemma renameProject_total (rootDir : path) (newName : string) (w : world) :
  usable_project rootDir (tree w) ->
  exists w', renameProject rootDir newName w = (Ok tt, w').
Proof.
  intros (Hr & Hp & Hd1 & Hd2). unfold renameProject.
  assert (D : exists scope,
             detectCurrentScope (rootDir // "packages") w = (Ok scope, w)).
  { unfold detectCurrentScope. rewrite bind_eq, existsSync_run.
    destruct (Fs.lookup (rootDir // "packages") (tree w)) as [[c|es]|] eqn:L;
      [contradiction| |now exists fallbackScope].
    rewrite bind_eq. unfold readdir. rewrite L. now apply detectScope_total. }
  destruct D as [scope D]. rewrite bind_eq, D.
  destruct (updateRootManifest_total rootDir newName w Hr) as [w0 R0].
  rewrite bind_eq, R0.
  pose proof (updateRootManifest_shape rootDir newName w w0 _ R0) as S0.
  destruct (updatePackages_total (rootDir // "packages") (scope ++ "/")
              ("@" ++ newName ++ "/") newName w0) as [w2 P].
  { pose proof (sim_lookup any_content _ _ (rootDir // "packages") S0) as Q.
    destruct (Fs.lookup (rootDir // "packages") (tree w)) as [[c|es]|] eqn:L;
      destruct (Fs.lookup (rootDir // "packages") (tree w0)) as [[c0|es0]|] eqn:L0;
      simpl in Q; try contradiction; try exact I.
    rewrite (entries_rel_names any_content _ _ Q).
    eapply Forall_impl; [|exact Hp]. intros pkg Hu.
    apply (usable_package_shape _ pkg w w0); [assumption| |assumption].
    intros (kvs & name & [Lm G] & _). exists kvs, name.
    split; [split; [|assumption]|exact I].
    now rewrite (manifest_after_root rootDir newName pkg w w0 _ R0). }
  rewrite bind_eq, P.
  assert (S2 : same_shape (tree w2) (tree w)).
  { refine (updatePackages_preserves (fun _ => True) _ (stable_shape _ (tree w))
              _ _ _ _ (fun _ => I) (fun _ _ => I) w0 _ w2 S0 P). }
  unfold updateExtraFiles. cbn [forM_].
  destruct (updateExtraFile_total newName _ (tree w) w2 S2 Hd1) as (w3 & E3 & S3).
  rewrite bind_eq, E3.
  destruct (updateExtraFile_total newName _ (tree w) w3 S3 Hd2) as (w4 & E4 & _).
  rewrite bind_eq, E4. now exists w4.
Qed.

Lemma same_shape_sym (a b : node) : same_shape a b -> same_shape b a.
Proof.
  unfold same_shape. revert b.
  induction a as [c|es IH] using node_induction; intros [c'|es'] H;
    simpl in H |- *; try contradiction; [exact I|].
  revert es' H. induction IH as [|e r He _ IHr]; intros [|e' r'] H;
    simpl in H |- *; try contradiction; [exact I|].
  destruct H as (E & Hm & Hr). split; [now symmetry|]. split; [now apply He|].
  now apply IHr.
Qed.

Lemma forM_each {A} (I : world -> Prop) (l : list A) (body : A -> M unit) :
  (forall y u u', I u -> body y u = (Ok tt, u') -> I u') ->
  forall w w', I w -> forM_ l body w = (Ok tt, w') ->
  forall x, In x l -> exists u u', I u /\ body x u = (Ok tt, u').
Proof.
  intros Hb. induction l as [|y l IH]; intros w w' HI E x Hin; [contradiction|].
  cbn [forM_] in E. inv_bind E. destruct a.
  destruct Hin as [->|Hin]; [now exists w, w1|].
  apply (IH w1 w'); try assumption. eapply Hb; eauto.
Qed.

Section Needed.

Variable packagesDir : path.
Variables old new newName : string.

(** The source files that an update rewrote were regular files. *)
Lemma updateSources_ok_files (pkg : string) (v v' : world)
  (es : list (string * node)) (f : path) :
  updateSources (packagesDir // pkg) old new newName v = (Ok tt, v') ->
  Fs.lookup (packagesDir // pkg // "src") (tree v) = Some (Dir es) ->
  In f (Fs.files_below (packagesDir // pkg // "src") (Dir es)) ->
  hasSourceExtension f = true ->
  is_file f (tree v).
Proof.
  intros E L Hin Hx. unfold updateSources in E.
  rewrite bind_eq, existsSync_run, L in E. rewrite bind_eq in E.
  unfold getFiles in E. rewrite L in E.
  destruct (forM_each (fun u => same_shape (tree u) (tree v)) _ _
              (fun y u u' S Ey =>
                 updateSourceFile_preserves (fun _ => True) _ (stable_shape _ (tree v))
                   old new newName y I u _ u' S Ey)
              v v' (sim_refl _ (fun _ => I) _) E f Hin) as (u & u' & S & Ef).
  unfold updateSourceFile in Ef. rewrite Hx in Ef.
  inv_bind Ef. apply readFile_inv in Efa as [-> H].
  destruct (H _ eq_refl) as (c & Lc & _).
  apply (same_shape_is_file _ _ _ (same_shape_sym _ _ S)). now exists c.
Qed.

Lemma updatePackage_ok_files (pkg : string) (v v' : world)
  (es : list (string * node)) (f : path) :
  Fs.lookup (manifestPath packagesDir pkg) (tree v) <> None ->
  updatePackage packagesDir old new newName pkg v = (Ok tt, v') ->
  Fs.lookup (packagesDir // pkg // "src") (tree v) = Some (Dir es) ->
  In f (Fs.files_below (packagesDir // pkg // "src") (Dir es)) ->
  hasSourceExtension f = true ->
  is_file f (tree v).
Proof.
  intros Hm E L Hin Hx. unfold updatePackage in E.
  inv_bind E. pose proof Ea as Ed. apply isDirectory_state in Ea as ->.
  rewrite bind_eq, existsSync_run in Eb.
  fold (manifestPath packagesDir pkg) in Eb.
  destruct (Fs.lookup (manifestPath packagesDir pkg) (tree v)) eqn:Lm;
    [|contradiction].
  destruct a; cbn [andb] in Eb.
  - inv_bind Eb. apply readJson_inv in Eba as [-> Hj]. specialize (Hj _ eq_refl).
    inv_bind Ebb. apply name_of_inv in Ebba as [-> Hn].
    destruct (Hn _ eq_refl) as (kvs & -> & _).
    inv_bind Ebbb. destruct a.
    assert (S : same_shape (tree w1) (tree v)).
    { refine (proj1 (preserves_write (fun _ => True)
                       (fun u => same_shape (tree u) (tree v)) _ _
                       (stable_shape _ (tree v)) I v _ w1 _ Ebbba)).
      split; [apply sim_refl; intros c; exact I | eexists; exact Hj]. }
    pose proof (sim_lookup any_content _ _ (packagesDir // pkg // "src") S) as Q.
    rewrite L in Q.
    destruct (Fs.lookup (packagesDir // pkg // "src") (tree w1)) as [[c|es1]|] eqn:L1;
      simpl in Q; try contradiction.
    apply (same_shape_is_file _ _ _ (same_shape_sym _ _ S)).
    apply (updateSources_ok_files pkg w1 v' es1 f Ebbbb L1); [|assumption].
    now rewrite (same_shape_files_below _ _ _ _ _ S L L1).
  - exfalso. destruct (parent_is_dir _ _ _ _ Lm) as [es0 D].
    unfold isDirectory in Ed. rewrite D in Ed. discriminate.
Qed.

End Needed.

Lemma usable_doc_shape (t t' : node) (f : path) :
  same_shape t' t -> usable_doc t f -> usable_doc t' f.
Proof.
  intros S [N|Hf]; [left | right].
  - exact (same_shape_absent _ _ _ S N).
  - exact (same_shape_is_file _ _ _ S Hf).
Qed.

Lemma updateRootManifest_ok_usable (rootDir : path) (newName : string)
  (w w0 : world) :
  updateRootManifest rootDir newName w = (Ok tt, w0) ->
  usable_root rootDir (tree w).
Proof.
  intros E. unfold usable_root. unfold updateRootManifest in E.
  inv_exists E L; [|exact I].
  inv_bind E. apply readJson_inv in Ea as [-> Hj]. specialize (Hj _ eq_refl).
  rewrite L in Hj. injection Hj as ->.
  inv_bind Eb. destruct a; try discriminate; reflexivity.
Qed.

(** The update of the packages succeeded only on usable packages. *)
Lemma updatePackages_ok_usable (packagesDir : path) (old new newName : string)
  (pkgs : list string) (w0 w2 : world) :
  forM_ pkgs (updatePackage packagesDir old new newName) w0 = (Ok tt, w2) ->
  Forall (usable_package packagesDir (tree w0)) pkgs.
Proof.
  intros E. apply Forall_forall. intros pkg Hin.
  set (I := fun u : world =>
              same_shape (tree u) (tree w0)
              /\ (Fs.lookup (manifestPath packagesDir pkg) (tree u)
                  = Fs.lookup (manifestPath packagesDir pkg) (tree w0)
                  \/ usable_package packagesDir (tree w0) pkg)).
  assert (Hshape : forall y u u',
             same_shape (tree u) (tree w0) ->
             updatePackage packagesDir old new newName y u = (Ok tt, u') ->
             same_shape (tree u') (tree w0)).
  { intros y u u' S Ey.
    exact (updatePackage_preserves (fun _ => True) _ (stable_shape _ (tree w0))
             packagesDir old new newName y Logic.I (fun _ => Logic.I) u _ u' S Ey). }
  assert (Hself : forall u u',
             I u -> updatePackage packagesDir old new newName pkg u = (Ok tt, u') ->
             usable_package packagesDir (tree w0) pkg).
  { intros u u' [S [Heq|Hu]] Eu; [|assumption].
    destruct (updatePackage_ok_manifest _ _ _ _ _ _ _ Eu) as [N|(kvs & name & [L G])].
    - left. now rewrite <- Heq.
    - right. split; [|split].
      + exists kvs, name. split; [|assumption]. now rewrite <- Heq.
      + apply (same_shape_src packagesDir pkg _ _ (Hshape _ _ _ S Eu)).
        apply (updatePackage_ok_src packagesDir old new newName pkg u u');
          [rewrite L; discriminate | assumption].
      + intros es f L0 Hf Hx.
        pose proof (sim_lookup any_content _ _ (packagesDir // pkg // "src") S) as Q.
        rewrite L0 in Q.
        destruct (Fs.lookup (packagesDir // pkg // "src") (tree u)) as [[c|es1]|] eqn:L1;
          simpl in Q; try contradiction.
        apply (same_shape_is_file _ _ _ (same_shape_sym _ _ S)).
        apply (updatePackage_ok_files packagesDir old new newName pkg u u' es1 f);
          try assumption.
        * rewrite L. discriminate.
        * now rewrite (same_shape_files_below _ _ _ _ _ S L0 L1). }
  refine (forM_establish I (fun _ => usable_package packagesDir (tree w0) pkg)
            pkg pkgs _ Hin _ Hself (fun _ _ _ H _ => H) w0 w2 _ E).
  - intros y u u' [S H] Ey. split; [now apply (Hshape y u u')|].
    destruct H as [Heq|Hu]; [|now right].
    destruct (string_dec y pkg) as [->|Hne].
    + right. apply (Hself u u'); [split; [assumption | now left] | assumption].
    + left. rewrite <- Heq.
      change (manifestPath packagesDir pkg)
        with (packagesDir // pkg ++ ["package.json"])%list.
      now apply (updatePackage_frame_other packagesDir old new newName y pkg
                   ["package.json"] _ (not_eq_sym Hne) u (Ok tt) u').
  - split; [apply sim_refl; intros c; exact Logic.I | now left].
Qed.

Section RunUsable.

Variable rootDir : path.
Variable newName : string.
Variables w w' : world.
Hypothesis run_ok : renameProject rootDir newName w = (Ok tt, w').

(** A run succeeds only on a usable project. *)
Lemma renameProject_ok_usable : usable_project rootDir (tree w).
Proof.
  destruct (renameProject_ok _ _ _ _ run_ok) as (scope & w0 & w2 & D & R0 & P & X).
  pose proof (updateRootManifest_shape rootDir newName w w0 _ R0) as S0.
  assert (S2 : same_shape (tree w2) (tree w)).
  { refine (updatePackages_preserves (fun _ => True) _ (stable_shape _ (tree w))
              _ _ _ _ (fun _ => I) (fun _ _ => I) w0 _ w2 S0 P). }
  split; [|split; [|split]].
  - exact (updateRootManifest_ok_usable _ _ _ _ R0).
  - assert (L0 : Fs.lookup (rootDir // "packages") (tree w0)
                 = Fs.lookup (rootDir // "packages") (tree w)).
    { refine (updateRootManifest_frame rootDir newName _ _ _ w _ w0 eq_refl R0).
      intros r. path_neq. }
    apply updatePackages_ok in P as [[N _]|(es & L & F)].
    + rewrite <- L0, N. exact I.
    + rewrite <- L0, L.
      apply updatePackages_ok_usable in F.
      eapply Forall_impl; [|exact F]. intros pkg Hu.
      apply (usable_package_shape _ pkg w0 w); [now apply same_shape_sym| |assumption].
      intros (kvs & name & [Lm G] & _). exists kvs, name.
      split; [split; [|assumption]|exact I].
      now rewrite <- (manifest_after_root rootDir newName pkg w w0 _ R0).
  - unfold updateExtraFiles in X. cbn [forM_] in X. inv_bind X. destruct a.
    apply (usable_doc_shape _ _ _ (same_shape_sym _ _ S2)).
    exact (updateExtraFile_ok _ _ _ _ Xa).
  - unfold updateExtraFiles in X. cbn [forM_] in X. inv_bind X. destruct a.
    inv_bind Xb. destruct a.
    assert (S3 : same_shape (tree w1) (tree w)).
    { exact (updateExtraFile_preserves (fun _ => True) _ (stable_shape _ (tree w))
               newName _ I w2 _ w1 S2 Xa). }
    apply (usable_doc_shape _ _ _ (same_shape_sym _ _ S3)).
    exact (updateExtraFile_ok _ _ _ _ Xba).
Qed.

(** And it leaves the project usable. *)
Lemma renameProject_leaves_usable : usable_project rootDir (tree w').
Proof.
  destruct renameProject_ok_usable as (Hr & Hp & Hd1 & Hd2).
  pose proof (renameProject_shape _ _ _ _ _ run_ok) as S.
  split; [|split; [|split]].
  - pose proof (root_settled_after_run _ _ _ _ run_ok) as R.
    unfold settled_root in R. unfold usable_root.
    destruct (Fs.lookup (rootDir // "package.json") (tree w'))
      as [[[s|[| | | | |]]|es]|]; try contradiction; reflexivity.
  - destruct (Fs.lookup (rootDir // "packages") (tree w)) as [[c|es]|] eqn:L;
      [contradiction| |].
    + destruct (listing_after_run _ _ _ _ run_ok es L) as (es1 & L1 & N1).
      rewrite L1, N1. apply Forall_forall. intros pkg Hin.
      rewrite Forall_forall in Hp.
      apply (usable_package_shape _ pkg w w'); [assumption| |now apply Hp].
      intros (kvs & name & [Lm G] & _).
      destruct (package_after_run _ _ _ _ run_ok es pkg L Hin) as [N|[Hn _]];
        [|assumption].
      exfalso. pose proof (sim_lookup any_content _ _
                             (manifestPath (rootDir // "packages") pkg) S) as Q.
      rewrite N, Lm in Q. contradiction.
    + now rewrite (absent_after_run _ _ _ _ run_ok _ L).
  - exact (usable_doc_shape _ _ _ S Hd1).
  - exact (usable_doc_shape _ _ _ S Hd2).
Qed.

End RunUsable.

(** X15: a run of [renameProject] succeeds exactly on a usable project,
    whatever the new name: the root manifest, if there, parses to an object
    or an array; [packages], if there, is a directory, and each of its entries
    either has no manifest, or has one that parses to an object whose [name]
    is a string and then a [src] that, if there, is a directory whose files
    with one of the four extensions are regular files; and each of the two
    documentation files, if there, is a regular file. *)
Theorem X15_rename_succeeds_iff_usable (rootDir : path) (newName : string)
  (w : world) :
  (exists w', renameProject rootDir newName w = (Ok tt, w'))
  <-> usable_project rootDir (tree w).
Proof.
  split.
  - intros [w' E]. exact (renameProject_ok_usable _ _ _ _ E).
  - apply renameProject_total.
Qed.

(** X16: a run that succeeded can be repeated: in the world it leaves, a
    further run succeeds, with the same name or another.  So the second of the
    two runs of the [rename] command cannot fail when the first did not. *)
Theorem X16_rename_can_be_repeated (rootDir : path) (newName : string)
  (w w' : world) :
  renameProject rootDir newName w = (Ok tt, w') ->
  forall newName', exists w'', renameProject rootDir newName' w' = (Ok tt, w'').
Proof.
  intros E newName'. apply renameProject_total.
  exact (renameProject_leaves_usable _ _ _ _ E).
Qed.

Lemma X16_rename_can_be_repeated_witness :
  exists w' w'',
    renameProject ["app"] "shop" (World Sample.workspace []) = (Ok tt, w')
    /\ renameProject ["app"] "store" w' = (Ok tt, w'').
Proof.
  pose (w := World Sample.workspace []).
  pose (w' := snd (renameProject ["app"] "shop" w)).
  destruct (X16_rename_can_be_repeated ["app"] "shop" w w' eq_refl "store")
    as [w'' E].
  exists w', w''. split; [reflexivity | exact E].
Defined.

(** ** A run on a real file system, where no directory lists a name twice *)

Lemma forM_split_ok {A} (l1 l2 : list A) (x : A) (body : A -> M unit)
  (w w' : world) :
  forM_ (l1 ++ x :: l2) body w = (Ok tt, w') ->
  exists v v',
    forM_ l1 body w = (Ok tt, v)
    /\ body x v = (Ok tt, v')
    /\ forM_ l2 body v' = (Ok tt, w').
Proof.
  rewrite forM_app. destruct (forM_ l1 body w) as [[[]|e] v]; [|discriminate].
  cbn [forM_]. intros E. inv_bind E. destruct a. now exists v, w1.
Qed.

Lemma NoDup_split {A} (x : A) (l : list A) :
  NoDup l -> In x l ->
  exists pre post, l = (pre ++ x :: post)%list /\ ~ In x pre /\ ~ In x post.
Proof.
  intros ND Hin. destruct (in_split _ _ Hin) as (pre & post & ->).
  exists pre, post. split; [reflexivity|].
  apply NoDup_remove_2 in ND. split; intros H; apply ND, in_or_app; auto.
Qed.

(** X18: on a [packages] directory that lists no name twice, a run that
    succeeds leaves in the manifest of each package exactly what lines 250-274
    make of the manifest it had: the name, the [dependencies] and the
    [devDependencies] rewritten from the detected scope token to the new one,
    once. *)
Theorem X18_manifest_updated_once (rootDir : path) (newName scope pkg : string)
  (w w' : world) (es : list (string * node)) (kvs : list (string * json))
  (name : string) :
  renameProject rootDir newName w = (Ok tt, w') ->
  detectCurrentScope (rootDir // "packages") w = (Ok scope, w) ->
  Fs.lookup (rootDir // "packages") (tree w) = Some (Dir es) ->
  NoDup (map fst es) ->
  manifest_at (rootDir // "packages") pkg (tree w) kvs name ->
  Fs.lookup (manifestPath (rootDir // "packages") pkg) (tree w')
  = Some (File (Json (JObject
       (updateManifest (scope ++ "/") ("@" ++ newName ++ "/") name kvs)))).
Proof.
  intros E D L ND [Lm G].
  destruct (renameProject_ok _ _ _ _ E) as (scope' & w0 & w2 & D' & R0 & P & X).
  rewrite D in D'. injection D' as <-.
  rewrite (manifest_after_extras rootDir newName pkg w2 w' _ X).
  assert (L0 : Fs.lookup (rootDir // "packages") (tree w0) = Some (Dir es)).
  { refine (updateRootManifest_frame rootDir newName _ _ _ w _ w0 L R0).
    intros r. path_neq. }
  apply updatePackages_ok in P as [[N _]|(es0 & L0' & F)]; [congruence|].
  rewrite L0 in L0'. injection L0' as <-.
  destruct (NoDup_split pkg _ ND (manifest_listed _ _ _ _ _ L Lm))
    as (pre & post & Hl & Hpre & Hpost).
  rewrite Hl in F. apply forM_split_ok in F as (v & v' & F1 & F2 & F3).
  assert (Lv : manifest_at (rootDir // "packages") pkg (tree v) kvs name).
  { split; [|assumption].
    refine (updatePackages_frame_loop rootDir newName _ _ pre _ _ _ _ w0 _ v _ F1).
    - intros y r Hy. path_neq.
    - intros y r r' Hy. path_neq.
    - now rewrite (manifest_after_root rootDir newName pkg w w0 _ R0). }
  pose proof (updatePackage_self _ _ _ _ _ _ _ _ _ Lv F2) as Lv'.
  refine (updatePackages_frame_loop rootDir newName _ _ post _ _ _ _ v' _ w2 Lv' F3).
  - intros y r Hy. path_neq.
  - intros y r r' Hy. path_neq.
Qed.

Lemma X18_manifest_updated_once_witness :
  exists w',
    renameProject ["app"] "shop" (World Sample.workspace []) = (Ok tt, w')
    /\ Fs.lookup ["app"; "packages"; "api"; "package.json"] (tree w')
       = Some (Sample.manifest "@shop/api"
                 [("zod", "3.0.0"); ("@shop/ui", "workspace:*")]).
Proof.
  pose (w := World Sample.workspace []).
  pose (w' := snd (renameProject ["app"] "shop" w)).
  assert (ND : NoDup ["ui"; "api"])
    by (repeat constructor; simpl; intuition discriminate).
  exists w'. split; [reflexivity|].
  exact (X18_manifest_updated_once ["app"] "shop" "@old" "api" w w' _ _ "@old/api"
           eq_refl eq_refl eq_refl ND (conj eq_refl eq_refl)).
Defined.

Section SourceOnce.

Variable packagesDir : path.
Variables old new newName : string.
Variable pkg : string.
Variable f : path.

Let srcDir : path := packagesDir // pkg // "src".
Let others (q : path) : Prop := q <> f.

Lemma others_stable (c : content) :
  stable others (fun u => Fs.lookup f (tree u) = Some (File c)).
Proof. apply stable_file. intros H. now apply H. Qed.

(** The rewriting of the sources of a package rewrites [f] once. *)
Lemma updateSources_file (v v' : world) (ses : list (string * node))
  (c : content) :
  Fs.lookup srcDir (tree v) = Some (Dir ses) ->
  distinct_names (Dir ses) ->
  In f (Fs.files_below srcDir (Dir ses)) ->
  hasSourceExtension f = true ->
  Fs.lookup f (tree v) = Some (File c) ->
  updateSources (packagesDir // pkg) old new newName v = (Ok tt, v') ->
  exists c',
    Fs.lookup f (tree v') = Some (File c')
    /\ text_of c'
       = replaceAll (join (split (text_of c) old) new) boilerplate newName
    /\ (includes (text_of c) old = false ->
        includes (text_of c) boilerplate = false -> c' = c).
Proof.
  intros L Hd Hin Hx Lf E. unfold updateSources in E. fold srcDir in E.
  rewrite bind_eq, existsSync_run, L in E. rewrite bind_eq in E.
  unfold getFiles in E. rewrite L in E.
  destruct (NoDup_split f _ (files_below_NoDup _ srcDir Hd) Hin)
    as (pre & post & Hl & Hpre & Hpost).
  rewrite Hl in E. apply forM_split_ok in E as (u & u' & E1 & E2 & E3).
  assert (Lu : Fs.lookup f (tree u) = Some (File c)).
  { refine (preserves_forM (fun u => Fs.lookup f (tree u) = Some (File c))
              pre _ _ v _ u Lf E1).
    intros y Hy. apply (updateSourceFile_preserves others _ (others_stable c)).
    intros ->. contradiction. }
  destruct (updateSourceFile_run old new newName f u c Hx Lu)
    as (u2 & Eu & (c' & Lc' & Ht) & Hsame & _).
  rewrite Eu in E2. injection E2 as <-.
  exists c'. split; [|split; [exact Ht|]].
  - refine (preserves_forM (fun u => Fs.lookup f (tree u) = Some (File c'))
              post _ _ u2 _ v' Lc' E3).
    intros y Hy. apply (updateSourceFile_preserves others _ (others_stable c')).
    intros ->. contradiction.
  - intros H1 H2. rewrite (Hsame H1 H2) in Lc'. congruence.
Qed.

Lemma updatePackage_file (v v' : world) (ses : list (string * node))
  (c : content) :
  Fs.lookup (manifestPath packagesDir pkg) (tree v) <> None ->
  Fs.lookup srcDir (tree v) = Some (Dir ses) ->
  distinct_names (Dir ses) ->
  In f (Fs.files_below srcDir (Dir ses)) ->
  hasSourceExtension f = true ->
  Fs.lookup f (tree v) = Some (File c) ->
  updatePackage packagesDir old new newName pkg v = (Ok tt, v') ->
  exists c',
    Fs.lookup f (tree v') = Some (File c')
    /\ text_of c'
       = replaceAll (join (split (text_of c) old) new) boilerplate newName
    /\ (includes (text_of c) old = false ->
        includes (text_of c) boilerplate = false -> c' = c).
Proof.
  intros Hm L Hd Hin Hx Lf E.
  destruct (files_below_prefix _ _ _ Hin) as [q Hq].
  unfold updatePackage in E.
  inv_bind E. pose proof Ea as Ed. apply isDirectory_state in Ea as ->.
  rewrite bind_eq, existsSync_run in Eb.
  fold (manifestPath packagesDir pkg) in Eb.
  destruct (Fs.lookup (manifestPath packagesDir pkg) (tree v)) eqn:Lm;
    [|contradiction].
  destruct a; cbn [andb] in Eb.
  - inv_bind Eb. apply readJson_inv in Eba as [-> _].
    inv_bind Ebb. apply name_of_inv in Ebba as [-> Hn].
    destruct (Hn _ eq_refl) as (kvs & -> & _).
    inv_bind Ebbb. destruct a.
    apply write_inv in Ebbba as [(t' & P & _ & ->)|(_ & _ & e & Q)];
      [|discriminate].
    refine (updateSources_file _ v' ses c _ Hd Hin Hx _ Ebbbb); cbn [tree].
    + rewrite (put_lookup_frame _ _ _ _ srcDir P); [assumption|].
      intros r. unfold srcDir. path_neq.
    + rewrite (put_lookup_frame _ _ _ _ f P); [assumption|].
      intros r. rewrite Hq. unfold srcDir. path_neq.
  - exfalso. destruct (parent_is_dir _ _ _ _ Lm) as [es0 D].
    unfold isDirectory in Ed. rewrite D in Ed. discriminate.
Qed.

End SourceOnce.

(** X17: on a tree that lists no name twice, a run that succeeds leaves in
    each file with one of the four extensions below the [src] of a package
    that has a manifest the text the file had, with every occurrence of the
    detected scope token replaced by the new token and then every
    [modern-fullstack-boilerplate] by the new name; a file that held neither
    keeps its content. *)
Theorem X17_source_rewritten_once (rootDir : path) (newName scope pkg : string)
  (w w' : world) (es ses : list (string * node)) (f : path) (c : content) :
  let packagesDir := rootDir // "packages" in
  let old := scope ++ "/" in
  let new := "@" ++ newName ++ "/" in
  renameProject rootDir newName w = (Ok tt, w') ->
  detectCurrentScope packagesDir w = (Ok scope, w) ->
  Fs.lookup packagesDir (tree w) = Some (Dir es) ->
  NoDup (map fst es) ->
  Fs.lookup (manifestPath packagesDir pkg) (tree w) <> None ->
  Fs.lookup (packagesDir // pkg // "src") (tree w) = Some (Dir ses) ->
  distinct_names (Dir ses) ->
  In f (Fs.files_below (packagesDir // pkg // "src") (Dir ses)) ->
  hasSourceExtension f = true ->
  Fs.lookup f (tree w) = Some (File c) ->
  exists c',
    Fs.lookup f (tree w') = Some (File c')
    /\ text_of c'
       = replaceAll (join (split (text_of c) old) new) boilerplate newName
    /\ (includes (text_of c) old = false ->
        includes (text_of c) boilerplate = false -> c' = c).
Proof.
  intros packagesDir old new E D L ND Hm Ls Hd Hin Hx Lf.
  destruct (files_below_prefix _ _ _ Hin) as [q Hq].
  destruct (renameProject_ok _ _ _ _ E) as (scope' & w0 & w2 & D' & R0 & P & X).
  fold packagesDir in D'. rewrite D in D'. injection D' as <-.
  fold old new in P.
  assert (F0 : forall p, (forall r, rootDir // "package.json" <> (p ++ r)%list) ->
                         Fs.lookup p (tree w0) = Fs.lookup p (tree w)).
  { intros p Hp.
    exact (updateRootManifest_frame rootDir newName p _ Hp w _ w0 eq_refl R0). }
  assert (L0 : Fs.lookup packagesDir (tree w0) = Some (Dir es)).
  { rewrite F0; [assumption|]. intros r. unfold packagesDir. path_neq. }
  apply updatePackages_ok in P as [[N _]|(es0 & L0' & F)];
    [fold packagesDir in N; congruence|].
  fold packagesDir in L0', F. rewrite L0 in L0'. injection L0' as <-.
  destruct (Fs.lookup (manifestPath packagesDir pkg) (tree w)) as [m|] eqn:Lm;
    [|contradiction].
  destruct (NoDup_split pkg _ ND (manifest_listed _ _ _ _ _ L Lm))
    as (pre & post & Hl & Hpre & Hpost).
  rewrite Hl in F. apply forM_split_ok in F as (v & v' & F1 & F2 & F3).
  assert (Pv : forall p,
             (exists r, p = (packagesDir // pkg ++ r)%list) ->
             Fs.lookup p (tree v) = Fs.lookup p (tree w)).
  { intros p [r ->]. rewrite <- F0 by (intros r'; unfold packagesDir; path_neq).
    refine (updatePackages_frame_loop rootDir newName _ _ pre _ _ _ _ w0 _ v
              eq_refl F1).
    - intros y r' Hy. unfold packagesDir. path_neq.
    - intros y r' r'' Hy. unfold packagesDir. path_neq. }
  destruct (updatePackage_file packagesDir old new newName pkg f v v' ses c)
    as (c' & Lc' & Ht & Hsame); try assumption.
  - rewrite Pv; [now rewrite Lm | now exists ["package.json"]].
  - rewrite Pv; [assumption | now exists ["src"]].
  - rewrite Pv; [assumption|]. exists ("src" :: q). rewrite Hq.
    unfold sub. now rewrite <- !app_assoc.
  - exists c'. split; [|split; assumption].
    assert (Hothers : stable (fun p => p <> f)
                        (fun u => Fs.lookup f (tree u) = Some (File c')))
      by (apply stable_file; intros H; now apply H).
    assert (L2 : Fs.lookup f (tree w2) = Some (File c')).
    { refine (preserves_forM (fun u => Fs.lookup f (tree u) = Some (File c'))
                post _ _ v' _ w2 Lc' F3).
      intros y Hy.
      apply (updatePackage_preserves (fun p => p <> f) _ Hothers).
      - rewrite Hq. unfold packagesDir. path_neq.
      - intros r. rewrite Hq. unfold packagesDir. path_neq. }
    refine (updateExtraFiles_preserves rootDir (fun p => p <> f) _ Hothers newName
              _ _ w2 _ w' L2 X).
    + rewrite Hq. unfold packagesDir. path_neq.
    + rewrite Hq. unfold packagesDir. path_neq.
Qed.

Lemma X17_source_rewritten_once_witness :
  exists w' c',
    renameProject ["app"] "shop" (World styled_workspace []) = (Ok tt, w')
    /\ Fs.lookup ["app"; "packages"; "ui"; "src"; "index.ts"] (tree w')
       = Some (File c')
    /\ text_of c' = "export * from '@shop/ui/button'".
Proof.
  pose (w := World styled_workspace []).
  pose (w' := snd (renameProject ["app"] "shop" w)).
  assert (ND : NoDup ["ui"; "docs"])
    by (repeat constructor; simpl; intuition discriminate).
  assert (Hd : distinct_names
                 (Dir [("index.ts", File (Text "export * from '@old/ui/button'"));
                       ("theme.css", File (Text "@import '@old/ui/base.css';"))])).
  { simpl. repeat split; repeat constructor; simpl; intuition discriminate. }
  assert (Hm : Fs.lookup (manifestPath (["app"] // "packages") "ui") (tree w) <> None)
    by discriminate.
  destruct (X17_source_rewritten_once ["app"] "shop" "@old" "ui" w w' _ _
              ["app"; "packages"; "ui"; "src"; "index.ts"] _
              eq_refl eq_refl eq_refl ND Hm eq_refl Hd (or_introl eq_refl)
              eq_refl eq_refl) as (c' & L & Ht & _).
  exists w', c'. split; [reflexivity|]. split; [exact L | exact Ht].
Defined.

(** * Source files after a run *)

(** ** C5 *)

Lemma stable_impl (S : path -> Prop) (P : Prop) (I : world -> Prop) :
  stable S I -> stable S (fun w => P -> I w).
Proof. intros H w p c t' Hw Hp Hf E HP. eapply H; eauto. Qed.

Section SourceInRun.

Variable packagesDir : path.
Variables old new newName : string.
Variable pkg : string.
Variable f : path.
Variable c0 : content.
Variable tr : list event.

Let srcDir : path := packagesDir // pkg // "src".
Let others (q : path) : Prop := q <> f.
Let quiet : Prop :=
  includes (text_of c0) old = false /\ includes (text_of c0) boilerplate = false.
Let kept : content -> world -> Prop := file_kept old f c0 tr.

Lemma file_kept_stable (c : content) : stable others (kept c).
Proof.
  unfold kept, file_kept. apply stable_and.
  - apply stable_file. intros H. now apply H.
  - apply stable_impl, stable_trace.
Qed.

(** The rewriting of the files below [src]: the turn of [f] leaves in it the
    text with both substitutions made, and the turns of the other files keep
    it. *)
Lemma updateSources_kept (v v' : world) (ses : list (string * node)) :
  Fs.lookup srcDir (tree v) = Some (Dir ses) ->
  distinct_names (Dir ses) ->
  In f (Fs.files_below srcDir (Dir ses)) ->
  hasSourceExtension f = true ->
  kept c0 v ->
  updateSources (packagesDir // pkg) old new newName v = (Ok tt, v') ->
  exists c',
    kept c' v'
    /\ text_of c'
       = replaceAll (join (split (text_of c0) old) new) boilerplate newName
    /\ (quiet -> c' = c0).
Proof.
  intros L Hd Hin Hx K E. unfold updateSources in E. fold srcDir in E.
  rewrite bind_eq, existsSync_run, L in E. rewrite bind_eq in E.
  unfold getFiles in E. rewrite L in E.
  destruct (NoDup_split f _ (files_below_NoDup _ srcDir Hd) Hin)
    as (pre & post & Hl & Hpre & Hpost).
  rewrite Hl in E. apply forM_split_ok in E as (u & u' & E1 & E2 & E3).
  assert (Ku : kept c0 u).
  { refine (preserves_forM (kept c0) pre _ _ v _ u K E1).
    intros y Hy. apply (updateSourceFile_preserves others _ (file_kept_stable c0)).
    intros ->. contradiction. }
  destruct (updateSourceFile_run old new newName f u c0 Hx (proj1 Ku))
    as (u2 & Eu & (c' & Lc' & Ht) & Hsame & _).
  rewrite Eu in E2. injection E2 as <-.
  assert (Hc : quiet -> c' = c0).
  { intros [H1 H2]. rewrite (Hsame H1 H2) in Lc'.
    destruct Ku as [Lu _]. congruence. }
  exists c'. split; [|split; assumption].
  refine (preserves_forM (kept c') post _ _ u2 _ v' _ E3).
  - intros y Hy. apply (updateSourceFile_preserves others _ (file_kept_stable c')).
    intros ->. contradiction.
  - split; [exact Lc'|]. intros [H1 H2].
    rewrite (Hsame H1 H2). apply Ku. now split.
Qed.

(** The same for the update of the package: the write of its manifest keeps
    [f] too. *)
Lemma updatePackage_kept_file (v v' : world) (ses : list (string * node)) :
  Fs.lookup (manifestPath packagesDir pkg) (tree v) <> None ->
  Fs.lookup srcDir (tree v) = Some (Dir ses) ->
  distinct_names (Dir ses) ->
  In f (Fs.files_below srcDir (Dir ses)) ->
  hasSourceExtension f = true ->
  kept c0 v ->
  updatePackage packagesDir old new newName pkg v = (Ok tt, v') ->
  exists c',
    kept c' v'
    /\ text_of c'
       = replaceAll (join (split (text_of c0) old) new) boilerplate newName
    /\ (quiet -> c' = c0).
Proof.
  intros Hm L Hd Hin Hx K E.
  destruct (files_below_prefix _ _ _ Hin) as [q Hq].
  unfold updatePackage in E.
  inv_bind E. pose proof Ea as Ed. apply isDirectory_state in Ea as ->.
  rewrite bind_eq, existsSync_run in Eb.
  fold (manifestPath packagesDir pkg) in Eb.
  destruct (Fs.lookup (manifestPath packagesDir pkg) (tree v)) eqn:Lm;
    [|contradiction].
  destruct a; cbn [andb] in Eb.
  - inv_bind Eb. apply readJson_inv in Eba as [-> Hj].
    inv_bind Ebb. apply name_of_inv in Ebba as [-> Hn].
    destruct (Hn _ eq_refl) as (kvs & -> & _).
    inv_bind Ebbb. destruct a.
    assert (K1 : kept c0 w1).
    { refine (proj1 (preserves_write others (kept c0) _ _
                       (file_kept_stable c0) _ v _ w1 _ Ebbba)).
      - unfold others. rewrite Hq. unfold srcDir. path_neq.
      - split; [exact K | eexists; exact (Hj _ eq_refl)]. }
    apply write_inv in Ebbba as [(t' & P & _ & ->)|(_ & _ & e & Q)];
      [|discriminate].
    refine (updateSources_kept _ v' ses _ Hd Hin Hx K1 Ebbbb); cbn [tree].
    rewrite (put_lookup_frame _ _ _ _ srcDir P); [assumption|].
    intros r. unfold srcDir. path_neq.
  - exfalso. destruct (parent_is_dir _ _ _ _ Lm) as [es0 D].
    unfold isDirectory in Ed. rewrite D in Ed. discriminate.
Qed.

End SourceInRun.

(** C5, as stated, fails: the two substitutions are not independent.  The
    second one is made in the text that the first one leaves, so an
    occurrence of [modern-fullstack-boilerplate] that the new scope token
    brings in is replaced as well.  With the valid name
    [modern-fullstack-boilerplate-2], the source file of [scoped_workspace]
    holds the old token and not the identifier; the text with every old token
    replaced by the new one is [import '@modern-fullstack-boilerplate-2/ui'],
    and the run leaves [import '@modern-fullstack-boilerplate-2-2/ui'] in the
    file. *)
Lemma C5_counterexample :
  let newName := "modern-fullstack-boilerplate-2" in
  let f := ["app"; "packages"; "ui"; "src"; "index.ts"] in
  let text := "import '@old/ui'" in
  let w := World scoped_workspace [] in
  let out := renameProject ["app"] newName w in
  validName newName = true
  /\ detectCurrentScope ["app"; "packages"] w = (Ok "@old", w)
  /\ hasSourceExtension f = true
  /\ Fs.lookup f (tree w) = Some (File (Text text))
  /\ includes text "@old/" = true
  /\ includes text boilerplate = false
  /\ join (split text "@old/") ("@" ++ newName ++ "/")
     = "import '@modern-fullstack-boilerplate-2/ui'"
  /\ fst out = Ok tt
  /\ Fs.lookup f (tree (snd out))
     = Some (File (Text "import '@modern-fullstack-boilerplate-2-2/ui'"))
  /\ Fs.lookup f (tree (snd out))
     <> Some (File (Text (join (split text "@old/") ("@" ++ newName ++ "/")))).
Proof.
  repeat split; try (vm_compute; reflexivity).
  vm_compute. discriminate.
Qed.

(** C5, amended: let a run of [renameProject] with a valid name succeed on
    a tree that lists no name twice, and let [f] be a regular file at any depth
    below the [src] of a package that has a manifest, with one of the
    extensions [.ts], [.tsx], [.js], [.jsx].  After the run [f] holds its
    former text with every literal occurrence of the old scope token replaced
    by the new one and then, in the text so obtained, every occurrence of
    [modern-fullstack-boilerplate] replaced by the new name, those that the
    new token brought in among them; the pieces between the occurrences are
    kept as they are; and a file that held neither token keeps its content and
    is not written by the run. *)
Theorem C5_sources_after_run (rootDir : path) (newName scope pkg : string)
  (w w' : world) (es ses : list (string * node)) (r : path) (c : content) :
  let packagesDir := rootDir // "packages" in
  let old := scope ++ "/" in
  let new := "@" ++ newName ++ "/" in
  let f := (packagesDir // pkg // "src" ++ r)%list in
  let text := text_of c in
  let text1 := join (split text old) new in
  let text2 := join (split text1 boilerplate) newName in
  validName newName = true ->
  renameProject rootDir newName w = (Ok tt, w') ->
  detectCurrentScope packagesDir w = (Ok scope, w) ->
  Fs.lookup packagesDir (tree w) = Some (Dir es) ->
  NoDup (map fst es) ->
  Fs.lookup (manifestPath packagesDir pkg) (tree w) <> None ->
  Fs.lookup (packagesDir // pkg // "src") (tree w) = Some (Dir ses) ->
  distinct_names (Dir ses) ->
  Fs.lookup f (tree w) = Some (File c) ->
  hasSourceExtension f = true ->
  (exists c', Fs.lookup f (tree w') = Some (File c') /\ text_of c' = text2)
  /\ (join (split text old) old = text
      /\ Forall (fun piece => includes piece old = false) (split text old))
  /\ (join (split text1 boilerplate) boilerplate = text1
      /\ Forall (fun piece => includes piece boilerplate = false)
           (split text1 boilerplate))
  /\ (includes text old = false -> includes text boilerplate = false ->
      Fs.lookup f (tree w') = Some (File c)
      /\ exists writes,
           trace w' = (trace w ++ map Wrote writes)%list /\ ~ In f writes).
Proof.
  intros packagesDir old new f text text1 text2 Hv E D L ND Hm Ls Hd Lf Hx.
  assert (Hold : old <> "") by (unfold old; destruct scope; discriminate).
  assert (Hbp : boilerplate <> "") by discriminate.
  assert (Hr : r <> []).
  { intros ->. unfold f in Lf. rewrite app_nil_r in Lf. congruence. }
  assert (Hin : In f (Fs.files_below (packagesDir // pkg // "src") (Dir ses))).
  { unfold f in Lf |- *. rewrite lookup_app, Ls in Lf.
    now apply files_below_complete with (c := c). }
  set (others := fun q : path => q <> f).
  assert (Hroot : others (rootDir // "package.json"))
    by (unfold others, f, packagesDir; path_neq).
  assert (Hpk : forall y, y <> pkg ->
                  others (packagesDir // y // "package.json")
                  /\ forall q, others (packagesDir // y // "src" ++ q)%list).
  { intros y Hy. split; [|intros q]; unfold others, f, packagesDir; path_neq. }
  assert (Hdoc1 : others (rootDir // "README.md"))
    by (unfold others, f, packagesDir; path_neq).
  assert (Hdoc2 : others (rootDir // "packages" // "frontend" // "index.html"))
    by (unfold others, f, packagesDir; path_neq).
  destruct (renameProject_ok _ _ _ _ E) as (scope' & w0 & w2 & D' & R0 & P & X).
  fold packagesDir in D'. rewrite D in D'. injection D' as <-.
  fold old new in P.
  pose (kept := file_kept old f c (trace w)).
  assert (St : forall c1, stable others (kept c1))
    by (intros c1; apply file_kept_stable).
  assert (K : kept c w).
  { split; [exact Lf|]. intros _. exists [].
    split; [now rewrite app_nil_r | constructor]. }
  assert (K0 : kept c w0).
  { exact (updateRootManifest_preserves rootDir others _ (St c) newName Hroot
             w _ w0 K R0). }
  assert (F0 : forall p, (forall q, rootDir // "package.json" <> (p ++ q)%list) ->
                         Fs.lookup p (tree w0) = Fs.lookup p (tree w)).
  { intros p Hp.
    exact (updateRootManifest_frame rootDir newName p _ Hp w _ w0 eq_refl R0). }
  assert (L0 : Fs.lookup packagesDir (tree w0) = Some (Dir es)).
  { rewrite F0; [assumption|]. intros q. unfold packagesDir. path_neq. }
  apply updatePackages_ok in P as [[N _]|(es0 & L0' & F)];
    [fold packagesDir in N; congruence|].
  fold packagesDir in L0', F. rewrite L0 in L0'. injection L0' as <-.
  destruct (Fs.lookup (manifestPath packagesDir pkg) (tree w)) as [m|] eqn:Lm;
    [|contradiction].
  destruct (NoDup_split pkg _ ND (manifest_listed _ _ _ _ _ L Lm))
    as (pre & post & Hl & Hpre & Hpost).
  rewrite Hl in F. apply forM_split_ok in F as (v & v' & F1 & F2 & F3).
  assert (Pv : forall p,
             (exists q, p = (packagesDir // pkg ++ q)%list) ->
             Fs.lookup p (tree v) = Fs.lookup p (tree w)).
  { intros p [q ->]. rewrite <- F0 by (intros q'; unfold packagesDir; path_neq).
    refine (updatePackages_frame_loop rootDir newName _ _ pre _ _ _ _ w0 _ v
              eq_refl F1).
    - intros y q' Hy. unfold packagesDir. path_neq.
    - intros y q' q'' Hy. unfold packagesDir. path_neq. }
  assert (Kv : kept c v).
  { refine (preserves_forM (kept c) pre _ _ w0 _ v K0 F1).
    intros y Hy. assert (Hne : y <> pkg) by (intros ->; contradiction).
    apply (updatePackage_preserves others _ (St c)); now apply Hpk. }
  destruct (updatePackage_kept_file packagesDir old new newName pkg f c (trace w)
              v v' ses) as (c' & Kv' & Ht & Hsame); try assumption.
  { rewrite Pv; [now rewrite Lm | now exists ["package.json"]]. }
  { rewrite Pv; [assumption | now exists ["src"]]. }
  assert (K2 : kept c' w2).
  { refine (preserves_forM (kept c') post _ _ v' _ w2 Kv' F3).
    intros y Hy. assert (Hne : y <> pkg) by (intros ->; contradiction).
    apply (updatePackage_preserves others _ (St c')); now apply Hpk. }
  assert (K' : kept c' w').
  { exact (updateExtraFiles_preserves rootDir others _ (St c') newName Hdoc1 Hdoc2
             w2 _ w' K2 X). }
  split; [|split; [|split]].
  - exists c'. split; [apply K'|]. rewrite Ht. symmetry. now apply join_split.
  - split; [now apply join_split_same | now apply split_pieces].
  - split; [now apply join_split_same | now apply split_pieces].
  - intros H1 H2. destruct K' as [Lc' Htr].
    rewrite (Hsame (conj H1 H2)) in Lc'. split; [exact Lc'|].
    destruct (Htr (conj H1 H2)) as (ps & T & Hps). exists ps. split; [exact T|].
    intros Hf. rewrite Forall_forall in Hps. now apply (Hps f Hf).
Qed.

Lemma C5_sources_after_run_witness :
  exists w',
    renameProject ["app"] "shop" (World styled_workspace []) = (Ok tt, w')
    /\ (exists c',
          Fs.lookup ["app"; "packages"; "ui"; "src"; "index.ts"] (tree w')
          = Some (File c')
          /\ text_of c' = "export * from '@shop/ui/button'")
    /\ Forall (fun piece => includes piece "@old/" = false)
         (split "export * from '@old/ui/button'" "@old/").
Proof.
  pose (w := World styled_workspace []).
  pose (w' := snd (renameProject ["app"] "shop" w)).
  assert (ND : NoDup ["ui"; "docs"])
    by (repeat constructor; simpl; intuition discriminate).
  assert (Hd : distinct_names
                 (Dir [("index.ts", File (Text "export * from '@old/ui/button'"));
                       ("theme.css", File (Text "@import '@old/ui/base.css';"))])).
  { simpl. repeat split; repeat constructor; simpl; intuition discriminate. }
  assert (Hm : Fs.lookup (manifestPath (["app"] // "packages") "ui") (tree w) <> None)
    by discriminate.
  destruct (C5_sources_after_run ["app"] "shop" "@old" "ui" w w' _ _
              ["index.ts"] _
              eq_refl eq_refl eq_refl eq_refl ND Hm eq_refl Hd eq_refl eq_refl)
    as (Hc & (_ & Hp) & _).
  exists w'. split; [reflexivity|]. split; [exact Hc | exact Hp].
Defined.
